(** * CryptoScout: the metrics and scoring pipeline

    A shallow embedding of [utils/data.py] ([merge_datasets]) and
    [utils/metrics.py] ([calculate_financial_metrics],
    [calculate_venture_score]) together with the properties the
    specification states about them, followed by the rest of the data
    path: the sample data, [fetch_protocols_data] and [fetch_fees_data] of
    [utils/data.py], and [apply_filters] and the figures of
    [render_kpi_cards] of [utils/ui.py].

    Modelling choices.
    - A pandas [DataFrame] is an ordered list of named columns over a
      [RangeIndex]; a column is either numeric ([float64]) or holds Python
      objects (text, missing, lists).
    - A [float64] is an exact rational or one of the three special values
      [+inf], [-inf], [NaN]; the special values follow the IEEE rules, the
      finite ones are computed exactly (no rounding, overflow or underflow).
      A statement that an overflow or an underflow would break is made for
      cells of a moderate magnitude ([moderate]), where [float64] does
      neither.
    - Text is ASCII text.
    - The three functions run in a state monad over a store of tables, so
      that [df.copy()], [df[c] = ...] and [df.loc[i, c] = ...] keep their
      identity: an assignment changes the table it is applied to.
    - The generator of Python's [random] module, the text parser of
      [pd.to_numeric] and the sorting routine of [sort_values] are
      parameters; the network request of the two fetch functions is
      represented by its outcome. *)

From Stdlib Require Import Ascii QArith Qminmax Qround Lqa Sorting.Permutation Sorting.Sorted.
From stdpp Require Import base option list strings pretty.

Open Scope Q_scope.

(* ================================================================= *)
(** ** Floating-point cells *)

Module F64.

Inductive f64 : Type :=
  | Fin (q : Q)
  | PInf
  | NInf
  | NaN.

Definition Qltb (a b : Q) : bool :=
  match a ?= b with Lt => true | _ => false end.

Definition Qeqb0 (a : Q) : bool :=
  match a ?= 0 with Eq => true | _ => false end.

Definition neg (x : f64) : f64 :=
  match x with
  | Fin q => Fin (- q)
  | PInf => NInf
  | NInf => PInf
  | NaN => NaN
  end.

Definition add (x y : f64) : f64 :=
  match x, y with
  | NaN, _ | _, NaN => NaN
  | Fin a, Fin b => Fin (a + b)
  | PInf, NInf | NInf, PInf => NaN
  | PInf, _ | _, PInf => PInf
  | NInf, _ | _, NInf => NInf
  end.

Definition sub (x y : f64) : f64 := add x (neg y).

(** The infinity with the sign of [q]; [NaN] for zero. *)
Definition signed_inf (q : Q) (pos : f64) : f64 :=
  match q ?= 0 with
  | Eq => NaN
  | Gt => pos
  | Lt => neg pos
  end.

Definition mul (x y : f64) : f64 :=
  match x, y with
  | NaN, _ | _, NaN => NaN
  | Fin a, Fin b => Fin (a * b)
  | Fin a, PInf | PInf, Fin a => signed_inf a PInf
  | Fin a, NInf | NInf, Fin a => signed_inf a NInf
  | PInf, PInf | NInf, NInf => PInf
  | PInf, NInf | NInf, PInf => NInf
  end.

(** Division never raises on a float column: a zero divisor gives an
    infinity ([0/0] gives [NaN]). *)
Definition div (x y : f64) : f64 :=
  match x, y with
  | NaN, _ | _, NaN => NaN
  | Fin a, Fin b => if Qeqb0 b then signed_inf a PInf else Fin (a / b)
  | Fin _, (PInf | NInf) => Fin 0
  | PInf, Fin b => if Qltb b 0 then NInf else PInf
  | NInf, Fin b => if Qltb b 0 then PInf else NInf
  | (PInf | NInf), (PInf | NInf) => NaN
  end.

(** [x < y]; every comparison with [NaN] is false. *)
Definition ltb (x y : f64) : bool :=
  match x, y with
  | NaN, _ | _, NaN => false
  | Fin a, Fin b => Qltb a b
  | NInf, NInf | PInf, _ => false
  | NInf, _ => true
  | Fin _, PInf => true
  | Fin _, NInf => false
  end.

Definition gtb (x y : f64) : bool := ltb y x.

(** [x <= y] on values that are not [NaN] (used to sort). *)
Definition leb (x y : f64) : bool := negb (ltb y x).

Definition isna (x : f64) : bool :=
  match x with NaN => true | _ => false end.

Definition notna (x : f64) : bool := negb (isna x).

Definition is_inf (x : f64) : bool :=
  match x with PInf | NInf => true | _ => false end.

(** [Series.clip(lo, hi)]: [NaN] stays [NaN]. *)
Definition clip (lo hi : Q) (x : f64) : f64 :=
  match x with
  | NaN => NaN
  | PInf => Fin hi
  | NInf => Fin lo
  | Fin q => Fin (if Qltb q lo then lo else if Qltb hi q then hi else q)
  end.

(** Round half to even, to an integer. *)
Definition rint (q : Q) : Z :=
  let f := Qfloor q in
  let d := q - inject_Z f in
  match Qcompare d (1 # 2) with
  | Lt => f
  | Gt => (f + 1)%Z
  | Eq => if Z.even f then f else (f + 1)%Z
  end.

(** [Series.round(1)]. *)
Definition round1 (x : f64) : f64 :=
  match x with
  | Fin q => Fin (inject_Z (rint (q * 10)) / 10)
  | _ => x
  end.

End F64.
Export F64.

(* ================================================================= *)
(** ** Text normalisation: [str.lower()] and [str.strip()] on ASCII text *)

Definition lower_char (c : ascii) : ascii :=
  let n := nat_of_ascii c in
  if ((65 <=? n)%nat && (n <=? 90)%nat)%bool then ascii_of_nat (n + 32) else c.

Fixpoint lower (s : string) : string :=
  match s with
  | EmptyString => EmptyString
  | String c s' => String (lower_char c) (lower s')
  end.

(** Python's whitespace in the ASCII range: TAB..CR, FS..US and the space. *)
Definition is_space (c : ascii) : bool :=
  let n := nat_of_ascii c in
  (((9 <=? n)%nat && (n <=? 13)%nat) || ((28 <=? n)%nat && (n <=? 32)%nat))%bool.

Fixpoint lstrip (s : string) : string :=
  match s with
  | EmptyString => EmptyString
  | String c s' => if is_space c then lstrip s' else s
  end.

Fixpoint rstrip (s : string) : string :=
  match s with
  | EmptyString => EmptyString
  | String c s' =>
      match rstrip s' with
      | EmptyString => if is_space c then EmptyString else String c EmptyString
      | r => String c r
      end
  end.

Definition strip (s : string) : string := rstrip (lstrip s).

(* ================================================================= *)
(** ** Tables *)

(** A Python object held in an [object] column: text, a missing value
    ([None]/[NaN]) or a list of text (the [chains] field). *)
Inductive obj : Type :=
  | OStr (s : string)
  | ONone
  | OList (l : list string).

#[global] Instance obj_eq_dec : EqDecision obj.
Proof. solve_decision. Defined.

Inductive column : Type :=
  | NumCol (xs : list f64)
  | ObjCol (xs : list obj).

Inductive cell : Type :=
  | CNum (x : f64)
  | CObj (o : obj).

(** A table over the index [0 .. nrows - 1]. *)
Record DataFrame : Type := mkDF {
  nrows : nat;
  columns : list (string * column)
}.

Definition col_len (c : column) : nat :=
  match c with NumCol xs => length xs | ObjCol xs => length xs end.

Definition cell_at (c : column) (i : nat) : option cell :=
  match c with
  | NumCol xs => CNum <$> xs !! i
  | ObjCol xs => CObj <$> xs !! i
  end.

Fixpoint lookup_col (c : string) (cs : list (string * column)) : option column :=
  match cs with
  | [] => None
  | (n, v) :: cs' => if String.eqb n c then Some v else lookup_col c cs'
  end.

(** [df[c] = v] on the column list: in place when [c] exists, appended
    otherwise. *)
Fixpoint set_col (c : string) (v : column) (cs : list (string * column))
  : list (string * column) :=
  match cs with
  | [] => [(c, v)]
  | (n, w) :: cs' => if String.eqb n c then (n, v) :: cs' else (n, w) :: set_col c v cs'
  end.

Definition has_col (c : string) (d : DataFrame) : bool :=
  match lookup_col c (columns d) with Some _ => true | None => false end.

Definition df_set (c : string) (v : column) (d : DataFrame) : DataFrame :=
  mkDF (nrows d) (set_col c v (columns d)).

(** Every column is as long as the index. *)
Definition wf (d : DataFrame) : Prop :=
  Forall (fun nc => col_len nc.2 = nrows d) (columns d).

(** *** Errors *)

Inductive exn : Type :=
  | KeyError (k : string)
  | TypeError
  | AttributeError
  | ValueError
  | IndexError
  | OverflowError.

Inductive result (A : Type) : Type :=
  | Ok (a : A)
  | Raise (e : exn).
Arguments Ok {A} a.
Arguments Raise {A} e.

Definition rbind {A B} (r : result A) (k : A -> result B) : result B :=
  match r with Ok a => k a | Raise e => Raise e end.

Definition get_col (d : DataFrame) (c : string) : result column :=
  match lookup_col c (columns d) with
  | Some v => Ok v
  | None => Raise (KeyError c)
  end.

(** A column read by an arithmetic or comparison operator. *)
Definition num_col (d : DataFrame) (c : string) : result (list f64) :=
  rbind (get_col d c) (fun v =>
    match v with NumCol xs => Ok xs | ObjCol _ => Raise TypeError end).

(** *** Selecting rows *)

Definition gather {A} (idxs : list nat) (xs : list A) : list A :=
  omap (fun i => xs !! i) idxs.

Definition gather_col (idxs : list nat) (c : column) : column :=
  match c with
  | NumCol xs => NumCol (gather idxs xs)
  | ObjCol xs => ObjCol (gather idxs xs)
  end.

Definition take_rows (idxs : list nat) (d : DataFrame) : DataFrame :=
  mkDF (length idxs) (map (fun nc => (nc.1, gather_col idxs nc.2)) (columns d)).

(** Positions where a boolean mask holds. *)
Fixpoint indices_from (i : nat) (mask : list bool) : list nat :=
  match mask with
  | [] => []
  | b :: m => if b then i :: indices_from (S i) m else indices_from (S i) m
  end.

Definition indices_of (mask : list bool) : list nat := indices_from 0 mask.

(** [df[mask]]. *)
Definition filter_rows (mask : list bool) (d : DataFrame) : DataFrame :=
  take_rows (indices_of mask) d.

(** *** [drop_duplicates] and the left join *)

(** A column used as a key.  The keys of this program are the results of
    [str.lower().str.strip()], which are object columns. *)
Definition key_col (d : DataFrame) (c : string) : result (list obj) :=
  rbind (get_col d c) (fun v =>
    match v with ObjCol xs => Ok xs | NumCol _ => Raise TypeError end).

(** Positions of the rows whose key was not seen before ([keep='first']);
    two missing keys count as equal. *)
Fixpoint first_occ_from (seen : list obj) (i : nat) (ks : list obj) : list nat :=
  match ks with
  | [] => []
  | k :: ks' =>
      if bool_decide (k ∈ seen) then first_occ_from seen (S i) ks'
      else i :: first_occ_from (k :: seen) (S i) ks'
  end.

Definition first_occurrences (ks : list obj) : list nat := first_occ_from [] 0 ks.

Definition drop_duplicates (subset : string) (d : DataFrame) : result DataFrame :=
  rbind (key_col d subset) (fun ks => Ok (take_rows (first_occurrences ks) d)).

(** [df[[c1; ...; cn]]]. *)
Fixpoint select_cols (names : list string) (d : DataFrame)
  : result (list (string * column)) :=
  match names with
  | [] => Ok []
  | n :: ns =>
      rbind (get_col d n) (fun c =>
      rbind (select_cols ns d) (fun cs => Ok ((n, c) :: cs)))
  end.

Definition select (names : list string) (d : DataFrame) : result DataFrame :=
  rbind (select_cols names d) (fun cs => Ok (mkDF (nrows d) cs)).

Definition positions (k : obj) (ks : list obj) : list nat :=
  indices_of (map (fun o => bool_decide (o = k)) ks).

(** The row pairs of a left join: every left row, in order, once per
    matching right row, or once with no partner. *)
Fixpoint join_from (i : nat) (lk rk : list obj) : list (nat * option nat) :=
  match lk with
  | [] => []
  | k :: lk' =>
      match positions k rk with
      | [] => [(i, None)]
      | js => map (fun j => (i, Some j)) js
      end ++ join_from (S i) lk' rk
  end.

Definition gather_opt {A} (na : A) (idxs : list (option nat)) (xs : list A) : list A :=
  map (fun oi => match oi with
                 | Some j => default na (xs !! j)
                 | None => na
                 end) idxs.

Definition gather_opt_col (idxs : list (option nat)) (c : column) : column :=
  match c with
  | NumCol xs => NumCol (gather_opt NaN idxs xs)
  | ObjCol xs => ObjCol (gather_opt ONone idxs xs)
  end.

Definition suffixed (overlap : list string) (sfx n : string) : string :=
  if bool_decide (n ∈ overlap) then n +:+ sfx else n.

(** [left.merge(right, on=key, how='left')]: the left columns, then the
    right columns other than the key; a name on both sides gets the
    suffixes [_x] and [_y]. *)
Definition merge_left (l r : DataFrame) (on : string) : result DataFrame :=
  rbind (key_col l on) (fun lk =>
  rbind (key_col r on) (fun rk =>
    let pairs := join_from 0 lk rk in
    let rcols := List.filter (fun nc => negb (String.eqb nc.1 on)) (columns r) in
    let overlap :=
      List.filter (fun n => negb (String.eqb n on) && bool_decide (n ∈ rcols.*1))
                  (columns l).*1 in
    Ok (mkDF (length pairs)
         (map (fun nc => (if String.eqb nc.1 on then nc.1
                          else suffixed overlap "_x" nc.1,
                          gather_col pairs.*1 nc.2)) (columns l)
          ++ map (fun nc => (suffixed overlap "_y" nc.1,
                             gather_opt_col pairs.*2 nc.2)) rcols)))).

(** [df.drop(columns=names)]. *)
Definition drop_cols (names : list string) (d : DataFrame) : DataFrame :=
  mkDF (nrows d)
       (List.filter (fun nc => negb (bool_decide (nc.1 ∈ names))) (columns d)).

(* ================================================================= *)
(** ** The store of tables *)

Abbreviation loc := nat.
Abbreviation store := (list DataFrame).

Definition M (A : Type) : Type := store -> result A * store.

#[global] Instance M_ret : MRet M := fun A a h => (Ok a, h).
#[global] Instance M_bind : MBind M := fun A B k m h =>
  match m h with
  | (Ok a, h') => k a h'
  | (Raise e, h') => (Raise e, h')
  end.

Definition lift {A} (r : result A) : M A := fun h => (r, h).

(** A new table with the given contents. *)
Definition alloc (d : DataFrame) : M loc := fun h => (Ok (length h), h ++ [d]).

Definition read (l : loc) : M DataFrame := fun h =>
  match h !! l with
  | Some d => (Ok d, h)
  | None => (Raise ValueError, h)
  end.

(** [df.copy()]: the contents of [l] under a new identity. *)
Definition copy (l : loc) : M loc := d ← read l; alloc d.

(** [df[c] = v]: the table at [l] itself changes. *)
Definition setcol (l : loc) (c : string) (v : column) : M unit := fun h =>
  match h !! l with
  | Some d =>
      if (col_len v =? nrows d)%nat then (Ok tt, <[l := df_set c v d]> h)
      else (Raise ValueError, h)
  | None => (Raise ValueError, h)
  end.

(** [df[c] = x] for a scalar [x]. *)
Definition setcol_scalar (l : loc) (c : string) (x : f64) : M unit :=
  d ← read l; setcol l c (NumCol (replicate (nrows d) x)).

(** [df.loc[i, c] = v] for a row of the index and a value of the column's
    kind (pandas would add a row or change the column type otherwise; the
    program never does either). *)
Definition setcell (l : loc) (i : nat) (c : string) (v : cell) : M unit :=
  d ← read l;
  col ← lift (get_col d c);
  if (i <? nrows d)%nat then
    match col, v with
    | NumCol xs, CNum x => setcol l c (NumCol (<[i := x]> xs))
    | ObjCol xs, CObj o => setcol l c (ObjCol (<[i := o]> xs))
    | _, _ => lift (Raise TypeError)
    end
  else lift (Raise (KeyError c)).

(** [df.loc[i, c]]. *)
Definition getcell (l : loc) (i : nat) (c : string) : M cell :=
  d ← read l;
  col ← lift (get_col d c);
  match cell_at col i with
  | Some v => mret v
  | None => lift (Raise (KeyError c))
  end.

Definition getnum (l : loc) (c : string) : M (list f64) :=
  d ← read l; lift (num_col d c).

Fixpoint for_each {A} (xs : list A) (body : A -> M unit) : M unit :=
  match xs with
  | [] => mret tt
  | x :: xs' => body x;; for_each xs' body
  end.

(* ================================================================= *)
(** ** Vectorised expressions *)

(** [np.where(mask, a, b)]. *)
Definition np_where {A} (mask : list bool) (a b : list A) : list A :=
  zip_with (fun (c : bool) (p : A * A) => if c then p.1 else p.2) mask (zip a b).

Definition gt0 (xs : list f64) : list bool := map (fun x => gtb x (Fin 0)) xs.

Definition mul_s (xs : list f64) (k : Q) : list f64 := map (fun x => mul x (Fin k)) xs.

Definition isna_col (c : column) : list bool :=
  match c with
  | NumCol xs => map isna xs
  | ObjCol xs => map (fun o => bool_decide (o = ONone)) xs
  end.

(** [Series.fillna(0)] on a numeric column. *)
Definition fillna0 (c : column) : result column :=
  match c with
  | NumCol xs => Ok (NumCol (map (fun x => if isna x then Fin 0 else x) xs))
  | ObjCol _ => Raise TypeError
  end.

(** [Series.str.lower().str.strip()]: cells that are not text become
    missing. *)
Definition str_lower_strip (o : obj) : obj :=
  match o with
  | OStr s => OStr (strip (lower s))
  | _ => ONone
  end.

(** A column read through the [.str] accessor. *)
Definition str_col (d : DataFrame) (c : string) : result (list obj) :=
  rbind (get_col d c) (fun v =>
    match v with ObjCol xs => Ok xs | NumCol _ => Raise AttributeError end).

Definition getstr (l : loc) (c : string) : M (list obj) :=
  d ← read l; lift (str_col d c).

(** [pd.notna(v)] used as a condition; a list has no single truth value. *)
Definition pd_notna (v : cell) : result bool :=
  match v with
  | CNum x => Ok (notna x)
  | CObj (OStr _) => Ok true
  | CObj ONone => Ok false
  | CObj (OList _) => Raise ValueError
  end.

(** [str(v)] where [v] is text (the only case that reaches it: the symbol
    column is an object column whose missing cells are skipped). *)
Definition py_str (v : cell) : result string :=
  match v with
  | CObj (OStr s) => Ok s
  | _ => Raise TypeError
  end.

(** [column == s]. *)
Definition col_eq_str (c : column) (s : string) : list bool :=
  match c with
  | ObjCol xs => map (fun o => bool_decide (o = OStr s)) xs
  | NumCol xs => map (fun _ => false) xs
  end.

(** [df.iloc[0][c]]. *)
Definition iloc0 (d : DataFrame) (c : string) : result cell :=
  rbind (get_col d c) (fun col =>
    match cell_at col 0 with
    | Some v => Ok v
    | None => Raise IndexError
    end).

(** *** Median *)

Fixpoint insert_sorted (x : f64) (l : list f64) : list f64 :=
  match l with
  | [] => [x]
  | y :: l' => if leb x y then x :: l else y :: insert_sorted x l'
  end.

Fixpoint sort (l : list f64) : list f64 :=
  match l with
  | [] => []
  | x :: l' => insert_sorted x (sort l')
  end.

(** [Series.median()]: missing values are skipped; the middle value, or
    the mean of the two middle values. *)
Definition median (xs : list f64) : f64 :=
  let s := sort (List.filter notna xs) in
  let n := length s in
  if (n =? 0)%nat then NaN
  else if Nat.even n
       then div (add (default NaN (s !! (n / 2 - 1)%nat)) (default NaN (s !! (n / 2)%nat)))
                (Fin 2)
       else default NaN (s !! (n / 2)%nat).

(* ================================================================= *)
(** ** [utils/consts.py] *)

Definition VALUATION_GAP_WEIGHT : Q := 0.40.
Definition REVENUE_TREND_WEIGHT : Q := 0.30.
Definition SIZE_EFFICIENCY_WEIGHT : Q := 0.30.

(* ================================================================= *)
(** ** [utils/metrics.py] *)

Definition annualized_revenue (total30d total24h : list f64) : list f64 :=
  np_where (gt0 total30d) (mul_s total30d 12) (mul_s total24h 365).

Definition ps_ratio (mcap annualized : list f64) : list f64 :=
  np_where (gt0 annualized) (zip_with div mcap annualized)
           (replicate (length annualized) PInf).

(** [ps_ratio.replace([np.inf, -np.inf], np.nan)]. *)
Definition ps_ratio_calc (ps : list f64) : list f64 :=
  map (fun x => if is_inf x then NaN else x) ps.

Definition valid (x : f64) : bool :=
  notna x && gtb x (Fin 0) && ltb x (Fin 1000).

Definition valid_mask (calc : list f64) : list bool := map valid calc.

Definition fair_value (annualized : list f64) (sector_median_ps : f64) : list f64 :=
  map (fun x => mul x sector_median_ps) annualized.

Definition upside_potential (mcap fair : list f64) : list f64 :=
  np_where (gt0 mcap)
           (mul_s (zip_with div (zip_with sub fair mcap) mcap) 100)
           (replicate (length mcap) (Fin 0)).

Definition calculate_financial_metrics (df_in : loc) : M loc :=
  df ← copy df_in;
  total30d ← getnum df "total30d";
  total24h ← getnum df "total24h";
  setcol df "annualized_revenue" (NumCol (annualized_revenue total30d total24h));;
  annualized ← getnum df "annualized_revenue";
  mcap ← getnum df "mcap";
  setcol df "ps_ratio" (NumCol (ps_ratio mcap annualized));;
  ps ← getnum df "ps_ratio";
  setcol df "ps_ratio_calc" (NumCol (ps_ratio_calc ps));;
  calc ← getnum df "ps_ratio_calc";
  d ← read df;
  let valid_ps := filter_rows (valid_mask calc) d in
  sector_median_ps ←
    (if (0 <? nrows valid_ps)%nat
     then v ← lift (num_col valid_ps "ps_ratio_calc"); mret (median v)
     else mret (Fin 10.0));
  setcol_scalar df "sector_median_ps" sector_median_ps;;
  annualized ← getnum df "annualized_revenue";
  setcol df "fair_value" (NumCol (fair_value annualized sector_median_ps));;
  mcap ← getnum df "mcap";
  fair ← getnum df "fair_value";
  setcol df "upside_potential" (NumCol (upside_potential mcap fair));;
  mret df.

Definition valuation_score (upside : list f64) : list f64 :=
  map (fun x => mul (div (add (clip (-100) 200 x) (Fin 100)) (Fin 300))
                    (Fin (VALUATION_GAP_WEIGHT * 100))) upside.

Definition daily_avg_7d (total7d : list f64) : list f64 :=
  map (fun x => div x (Fin 7)) total7d.

Definition revenue_trend (total24h avg : list f64) : list f64 :=
  np_where (gt0 avg)
           (mul_s (zip_with div (zip_with sub total24h avg) avg) 100)
           (replicate (length avg) (Fin 0)).

Definition revenue_trend_status (total7d : list f64) : list obj :=
  np_where (gt0 total7d)
           (replicate (length total7d) (OStr "Calculated"))
           (replicate (length total7d) (OStr "Insufficient Data")).

Definition trend_score (trend : list f64) : list f64 :=
  map (fun x => mul (div (add (clip (-50) 50 x) (Fin 50)) (Fin 100))
                    (Fin (REVENUE_TREND_WEIGHT * 100))) trend.

Definition tvl_mcap_ratio (tvl mcap : list f64) : list f64 :=
  np_where (gt0 mcap) (zip_with div tvl mcap) (replicate (length mcap) (Fin 0)).

Definition efficiency_score (ratio : list f64) : list f64 :=
  map (fun x => mul (div (clip 0 10 x) (Fin 10))
                    (Fin (SIZE_EFFICIENCY_WEIGHT * 100))) ratio.

Definition score_sum (v t e : list f64) : list f64 :=
  zip_with add (zip_with add v t) e.

Definition calculate_venture_score (df_in : loc) : M loc :=
  df ← copy df_in;
  upside ← getnum df "upside_potential";
  setcol df "valuation_score" (NumCol (valuation_score upside));;
  total7d ← getnum df "total7d";
  setcol df "daily_avg_7d" (NumCol (daily_avg_7d total7d));;
  avg ← getnum df "daily_avg_7d";
  total24h ← getnum df "total24h";
  setcol df "revenue_trend" (NumCol (revenue_trend total24h avg));;
  total7d ← getnum df "total7d";
  setcol df "revenue_trend_status" (ObjCol (revenue_trend_status total7d));;
  trend ← getnum df "revenue_trend";
  setcol df "trend_score" (NumCol (trend_score trend));;
  mcap ← getnum df "mcap";
  tvl ← getnum df "tvl";
  setcol df "tvl_mcap_ratio" (NumCol (tvl_mcap_ratio tvl mcap));;
  ratio ← getnum df "tvl_mcap_ratio";
  setcol df "efficiency_score" (NumCol (efficiency_score ratio));;
  v ← getnum df "valuation_score";
  t ← getnum df "trend_score";
  e ← getnum df "efficiency_score";
  setcol df "venture_score" (NumCol (map round1 (score_sum v t e)));;
  vs ← getnum df "venture_score";
  setcol df "venture_score" (NumCol (map (clip 0 100) vs));;
  mret df.

(* ================================================================= *)
(** ** [utils/data.py] *)

Definition getcol (l : loc) (c : string) : M column :=
  d ← read l; lift (get_col d c).

(** The body of the loop over the unmatched rows: look the row's symbol up
    in the symbol-deduplicated revenue table. *)
Definition symbol_pass (merged : loc) (fees_symbol_dedup : DataFrame) (idx : nat)
  : M unit :=
  symbol_val ← getcell merged idx "symbol";
  present ← lift (pd_notna symbol_val);
  if present : bool then
    s ← lift (py_str symbol_val);
    let symbol_lower := strip (lower s) in
    keys ← lift (get_col fees_symbol_dedup "symbol_lower");
    let match_ := filter_rows (col_eq_str keys symbol_lower) fees_symbol_dedup in
    if negb (nrows match_ =? 0)%nat then
      v24 ← lift (iloc0 match_ "total24h");
      setcell merged idx "total24h" v24;;
      v7 ← lift (iloc0 match_ "total7d");
      setcell merged idx "total7d" v7;;
      v30 ← lift (iloc0 match_ "total30d");
      setcell merged idx "total30d" v30
    else mret tt
  else mret tt.

(** Lines 164-203: the second pass, for the rows the join left without
    revenue. *)
Definition symbol_matching (protocols fees merged : loc) (unmatched_mask : list bool)
  : M unit :=
  if existsb id unmatched_mask then
    pd ← read protocols;
    if has_col "symbol" pd then
      psym ← getstr protocols "symbol";
      setcol protocols "symbol_lower" (ObjCol (map str_lower_strip psym));;
      fsym ← getstr fees "symbol";
      setcol fees "symbol_lower" (ObjCol (map str_lower_strip fsym));;
      fd ← read fees;
      fees_symbol_dedup ← lift (drop_duplicates "symbol_lower" fd);
      let unmatched_indices := indices_of unmatched_mask in
      for_each unmatched_indices (symbol_pass merged fees_symbol_dedup)
    else mret tt
  else mret tt.

Definition merge_datasets (protocols_df fees_df : loc) : M loc :=
  protocols ← copy protocols_df;
  fees ← copy fees_df;
  pname ← getstr protocols "name";
  setcol protocols "name_lower" (ObjCol (map str_lower_strip pname));;
  fname ← getstr fees "name";
  setcol fees "name_lower" (ObjCol (map str_lower_strip fname));;
  fd ← read fees;
  fees_dedup ← lift (drop_duplicates "name_lower" fd);
  right ← lift (select ["name_lower"; "total24h"; "total7d"; "total30d"] fees_dedup);
  pd ← read protocols;
  joined ← lift (merge_left pd right "name_lower");
  merged ← alloc joined;
  t24 ← getcol merged "total24h";
  let unmatched_mask := isna_col t24 in
  symbol_matching protocols fees merged unmatched_mask;;
  for_each ["total24h"; "total7d"; "total30d"] (fun col =>
    c ← getcol merged col;
    filled ← lift (fillna0 c);
    setcol merged col filled);;
  md ← read merged;
  let existing_drop :=
    List.filter (fun c => has_col c md) ["name_lower"; "symbol_lower"] in
  alloc (drop_cols existing_drop md).

(* ================================================================= *)
(** ** [app.py]: the three stages in sequence *)

Definition metrics_then_score (merged_df : loc) : M loc :=
  metrics_df ← calculate_financial_metrics merged_df;
  calculate_venture_score metrics_df.

Definition pipeline (protocols_df fees_df : loc) : M loc :=
  merged_df ← merge_datasets protocols_df fees_df;
  metrics_then_score merged_df.

(* ================================================================= *)
(** ** Sample tables *)

Definition s_name : list obj :=
  [OStr "Foo"; OStr "  BAR "; OStr "Foo"; OStr "Qux"; OStr "Nope"].
Definition s_symbol : list obj :=
  [OStr "FOO"; ONone; OStr "F2"; OStr "baz "; OStr "ZZZ"].
Definition s_tvl : list f64 := [Fin 500000; Fin 0; Fin 30; Fin 7; Fin 50].
Definition s_mcap : list f64 := [Fin 1000000; Fin 0; Fin 10; Fin 2; Fin 20].

Definition sample_protocols : DataFrame :=
  mkDF 5 [("name", ObjCol s_name); ("symbol", ObjCol s_symbol);
          ("tvl", NumCol s_tvl); ("mcap", NumCol s_mcap)].

Definition f_name : list obj :=
  [OStr "foo"; OStr "FOO "; OStr "Baz Finance"; OStr "Other"].
Definition f_symbol : list obj := [OStr "X"; OStr "Y"; OStr "BAZ"; OStr "baz"].
Definition f_total24h : list f64 := [Fin 4000; Fin 1; Fin 1000; Fin 3].
Definition f_total7d : list f64 := [Fin 28000; Fin 2; Fin 0; Fin 4].
Definition f_total30d : list f64 := [Fin 100000; Fin 3; Fin 0; Fin 5].

Definition sample_fees : DataFrame :=
  mkDF 4 [("name", ObjCol f_name); ("symbol", ObjCol f_symbol);
          ("total24h", NumCol f_total24h); ("total7d", NumCol f_total7d);
          ("total30d", NumCol f_total30d)].

Definition sample_store : store := [sample_protocols; sample_fees].

(** A revenue table with the required fields and no row. *)
Definition empty_fees : DataFrame :=
  mkDF 0 [("name", ObjCol []); ("symbol", ObjCol []);
          ("total24h", NumCol []); ("total7d", NumCol []); ("total30d", NumCol [])].

(** The table a run returns, or the empty table. *)
Definition result_table (r : result loc * store) : DataFrame :=
  match r with
  | (Ok l, h) => default (mkDF 0 []) (h !! l)
  | _ => mkDF 0 []
  end.

Definition s_total24h : list f64 := [Fin 4000; Fin 0; Fin 4000; Fin 1000; Fin 0].
Definition s_total7d : list f64 := [Fin 28000; Fin 0; Fin 28000; Fin 0; Fin 0].
Definition s_total30d : list f64 := [Fin 100000; Fin 0; Fin 100000; Fin 0; Fin 0].

(** The sample after [merge_datasets]. *)
Definition sample_merged : DataFrame :=
  Eval vm_compute in result_table (merge_datasets 0%nat 1%nat sample_store).

(** The sample after [calculate_financial_metrics]. *)
Definition sample_metrics : DataFrame :=
  Eval vm_compute in result_table (calculate_financial_metrics 0%nat [sample_merged]).

Definition s_upside : list f64 :=
  Eval vm_compute in
    match num_col sample_metrics "upside_potential" with Ok xs => xs | _ => [] end.

(* ================================================================= *)
(** ** Derived descriptions used in the statements *)

(** The batch statistic of [calculate_financial_metrics]: the median of the
    valid price/sales ratios, [10.0] when there is none. *)
Definition sector_median (calc : list f64) : f64 :=
  let v := List.filter valid calc in
  if (0 <? length v)%nat then median v else Fin 10.0.

(** The table [calculate_financial_metrics] builds from a table [d] whose
    [total30d], [total24h] and [mcap] columns are [t30], [t24] and [mc]
    (lemma [calculate_financial_metrics_run]). *)
Definition metrics_table (d : DataFrame) (t30 t24 mc : list f64) : DataFrame :=
  let ar := annualized_revenue t30 t24 in
  let ps := ps_ratio mc ar in
  let calc := ps_ratio_calc ps in
  let m := sector_median calc in
  let fv := fair_value ar m in
  df_set "upside_potential" (NumCol (upside_potential mc fv))
 (df_set "fair_value" (NumCol fv)
 (df_set "sector_median_ps" (NumCol (replicate (nrows d) m))
 (df_set "ps_ratio_calc" (NumCol calc)
 (df_set "ps_ratio" (NumCol ps)
 (df_set "annualized_revenue" (NumCol ar) d))))).

(** The table [calculate_venture_score] builds from a table [d] whose
    [upside_potential], [total7d], [total24h], [mcap] and [tvl] columns are
    the given ones (lemma [calculate_venture_score_run]). *)
Definition score_table (d : DataFrame) (up t7 t24 mc tv : list f64) : DataFrame :=
  let v := valuation_score up in
  let avg := daily_avg_7d t7 in
  let tr := revenue_trend t24 avg in
  let ts := trend_score tr in
  let ratio := tvl_mcap_ratio tv mc in
  let e := efficiency_score ratio in
  df_set "venture_score" (NumCol (map (clip 0 100) (map round1 (score_sum v ts e))))
 (df_set "venture_score" (NumCol (map round1 (score_sum v ts e)))
 (df_set "efficiency_score" (NumCol e)
 (df_set "tvl_mcap_ratio" (NumCol ratio)
 (df_set "trend_score" (NumCol ts)
 (df_set "revenue_trend_status" (ObjCol (revenue_trend_status t7))
 (df_set "revenue_trend" (NumCol tr)
 (df_set "daily_avg_7d" (NumCol avg)
 (df_set "valuation_score" (NumCol v) d)))))))).

(** The run of [m] from the store [h] returns normally, with a result and a
    final store that satisfy [P]. *)
Definition returns {A} (m : M A) (h : store) (P : A -> store -> Prop) : Prop :=
  exists a h', m h = (Ok a, h') /\ P a h'.

(** The finite price/sales ratios strictly between 0 and 1000, in row
    order. *)
Definition finite_in_range (x : f64) : option Q :=
  match x with
  | Fin q => if Qltb 0 q && Qltb q 1000 then Some q else None
  | _ => None
  end.

Definition valid_values (ps : list f64) : list Q := omap finite_in_range ps.

(** [m] is the median of the values [V]: the middle element of [V] in
    ascending order, or the mean of the two middle elements. *)
Definition is_median (V : list Q) (m : Q) : Prop :=
  exists s : list Q,
    Permutation s V /\ StronglySorted Qle s /\
    if Nat.even (length s)
    then exists a b, s !! (length s / 2 - 1)%nat = Some a /\
                     s !! (length s / 2)%nat = Some b /\ m = (a + b) / 2
    else s !! (length s / 2)%nat = Some m.

Definition finite (x : f64) : Prop := exists q, x = Fin q.

(** The magnitudes on which the exact arithmetic of the finite cells agrees
    with [float64] up to rounding: zero, or an absolute value between
    [1e-100] and [1e100].  On such cells none of the products and quotients
    that the two metric functions form leaves the range of [float64] (about
    [2e-308] to [1.8e308]), so that nothing overflows to an infinity and
    nothing underflows to zero.  The statements that an overflow or an
    underflow would break are made for such cells. *)
Definition moderate (q : Q) : bool :=
  let hi := Qpower 10 100 in
  let lo := Qinv hi in
  Qeqb0 q || (Qle_bool lo q && Qle_bool q hi)
          || (Qle_bool (- hi) q && Qle_bool q (- lo)).

(** The position of the first cell of [ks] equal to [k]. *)
Fixpoint find_first (k : obj) (ks : list obj) : option nat :=
  match ks with
  | [] => None
  | x :: ks' => if bool_decide (x = k) then Some 0%nat else S <$> find_first k ks'
  end.

(** The items kept by [drop_duplicates]: those whose key was not seen. *)
Fixpoint dedup_by {A} (seen ks : list obj) (items : list A) : list A :=
  match ks, items with
  | k :: ks', x :: items' =>
      if bool_decide (k ∈ seen) then dedup_by seen ks' items'
      else x :: dedup_by (k :: seen) ks' items'
  | _, _ => []
  end.

(** The value that goes with the first occurrence of the key [k]. *)
Definition key_lookup {A} (ks : list obj) (vs : list A) (k : obj) : option A :=
  j ← find_first k ks; vs !! j.

(** The protocol table brings no column named like a revenue field (pandas
    would otherwise rename both sides of the join). *)
Definition no_revenue_cols (d : DataFrame) : Prop :=
  Forall (fun nc : string * column => nc.1 ∉ ["total24h"; "total7d"; "total30d"])
         (columns d).

(** The revenue value the symbol pass finds for row [i]: the value of the
    first revenue row whose normalised symbol equals the row's. *)
Definition sym_value (psym sk : list obj) (vs : list f64) (i : nat) : option f64 :=
  match psym !! i with
  | Some (OStr s) => key_lookup sk vs (OStr (strip (lower s)))
  | _ => None
  end.

(** One step of the symbol pass on a revenue column. *)
Definition sym_upd (psym sk : list obj) (vs : list f64) (idx : nat) (c : list f64)
  : list f64 :=
  match sym_value psym sk vs idx with
  | Some x => <[idx := x]> c
  | None => c
  end.

(** The joined table during the symbol pass, relative to the table [J0] the
    join produced: the same shape and the same columns, except for the three
    revenue columns, which hold [c24], [c7] and [c30]. *)
Definition merged_state (J0 J : DataFrame) (c24 c7 c30 : list f64) : Prop :=
  nrows J = nrows J0 /\ wf J /\
  num_col J "total24h" = Ok c24 /\ num_col J "total7d" = Ok c7 /\
  num_col J "total30d" = Ok c30 /\
  forall c, c <> "total24h" -> c <> "total7d" -> c <> "total30d" ->
            get_col J c = get_col J0 c.

(** A revenue column after the join on the normalised name: the value of
    the first revenue row with the protocol's key, [NaN] without one. *)
Definition name_joined (rk : list obj) (vs : list f64) (lk : list obj) : list f64 :=
  map (fun k => default NaN (key_lookup rk vs k)) lk.

(** A revenue column of the table [merge_datasets] returns: the join on the
    name, the symbol pass over the rows whose [total24h] is still missing,
    and the final [fillna(0)]. *)
Definition merged_revenue (lk rk psym sk : list obj) (v24 vs : list f64) : list f64 :=
  let unmatched := indices_of (map isna (name_joined rk v24 lk)) in
  map (fun x => if isna x then Fin 0 else x)
      (foldl (fun c i => sym_upd psym sk vs i c) (name_joined rk vs lk) unmatched).

(** What [merge_datasets] promises about its result [O] for the protocol
    table [P]: the same number of rows, every other column of [P] as it
    was, and the three revenue columns. *)
Definition merge_output (P O : DataFrame) (t24 t7 t30 : list f64) : Prop :=
  nrows O = nrows P /\ wf O /\
  num_col O "total24h" = Ok t24 /\ num_col O "total7d" = Ok t7 /\
  num_col O "total30d" = Ok t30 /\
  forall c, c ∉ ["name_lower"; "symbol_lower"; "total24h"; "total7d"; "total30d"] ->
            get_col O c = get_col P c.

(** Row [j] is the first row of the key column [ks] with the key [k]. *)
Definition first_match (k : obj) (ks : list obj) (j : nat) : Prop :=
  ks !! j = Some k /\ forall j', (j' < j)%nat -> ks !! j' <> Some k.

(** No row of the key column [ks] has the key [k]. *)
Definition no_match (k : obj) (ks : list obj) : Prop :=
  forall j : nat, ks !! j <> Some k.

(** The normalised text key: lower-cased and trimmed. *)
Definition norm_key (s : string) : obj := OStr (strip (lower s)).

(** [m] never writes to the first [n] tables of the store and never removes
    a table, whether it returns or raises; a result it returns satisfies
    [Q]. *)
Definition preserves {A} (n : nat) (m : M A) (Q : A -> Prop) : Prop :=
  forall h : store,
    (n <= length h)%nat ->
    take n (m h).2 = take n h /\ (length h <= length (m h).2)%nat /\
    forall a, (m h).1 = Ok a -> Q a.

(* ================================================================= *)
(** ** [utils/ui.py]: [apply_filters] *)

(** [x >= y]; false when either side is [NaN]. *)
Definition geb (x y : f64) : bool :=
  match x, y with
  | NaN, _ | _, NaN => false
  | _, _ => negb (ltb x y)
  end.

(** One cell of [Series.isin(values)] for text values: a list cell cannot
    be looked up (it is not hashable). *)
Definition isin_cell (values : list string) (o : obj) : result bool :=
  match o with
  | OStr s => Ok (bool_decide (s ∈ values))
  | ONone => Ok false
  | OList _ => Raise TypeError
  end.

Fixpoint isin_cells (values : list string) (xs : list obj) : result (list bool) :=
  match xs with
  | [] => Ok []
  | o :: xs' =>
      rbind (isin_cell values o) (fun b =>
      rbind (isin_cells values xs') (fun bs => Ok (b :: bs)))
  end.

(** [Series.isin(values)]; a number is never one of the text values. *)
Definition isin (c : column) (values : list string) : result (list bool) :=
  match c with
  | ObjCol xs => isin_cells values xs
  | NumCol xs => Ok (map (fun _ => false) xs)
  end.

(** [filtered = filtered[filtered[c].isin(selection)]] under
    [if selection:]. *)
Definition filter_isin (filtered : loc) (c : string) (selection : list string) : M loc :=
  match selection with
  | [] => mret filtered
  | _ =>
      col ← getcol filtered c;
      mask ← lift (isin col selection);
      d ← read filtered;
      alloc (filter_rows mask d)
  end.

Definition apply_filters (df : loc) (categories chains : list string) (min_tvl : f64)
  : M loc :=
  filtered ← copy df;
  filtered ← filter_isin filtered "category" categories;
  filtered ← filter_isin filtered "primary_chain" chains;
  tvl ← getnum filtered "tvl";
  d ← read filtered;
  alloc (filter_rows (map (fun x => geb x min_tvl) tvl) d).

(** A cell passes a selection when the selection is empty or lists its
    text. *)
Definition in_selection (selection : list string) (o : obj) : bool :=
  match selection with
  | [] => true
  | _ => match o with OStr s => bool_decide (s ∈ selection) | _ => false end
  end.

(** The rows [apply_filters] keeps: category and chain pass their
    selections and [tvl >= min_tvl]. *)
Definition kept_mask (categories chains : list string) (min_tvl : f64)
  (cats chs : list obj) (tvl : list f64) : list bool :=
  zip_with andb
    (zip_with andb (map (in_selection categories) cats) (map (in_selection chains) chs))
    (map (fun x => geb x min_tvl) tvl).


(** A scored listing of four protocols, for the filter statements. *)
Definition l_name : list obj := [OStr "Aave"; OStr "Uni"; OStr "Lido"; OStr "Maker"].
Definition l_category : list obj :=
  [OStr "Lending"; OStr "Dexes"; OStr "Liquid Staking"; OStr "Lending"].
Definition l_chain : list obj :=
  [OStr "Ethereum"; OStr "Arbitrum"; OStr "Ethereum"; ONone].
Definition l_tvl : list f64 := [Fin 5000000; Fin 200; NaN; Fin 9000000].

Definition sample_listing : DataFrame :=
  mkDF 4 [("name", ObjCol l_name); ("category", ObjCol l_category);
          ("primary_chain", ObjCol l_chain); ("tvl", NumCol l_tvl);
          ("sector_median_ps", NumCol [Fin 12; Fin 12; Fin 12; Fin 12])].

(** The sample protocols without their symbols. *)
Definition sample_nosym : DataFrame :=
  mkDF 5 [("name", ObjCol s_name); ("tvl", NumCol s_tvl); ("mcap", NumCol s_mcap)].

(* ================================================================= *)
(** ** Further descriptions *)

(** A finite value not below [b]. *)
Definition at_least (b : Q) (x : f64) : Prop := exists q, x = Fin q /\ b <= q.

(** A finite value that is not negative and of a moderate magnitude: zero,
    or between [1e-100] and [1e100]. *)
Definition moderate_amount (x : f64) : Prop :=
  exists q, x = Fin q /\ 0 <= q /\ moderate q = true.

(** The same stage run twice, the second time on the result of the first;
    both results are returned. *)
Definition twice (stage : loc -> M loc) (df : loc) : M (loc * loc) :=
  l1 ← stage df; l2 ← stage l1; mret (l1, l2).

(* ================================================================= *)
(** ** [utils/ui.py]: the sector figure of [render_kpi_cards] *)

(** [pd.isna(v)] on a scalar. *)
Definition pd_isna (v : cell) : result bool :=
  rbind (pd_notna v) (fun b => Ok (negb b)).

(** Lines 231-239: the value shown as "Sector Median P/S": the first cell
    of the stored column, or the median recomputed when the table has no
    such column or no row; a missing value is shown as 10.0. *)
Definition kpi_avg_ps (df : loc) : M cell :=
  d ← read df;
  avg_ps ←
    (if has_col "sector_median_ps" d && (0 <? nrows d)%nat
     then lift (iloc0 d "sector_median_ps")
     else
       calc ← getnum df "ps_ratio_calc";
       let valid_ps := filter_rows (valid_mask calc) d in
       if (0 <? nrows valid_ps)%nat
       then v ← lift (num_col valid_ps "ps_ratio_calc"); mret (CNum (median v))
       else mret (CNum (Fin 10.0)));
  na ← lift (pd_isna avg_ps);
  if na : bool then mret (CNum (Fin 10.0)) else mret avg_ps.

(** [app.py], lines 36-49: the table is filtered, and the figure is shown
    unless no row is left. *)
Definition filtered_kpi (scored_df : loc) (categories chains : list string)
    (min_tvl : f64) : M (option cell) :=
  filtered_df ← apply_filters scored_df categories chains min_tvl;
  d ← read filtered_df;
  if (nrows d =? 0)%nat then mret None
  else avg_ps ← kpi_avg_ps filtered_df; mret (Some avg_ps).

(* ================================================================= *)
(** ** [utils/data.py]: the sample data *)

(** [str.split()]: the maximal runs of characters that are not spaces. *)
Fixpoint split_from (cur : string) (s : string) : list string :=
  match s with
  | EmptyString => match cur with EmptyString => [] | _ => [cur] end
  | String c s' =>
      if is_space c
      then match cur with
           | EmptyString => split_from EmptyString s'
           | _ => cur :: split_from EmptyString s'
           end
      else split_from (cur +:+ String c EmptyString) s'
  end.

Definition split (s : string) : list string := split_from EmptyString s.

(** [names = [f"Protocol {i}" for i in range(1, 51)]]. *)
Definition sample_names : list string :=
  map (fun i : nat => "Protocol " +:+ pretty i) (seq 1 50).

Definition sample_categories : list string :=
  ["Lending"; "Dexes"; "Liquid Staking"; "CDP"; "Yield"; "Derivatives"; "Bridge";
   "Services"].

Definition sample_chains : list string :=
  ["Ethereum"; "Arbitrum"; "Optimism"; "Polygon"; "Solana"; "Avalanche"; "Binance"].

(** One entry of [data] in [get_sample_protocols_data]. *)
Record protocol_row : Type := mkProtocol {
  p_name : string;
  p_symbol : string;
  p_tvl : f64;
  p_mcap : f64;
  p_category : string;
  p_chains : list string;
  p_primary_chain : string
}.

(** One entry of [data] in [get_sample_fees_data]. *)
Record fees_row : Type := mkFees {
  r_name : string;
  r_symbol : string;
  r_total24h : f64;
  r_total7d : f64;
  r_total30d : f64
}.

(** [pd.DataFrame(data)] for a list of such entries: one column per key, in
    the order of the keys. *)
Definition protocols_frame (data : list protocol_row) : DataFrame :=
  mkDF (length data)
    [("name", ObjCol (map (fun r => OStr (p_name r)) data));
     ("symbol", ObjCol (map (fun r => OStr (p_symbol r)) data));
     ("tvl", NumCol (map p_tvl data));
     ("mcap", NumCol (map p_mcap data));
     ("category", ObjCol (map (fun r => OStr (p_category r)) data));
     ("chains", ObjCol (map (fun r => OList (p_chains r)) data));
     ("primary_chain", ObjCol (map (fun r => OStr (p_primary_chain r)) data))].

Definition fees_frame (data : list fees_row) : DataFrame :=
  mkDF (length data)
    [("name", ObjCol (map (fun r => OStr (r_name r)) data));
     ("symbol", ObjCol (map (fun r => OStr (r_symbol r)) data));
     ("total24h", NumCol (map r_total24h data));
     ("total7d", NumCol (map r_total7d data));
     ("total30d", NumCol (map r_total30d data))].

Section SampleData.

(** The generator behind Python's [random] module: its state, the next
    float of [random()] and the next integer of [_randbelow(n)]. *)
Variable rng : Type.
Variable random : rng -> Q * rng.
Variable randbelow : nat -> rng -> nat * rng.

(** Computations that draw from the generator and may raise. *)
Definition G (A : Type) : Type := rng -> result A * rng.

Definition gret {A} (a : A) : G A := fun g => (Ok a, g).

Definition gbind {A B} (m : G A) (k : A -> G B) : G B := fun g =>
  match m g with
  | (Ok a, g') => k a g'
  | (Raise e, g') => (Raise e, g')
  end.

(** [random.uniform(a, b)]: [a + (b - a) * random()]. *)
Definition uniform (a b : Q) : G f64 := fun g =>
  let (u, g') := random g in (Ok (Fin (a + (b - a) * u)), g').

(** [random.choice(seq)]: [seq[_randbelow(len(seq))]]. *)
Definition choice {A} (seq : list A) : G A := fun g =>
  match seq with
  | [] => (Raise IndexError, g)
  | _ =>
      let (i, g') := randbelow (length seq) g in
      (match seq !! i with Some x => Ok x | None => Raise IndexError end, g')
  end.

(** [xs[i]] on a list. *)
Definition item {A} (xs : list A) (i : nat) : G A := fun g =>
  (match xs !! i with Some x => Ok x | None => Raise IndexError end, g).

(** [for name in names: data.append(row(name))]. *)
Fixpoint for_names {A} (row : string -> G A) (names : list string) : G (list A) :=
  match names with
  | [] => gret []
  | name :: names' =>
      gbind (row name) (fun r =>
      gbind (for_names row names') (fun data => gret (r :: data)))
  end.

Definition sample_protocol (name : string) : G protocol_row :=
  gbind (choice sample_categories) (fun cat =>
  gbind (choice sample_chains) (fun chain =>
  gbind (uniform 1000000 10000000000) (fun tvl =>
  gbind (uniform 0.1 2.0) (fun x =>
  let mcap := mul tvl x in
  gbind (item (split name) 1) (fun symbol =>
  gret (mkProtocol name ("PROTO" +:+ symbol) tvl mcap cat [chain] chain)))))).

Definition get_sample_protocols_data : G DataFrame :=
  gbind (for_names sample_protocol sample_names) (fun data =>
  gret (protocols_frame data)).

Definition sample_fee (name : string) : G fees_row :=
  gbind (uniform 1000 1000000) (fun daily_rev =>
  gbind (item (split name) 1) (fun symbol =>
  gbind (uniform 0.8 1.2) (fun x7 =>
  gbind (uniform 0.8 1.2) (fun x30 =>
  gret (mkFees name ("PROTO" +:+ symbol) daily_rev
               (mul (mul daily_rev (Fin 7)) x7)
               (mul (mul daily_rev (Fin 30)) x30)))))).

Definition get_sample_fees_data : G DataFrame :=
  gbind (for_names sample_fee sample_names) (fun data =>
  gret (fees_frame data)).

End SampleData.

Arguments gret {rng A} a.
Arguments gbind {rng A B} m k.
Arguments for_names {rng A} row names.
Arguments item {rng A} xs i.

(** A generator for the examples: the state counts the draws. *)
Definition count_random (g : nat) : Q * nat := (1 # 2, S g).
Definition count_randbelow (n : nat) (g : nat) : nat * nat := (g mod n, S g)%nat.

(** What one entry of the sample protocols satisfies. *)
Definition protocol_ok (name : string) (r : protocol_row) : Prop :=
  p_name r = name /\
  Some (p_symbol r) = (fun s => "PROTO" +:+ s) <$> split name !! 1%nat /\
  (exists t m, p_tvl r = Fin t /\ p_mcap r = Fin m /\
               1000000 <= t <= 10000000000 /\ 0.1 * t <= m <= 2 * t) /\
  p_category r ∈ sample_categories /\
  p_primary_chain r ∈ sample_chains /\
  p_chains r = [p_primary_chain r].

Definition fees_ok (name : string) (r : fees_row) : Prop :=
  r_name r = name /\
  Some (r_symbol r) = (fun s => "PROTO" +:+ s) <$> split name !! 1%nat /\
  exists d w m, r_total24h r = Fin d /\ r_total7d r = Fin w /\ r_total30d r = Fin m /\
                1000 <= d <= 1000000 /\
                0.8 * (7 * d) <= w <= 1.2 * (7 * d) /\
                0.8 * (30 * d) <= m <= 1.2 * (30 * d).

(* ================================================================= *)
(** ** [utils/data.py]: [fetch_protocols_data] *)

Definition protocol_cols : list string :=
  ["name"; "symbol"; "tvl"; "mcap"; "category"; "chains"].

(** [for c in cols: if c not in df.columns: df[c] = None]. *)
Fixpoint add_missing (cols : list string) (df : DataFrame) : DataFrame :=
  match cols with
  | [] => df
  | c :: cols' =>
      add_missing cols'
        (if has_col c df then df
         else df_set c (ObjCol (replicate (nrows df) ONone)) df)
  end.

(** [lambda x: x[0] if isinstance(x, list) and len(x) > 0 else 'Unknown']. *)
Definition first_chain (x : obj) : obj :=
  match x with
  | OList (c :: _) => OStr c
  | _ => OStr "Unknown"
  end.

(** [Series.apply] of that function; the cells of a numeric column are no
    lists. *)
Definition apply_first_chain (c : column) : column :=
  match c with
  | ObjCol xs => ObjCol (map first_chain xs)
  | NumCol xs => ObjCol (map (fun _ => OStr "Unknown") xs)
  end.

Section Fetch.

(** The number a text denotes for [pd.to_numeric], [NaN] when it denotes
    none; the parser is pandas' own. *)
Variable parse_float : string -> f64.

(** [pd.to_numeric(column, errors='coerce')]. *)
Definition to_numeric (c : column) : column :=
  match c with
  | NumCol xs => NumCol xs
  | ObjCol xs =>
      NumCol (map (fun x => match x with OStr s => parse_float s | _ => NaN end) xs)
  end.

(** Lines 21-39: the table of the response is brought to the six fields,
    the two numeric fields are cleaned, and the primary chain is added. *)
Definition clean_protocols (df : DataFrame) : result DataFrame :=
  let df := add_missing protocol_cols df in
  rbind (select protocol_cols df) (fun df =>
  rbind (get_col df "tvl") (fun tvl =>
  rbind (fillna0 (to_numeric tvl)) (fun tvl =>
  let df := df_set "tvl" tvl df in
  rbind (get_col df "mcap") (fun mcap =>
  rbind (fillna0 (to_numeric mcap)) (fun mcap =>
  let df := df_set "mcap" mcap df in
  rbind (get_col df "chains") (fun chains =>
  Ok (df_set "primary_chain" (apply_first_chain chains) df))))))).

Variable rng : Type.
Variable random : rng -> Q * rng.
Variable randbelow : nat -> rng -> nat * rng.

(** [fetch_protocols_data], given the outcome [response] of lines 15-19
    (the request, its status check and the table made of its JSON body):
    any exception, there or in the clean-up, is replaced by the sample
    data.  (The cache of one hour around the function is not modelled.) *)
Definition fetch_protocols_data (response : result DataFrame) : G rng DataFrame :=
  match rbind response clean_protocols with
  | Ok df => gret df
  | Raise _ => get_sample_protocols_data rng random randbelow
  end.

End Fetch.

(** The column [c] of [df], or the column of [None] that the clean-up
    creates when [df] has none. *)
Definition col_or_none (df : DataFrame) (c : string) : column :=
  match lookup_col c (columns df) with
  | Some v => v
  | None => ObjCol (replicate (nrows df) ONone)
  end.

(** The cells of a column as [pd.to_numeric(..., errors='coerce').fillna(0)]
    leaves them. *)
Definition numeric_cells (parse_float : string -> f64) (c : column) : list f64 :=
  map (fun x => if isna x then Fin 0 else x)
      match c with
      | NumCol xs => xs
      | ObjCol xs => map (fun x => match x with OStr s => parse_float s | _ => NaN end) xs
      end.

(** The table the clean-up makes of [df]. *)
Definition cleaned (parse_float : string -> f64) (df : DataFrame) : DataFrame :=
  mkDF (nrows df)
    [("name", col_or_none df "name");
     ("symbol", col_or_none df "symbol");
     ("tvl", NumCol (numeric_cells parse_float (col_or_none df "tvl")));
     ("mcap", NumCol (numeric_cells parse_float (col_or_none df "mcap")));
     ("category", col_or_none df "category");
     ("chains", col_or_none df "chains");
     ("primary_chain", apply_first_chain (col_or_none df "chains"))].

(* ================================================================= *)
(** ** [utils/data.py]: [fetch_fees_data] *)

(** A JSON value found in a revenue field, as Python's JSON reader returns
    it: an integer (a number written without fraction or exponent, of any
    size), a float (any other number; a literal beyond the range of
    [float64] is read as an infinity), a text, [null], or an array or
    object.  A boolean is not represented: a field that holds booleans
    only keeps the type [bool], which the tables here do not have. *)
Inductive jvalue : Type :=
  | JInt (n : Z)
  | JNum (x : f64)
  | JText (s : string)
  | JNull
  | JOther.

(** One entry of the [protocols] array of the response; a field may be
    absent.  The two text fields hold a text, [null] or an array. *)
Record fee_json : Type := mkFeeJson {
  j_name : option obj;
  j_symbol : option obj;
  j_total24h : option jvalue;
  j_total7d : option jvalue;
  j_total30d : option jvalue
}.

(** The first integer that no longer rounds to a [float64]:
    [2^1024 - 2^970], half a unit in the last place above the largest
    [float64]. *)
Definition float_limit : Z := 2 ^ 1024 - 2 ^ 970.

(** The conversion of an integer to [float64] raises [OverflowError] from
    [float_limit] on. *)
Definition too_large (v : jvalue) : bool :=
  match v with
  | JInt n => (float_limit <=? Z.abs n)%Z
  | _ => false
  end.

(** The three revenue fields of an entry, [protocol.get(col, 0)] standing
    for an absent one. *)
Definition revenue_values (p : fee_json) : list jvalue :=
  [default (JInt 0) (j_total24h p); default (JInt 0) (j_total7d p);
   default (JInt 0) (j_total30d p)].

Definition overflows (protocols : list fee_json) : bool :=
  existsb (fun p => existsb too_large (revenue_values p)) protocols.

Section FetchFees.

Variable parse_float : string -> f64.

(** One cell under [pd.to_numeric(..., errors='coerce')]. *)
Definition numeric_of (v : jvalue) : f64 :=
  match v with
  | JInt n => Fin (inject_Z n)
  | JNum x => x
  | JText s => parse_float s
  | JNull => NaN
  | JOther => NaN
  end.

(** [pd.to_numeric(df[col], errors='coerce').fillna(0)] on the values of
    one field. *)
Definition revenue_cells (field : fee_json -> option jvalue)
    (protocols : list fee_json) : list f64 :=
  map (fun p => let x := numeric_of (default (JInt 0) (field p)) in
                if isna x then Fin 0 else x) protocols.

(** [protocol.get(key, '')] for the two text fields. *)
Definition text_cells (field : fee_json -> option obj) (protocols : list fee_json)
  : list obj :=
  map (fun p => default (OStr "") (field p)) protocols.

(** Lines 62-79: the rows, the table and the clean-up.  [pd.DataFrame] of
    no row has no column, so that the clean-up fails on its first column;
    an integer that does not fit a [float64] makes the conversion of its
    column fail. *)
Definition fees_table (protocols : list fee_json) : result DataFrame :=
  match protocols with
  | [] => Raise (KeyError "total24h")
  | _ =>
      if overflows protocols then Raise OverflowError
      else
        Ok (mkDF (length protocols)
              [("name", ObjCol (text_cells j_name protocols));
               ("symbol", ObjCol (text_cells j_symbol protocols));
               ("total24h", NumCol (revenue_cells j_total24h protocols));
               ("total7d", NumCol (revenue_cells j_total7d protocols));
               ("total30d", NumCol (revenue_cells j_total30d protocols))])
  end.

Variable rng : Type.
Variable random : rng -> Q * rng.

(** [fetch_fees_data], given the outcome [response] of lines 55-57 (the
    request, its status check and its JSON body, whose [protocols] array
    is [None] when the key is absent): any exception is replaced by the
    sample data.  (The cache of one hour is not modelled.) *)
Definition fetch_fees_data (response : result (option (list fee_json)))
  : G rng DataFrame :=
  match rbind response (fun data =>
          match data with
          | None => Raise ValueError
          | Some protocols => fees_table protocols
          end) with
  | Ok df => gret df
  | Raise _ => get_sample_fees_data rng random
  end.

End FetchFees.

(** Responses for the examples: two entries with an integer, two floats, a
    text, a [null] and absent fields; and an entry whose 30-day revenue is
    the integer [10^400]. *)
Definition sample_entries : list fee_json :=
  [mkFeeJson (Some (OStr "Aave")) (Some (OStr "AAVE"))
             (Some (JInt 1200)) (Some (JNum (Fin 8000.5))) (Some (JText "n/a"));
   mkFeeJson (Some (OStr "Lido")) None (Some JNull) None (Some (JNum (Fin 0.25)))].

Definition huge_entries : list fee_json :=
  [mkFeeJson (Some (OStr "Aave")) (Some (OStr "AAVE"))
             (Some (JInt 1200)) (Some (JInt 8000)) (Some (JInt (10 ^ 400)))].

(** The composite score of one row as a function of its three signals:
    the upside, the revenue trend and the ratio of locked value to market
    cap (lines 58-104 of [metrics.py] on one row). *)
Definition row_score (upside trend ratio : f64) : f64 :=
  let v := mul (div (add (clip (-100) 200 upside) (Fin 100)) (Fin 300))
               (Fin (VALUATION_GAP_WEIGHT * 100)) in
  let t := mul (div (add (clip (-50) 50 trend) (Fin 50)) (Fin 100))
               (Fin (REVENUE_TREND_WEIGHT * 100)) in
  let e := mul (div (clip 0 10 ratio) (Fin 10)) (Fin (SIZE_EFFICIENCY_WEIGHT * 100)) in
  clip 0 100 (round1 (add (add v t) e)).

(* ================================================================= *)
(** ** [utils/ui.py]: the top pick of [render_kpi_cards] *)

Section TopPick.

(** The order [sort_values(..., ascending=False)] gives the rows: the
    positions of the keys, first the position of the row that comes first.
    The sorting routine is pandas' own (a quicksort), and the order it
    gives rows with equal keys is not specified. *)
Variable argsort_desc : list f64 -> list nat.

Definition sort_values_desc (by_ : string) (d : DataFrame) : result DataFrame :=
  rbind (num_col d by_) (fun keys => Ok (take_rows (argsort_desc keys) d)).

(** Lines 259-266: the name shown as "Top Undervalued Pick". *)
Definition kpi_top_pick (df : loc) : M cell :=
  upside ← getnum df "upside_potential";
  annualized ← getnum df "annualized_revenue";
  score ← getnum df "venture_score";
  d ← read df;
  let mask :=
    zip_with andb
      (zip_with andb (map (fun x => gtb x (Fin 0)) upside)
                     (map (fun x => gtb x (Fin 100000)) annualized))
      (map (fun x => gtb x (Fin 50)) score) in
  valid_protocols ← lift (sort_values_desc "venture_score" (filter_rows mask d));
  if (0 <? nrows valid_protocols)%nat
  then lift (iloc0 valid_protocols "name")
  else mret (CObj (OStr "N/A")).

End TopPick.

(** What is assumed of the sorting routine on keys without a missing
    value: it returns every position once, by non-increasing key. *)
Definition sorts_desc (argsort_desc : list f64 -> list nat) : Prop :=
  forall keys : list f64,
    Forall (fun x => isna x = false) keys ->
    Permutation (argsort_desc keys) (seq 0 (length keys)) /\
    StronglySorted
      (fun i j : nat => exists x y, keys !! i = Some x /\ keys !! j = Some y /\
                                    leb y x = true)
      (argsort_desc keys).

(** Row [i] qualifies as a pick. *)
Definition valid_pick (upside annualized score : list f64) (i : nat) : Prop :=
  exists u a s,
    upside !! i = Some u /\ annualized !! i = Some a /\ score !! i = Some s /\
    gtb u (Fin 0) = true /\ gtb a (Fin 100000) = true /\ gtb s (Fin 50) = true.

(** A sorting routine for the examples: insertion into a list kept by
    non-increasing key. *)
Fixpoint insert_desc (keys : list f64) (i : nat) (p : list nat) : list nat :=
  match p with
  | [] => [i]
  | j :: p' =>
      if leb (default NaN (keys !! j)) (default NaN (keys !! i))
      then i :: p else j :: insert_desc keys i p'
  end.

Definition insertion_argsort_desc (keys : list f64) : list nat :=
  foldr (insert_desc keys) [] (seq 0 (length keys)).

(** The sample after [calculate_venture_score]. *)
Definition sample_scored : DataFrame :=
  Eval vm_compute in result_table (calculate_venture_score 0%nat [sample_metrics]).

Definition s_annualized : list f64 :=
  Eval vm_compute in
    match num_col sample_scored "annualized_revenue" with Ok xs => xs | _ => [] end.

Definition s_score : list f64 :=
  Eval vm_compute in
    match num_col sample_scored "venture_score" with Ok xs => xs | _ => [] end.

(** A table with two rows that qualify as a pick (Alpha and Beta), a row
    with a negative upside and a row with too little revenue; its scores
    are those of the two metric stages. *)
Definition pick_merged : DataFrame :=
  mkDF 4 [("name", ObjCol [OStr "Alpha"; OStr "Beta"; OStr "Gamma"; OStr "Delta"]);
          ("tvl", NumCol [Fin 5000000; Fin 20000000; Fin 1000000; Fin 300000]);
          ("mcap", NumCol [Fin 1000000; Fin 2000000; Fin 10000000; Fin 100000]);
          ("total24h", NumCol [Fin 20000; Fin 9000; Fin 3000; Fin 100]);
          ("total7d", NumCol [Fin 70000; Fin 42000; Fin 21000; Fin 700]);
          ("total30d", NumCol [Fin 1000000; Fin 200000; Fin 100000; Fin 3000])].

Definition pick_scored : DataFrame :=
  Eval vm_compute in result_table (metrics_then_score 0%nat [pick_merged]).

Definition p_names : list obj :=
  [OStr "Alpha"; OStr "Beta"; OStr "Gamma"; OStr "Delta"].

Definition p_upside : list f64 :=
  Eval vm_compute in
    match num_col pick_scored "upside_potential" with Ok xs => xs | _ => [] end.

Definition p_annualized : list f64 :=
  Eval vm_compute in
    match num_col pick_scored "annualized_revenue" with Ok xs => xs | _ => [] end.

Definition p_score : list f64 :=
  Eval vm_compute in
    match num_col pick_scored "venture_score" with Ok xs => xs | _ => [] end.

(* ================================================================= *)
(** ** [app.py]: from the two requests to the scored table *)

Section Main.

Variable parse_float : string -> f64.
Variable rng : Type.
Variable random : rng -> Q * rng.
Variable randbelow : nat -> rng -> nat * rng.

(** Lines 24-31 of [main]: the two tables are fetched, merged and scored;
    they are the first two tables of a store of their own. *)
Definition main_scored (presponse : result DataFrame)
    (fresponse : result (option (list fee_json))) : G rng DataFrame :=
  gbind (fetch_protocols_data parse_float rng random randbelow presponse)
        (fun protocols_df =>
  gbind (fetch_fees_data parse_float rng random fresponse) (fun fees_df =>
  fun g =>
    (match pipeline 0%nat 1%nat [protocols_df; fees_df] with
     | (Ok scored_df, h') =>
         match h' !! scored_df with
         | Some scored => Ok scored
         | None => Raise ValueError
         end
     | (Raise e, _) => Raise e
     end, g))).

End Main.

(** The shape expected of the protocol response: the name and the symbol,
    where present, are object columns without arrays (text or missing);
    the locked value and the market cap, where present, are numeric
    columns without infinities. *)
Definition text_or_absent (df : DataFrame) (c : string) : Prop :=
  forall v, get_col df c = Ok v ->
    exists xs, v = ObjCol xs /\ Forall (fun o => forall l, o <> OList l) xs.

Definition number_or_absent (df : DataFrame) (c : string) : Prop :=
  forall v, get_col df c = Ok v ->
    exists xs, v = NumCol xs /\ Forall (fun x => is_inf x = false) xs.

Definition protocols_shape (df : DataFrame) : Prop :=
  wf df /\ text_or_absent df "name" /\ text_or_absent df "symbol" /\
  number_or_absent df "tvl" /\ number_or_absent df "mcap".

(** The shape expected of a revenue field: absent, [null], an integer that
    fits a [float64], or a float other than an infinity. *)
Definition revenue_value_ok (v : option jvalue) : Prop :=
  match v with
  | None | Some JNull => True
  | Some (JInt n) => too_large (JInt n) = false
  | Some (JNum x) => is_inf x = false
  | Some (JText _) | Some JOther => False
  end.

(** The shape expected of a text field: absent, [null] or a text, not an
    array. *)
Definition text_value_ok (v : option obj) : Prop :=
  forall l, v <> Some (OList l).

Definition fee_entry_shape (p : fee_json) : Prop :=
  text_value_ok (j_name p) /\ text_value_ok (j_symbol p) /\
  revenue_value_ok (j_total24h p) /\ revenue_value_ok (j_total7d p) /\
  revenue_value_ok (j_total30d p).

(** A finite number in the range of the venture score. *)
Definition score_value (x : f64) : Prop := exists q, x = Fin q /\ 0 <= q <= 100.

(** Responses for the examples. *)
Definition sample_response : DataFrame :=
  mkDF 2 [("name", ObjCol [OStr "Foo"; ONone]);
          ("tvl", NumCol [Fin 5000; NaN]);
          ("chains", ObjCol [OList ["Ethereum"; "Base"]; OList []])].

Definition sample_fee_entries : list fee_json :=
  [mkFeeJson (Some (OStr "foo ")) None (Some (JNum (Fin 10))) (Some JNull) None;
   mkFeeJson (Some ONone) (Some (OStr "BAR")) (Some (JInt 7)) (Some (JInt 49)) None].

(* ================================================================= *)
(* ================================================================= *)
(** * Properties *)

(* ================================================================= *)
(** ** Basic facts: comparisons and lists *)

Lemma Qltb_lt a b : Qltb a b = true <-> a < b.
Proof.
  unfold Qltb. rewrite Qlt_alt. destruct (a ?= b); split; congruence.
Qed.

Lemma Qltb_ge a b : Qltb a b = false <-> b <= a.
Proof.
  destruct (Qltb a b) eqn:E; split; intros H; try done.
  - apply Qltb_lt in E. lra.
  - apply Qnot_lt_le. intros H'. apply Qltb_lt in H'. congruence.
Qed.

Lemma Qeqb0_eq a : Qeqb0 a = true <-> a == 0.
Proof.
  unfold Qeqb0. rewrite Qeq_alt. destruct (a ?= 0); split; congruence.
Qed.

Lemma gtb_Fin_0 q : gtb (Fin q) (Fin 0) = Qltb 0 q.
Proof. reflexivity. Qed.

Lemma np_where_length {A} (m : list bool) (a b : list A) n :
  length m = n -> length a = n -> length b = n -> length (np_where m a b) = n.
Proof.
  intros Hm Ha Hb. unfold np_where.
  rewrite length_zip_with, length_zip_with. lia.
Qed.

Lemma zip_with_lookup {A B C} (f : A -> B -> C) (l : list A) (k : list B) (i : nat) x y :
  l !! i = Some x -> k !! i = Some y -> zip_with f l k !! i = Some (f x y).
Proof. intros Hl Hk. rewrite lookup_zip_with, Hl. simpl. rewrite Hk. reflexivity. Qed.

Lemma np_where_lookup {A} (m : list bool) (a b : list A) (i : nat) (c : bool) x y :
  m !! i = Some c -> a !! i = Some x -> b !! i = Some y ->
  np_where m a b !! i = Some (if c then x else y).
Proof.
  intros Hm Ha Hb. unfold np_where.
  rewrite (zip_with_lookup _ m (zip a b) i c (x, y)); [done|done|].
  by apply zip_with_lookup.
Qed.

Lemma gt0_lookup (xs : list f64) (i : nat) x : xs !! i = Some x -> gt0 xs !! i = Some (gtb x (Fin 0)).
Proof. intros H. unfold gt0. rewrite list_lookup_fmap, H. reflexivity. Qed.

Lemma mul_s_lookup (xs : list f64) k (i : nat) x : xs !! i = Some x -> mul_s xs k !! i = Some (mul x (Fin k)).
Proof. intros H. unfold mul_s. rewrite list_lookup_fmap, H. reflexivity. Qed.

Lemma replicate_lookup {A} n (x : A) (i : nat) : (i < n)%nat -> replicate n x !! i = Some x.
Proof. intros H. apply lookup_replicate. done. Qed.

(** Selecting by a mask is filtering. *)
Lemma gather_indices_from {A} (p : A -> bool) (pre xs : list A) :
  gather (indices_from (length pre) (map p xs)) (pre ++ xs) = List.filter p xs.
Proof.
  revert pre. induction xs as [|x xs IH]; intros pre; simpl; [done|].
  specialize (IH (pre ++ [x])).
  rewrite length_app in IH. simpl in IH.
  replace (length pre + 1)%nat with (S (length pre)) in IH by lia.
  rewrite <- app_assoc in IH. simpl in IH.
  destruct (p x); [|done].
  unfold gather in *. simpl.
  rewrite list_lookup_middle by done. simpl. f_equal. exact IH.
Qed.

Lemma gather_mask {A} (p : A -> bool) (xs : list A) :
  gather (indices_of (map p xs)) xs = List.filter p xs.
Proof. apply (gather_indices_from p [] xs). Qed.

Lemma indices_from_bound i mask :
  Forall (fun j => (i <= j < i + length mask)%nat) (indices_from i mask).
Proof.
  revert i. induction mask as [|b m IH]; intros i; simpl; [constructor|].
  specialize (IH (S i)).
  assert (Forall (fun j => (i <= j < i + S (length m))%nat) (indices_from (S i) m)).
  { eapply Forall_impl; [exact IH|]. simpl. intros; lia. }
  destruct b; [constructor; [lia|done]|done].
Qed.

Lemma indices_of_bound mask :
  Forall (fun j => (j < length mask)%nat) (indices_of mask).
Proof.
  eapply Forall_impl; [apply (indices_from_bound 0)|]. simpl. intros; lia.
Qed.

(* ================================================================= *)
(** ** Columns of a table *)

Lemma lookup_set_col c c' v cs :
  lookup_col c' (set_col c v cs) = if String.eqb c c' then Some v else lookup_col c' cs.
Proof.
  induction cs as [|[n w] cs IH]; simpl; [done|].
  destruct (String.eqb n c) eqn:E; simpl.
  - apply String.eqb_eq in E. subst n. by destruct (String.eqb c c').
  - rewrite IH. destruct (String.eqb n c') eqn:E'; [|done].
    apply String.eqb_eq in E'. subst n. by rewrite String.eqb_sym, E.
Qed.

Lemma get_col_set_eq d c v : get_col (df_set c v d) c = Ok v.
Proof. unfold get_col. simpl. by rewrite lookup_set_col, String.eqb_refl. Qed.

Lemma get_col_set_ne d c c' v : c <> c' -> get_col (df_set c v d) c' = get_col d c'.
Proof.
  intros H. unfold get_col. simpl. rewrite lookup_set_col.
  apply String.eqb_neq in H. by rewrite H.
Qed.

Lemma num_col_set_eq d c xs : num_col (df_set c (NumCol xs) d) c = Ok xs.
Proof. unfold num_col. by rewrite get_col_set_eq. Qed.

Lemma num_col_set_ne d c c' v : c <> c' -> num_col (df_set c v d) c' = num_col d c'.
Proof. intros H. unfold num_col. by rewrite get_col_set_ne. Qed.

Lemma lookup_col_Some c cs v : lookup_col c cs = Some v -> (c, v) ∈ cs.
Proof.
  induction cs as [|[n w] cs IH]; simpl; [done|].
  destruct (String.eqb n c) eqn:E.
  - apply String.eqb_eq in E. intros [= ->]. subst. left.
  - intros H. right. auto.
Qed.

Lemma get_col_len d c v : wf d -> get_col d c = Ok v -> col_len v = nrows d.
Proof.
  intros Hlen. unfold get_col.
  destruct (lookup_col c (columns d)) eqn:E; [|done]. intros [= ->].
  apply lookup_col_Some in E. unfold wf in Hlen.
  rewrite Forall_forall in Hlen. apply (Hlen _ E).
Qed.

Lemma num_col_len d c xs : wf d -> num_col d c = Ok xs -> length xs = nrows d.
Proof.
  intros Hwf. unfold num_col.
  destruct (get_col d c) as [[ys|ys]|] eqn:E; simpl; try done.
  intros [= ->]. apply (get_col_len d c _ Hwf E).
Qed.

Lemma lookup_col_take_rows idxs d c :
  lookup_col c (columns (take_rows idxs d)) = gather_col idxs <$> lookup_col c (columns d).
Proof.
  simpl. induction (columns d) as [|[n w] cs IH]; simpl; [done|].
  by destruct (String.eqb n c).
Qed.

Lemma num_col_filter_rows mask d c xs :
  num_col d c = Ok xs -> num_col (filter_rows mask d) c = Ok (gather (indices_of mask) xs).
Proof.
  unfold num_col, get_col, filter_rows. rewrite lookup_col_take_rows.
  destruct (lookup_col c (columns d)) as [[ys|ys]|]; simpl; try done.
  by intros [= ->].
Qed.

Lemma indices_from_length {A} (p : A -> bool) i xs :
  length (indices_from i (map p xs)) = length (List.filter p xs).
Proof.
  revert i. induction xs as [|x xs IH]; intros i; simpl; [done|].
  destruct (p x); simpl; by rewrite IH.
Qed.

(* ================================================================= *)
(** ** Running the primitives *)

Lemma bind_run {A B} (m : M A) (k : A -> M B) h a h' :
  m h = (Ok a, h') -> (m ≫= k) h = k a h'.
Proof. intros H. unfold mbind, M_bind. by rewrite H. Qed.

Lemma read_run (h : store) l d : h !! l = Some d -> read l h = (Ok d, h).
Proof. intros H. unfold read. by rewrite H. Qed.

Lemma copy_run (h : store) l d : h !! l = Some d -> copy l h = (Ok (length h), h ++ [d]).
Proof. intros H. unfold copy. by rewrite (bind_run _ _ _ _ _ (read_run h l d H)). Qed.

Lemma getnum_run (h : store) l d c xs :
  h !! l = Some d -> num_col d c = Ok xs -> getnum l c h = (Ok xs, h).
Proof.
  intros H Hc. unfold getnum. rewrite (bind_run _ _ _ _ _ (read_run h l d H)).
  unfold lift. by rewrite Hc.
Qed.

Lemma setcol_run (h : store) l d c v :
  h !! l = Some d -> col_len v = nrows d ->
  setcol l c v h = (Ok tt, <[l := df_set c v d]> h).
Proof.
  intros H Hlen. unfold setcol. rewrite H.
  apply Nat.eqb_eq in Hlen. by rewrite Hlen.
Qed.

Lemma top_lookup (h : store) d : (h ++ [d]) !! length h = Some d.
Proof. by rewrite list_lookup_middle. Qed.

Lemma top_insert (h : store) d d' : <[length h := d']> (h ++ [d]) = h ++ [d'].
Proof. by rewrite insert_app_r_alt, Nat.sub_diag by lia. Qed.

Lemma getnum_top (h : store) d c xs :
  num_col d c = Ok xs -> getnum (length h) c (h ++ [d]) = (Ok xs, h ++ [d]).
Proof. apply getnum_run, top_lookup. Qed.

Lemma setcol_top (h : store) d c v :
  col_len v = nrows d ->
  setcol (length h) c v (h ++ [d]) = (Ok tt, h ++ [df_set c v d]).
Proof.
  intros H. rewrite (setcol_run _ _ d) by (done || apply top_lookup).
  by rewrite top_insert.
Qed.

(* ================================================================= *)
(** ** Lengths of the computed columns *)

Create HintDb len discriminated.

Lemma map_len {A B} (f : A -> B) xs n : length xs = n -> length (map f xs) = n.
Proof. intros <-. apply length_map. Qed.

Lemma zip_with_len {A B C} (f : A -> B -> C) xs ys n :
  length xs = n -> length ys = n -> length (zip_with f xs ys) = n.
Proof. intros Hx Hy. rewrite length_zip_with. lia. Qed.

Lemma replicate_len {A} (x : A) n m : n = m -> length (replicate n x) = m.
Proof. intros <-. apply length_replicate. Qed.

#[local] Hint Resolve map_len zip_with_len replicate_len np_where_length : len.

Ltac len :=
  cbn [col_len nrows df_set];
  unfold annualized_revenue, ps_ratio, ps_ratio_calc, fair_value, upside_potential,
    valuation_score, daily_avg_7d, revenue_trend, revenue_trend_status, trend_score,
    tvl_mcap_ratio, efficiency_score, score_sum, gt0, mul_s;
  auto 20 with len.

Ltac col :=
  repeat first [rewrite num_col_set_eq | rewrite num_col_set_ne by discriminate];
  first [reflexivity | eassumption].

Ltac run_getnum := erewrite bind_run; [|apply getnum_top; col].
Ltac run_setcol := erewrite bind_run; [|apply setcol_top; len].

Lemma read_top (h : store) d : read (length h) (h ++ [d]) = (Ok d, h ++ [d]).
Proof. apply read_run, top_lookup. Qed.

Lemma setcol_scalar_top (h : store) d c x :
  setcol_scalar (length h) c x (h ++ [d])
  = (Ok tt, h ++ [df_set c (NumCol (replicate (nrows d) x)) d]).
Proof.
  unfold setcol_scalar. rewrite (bind_run _ _ _ _ _ (read_top h d)).
  apply setcol_top. simpl. apply length_replicate.
Qed.

(** Lines 31-32 of [metrics.py]: the filtered table and its median. *)
Lemma sector_median_run (hh : store) d calc :
  num_col d "ps_ratio_calc" = Ok calc ->
  ((if (0 <? nrows (filter_rows (valid_mask calc) d))%nat
    then v ← lift (num_col (filter_rows (valid_mask calc) d) "ps_ratio_calc");
         mret (median v)
    else mret (Fin 10.0)) : M f64) hh
  = (Ok (sector_median calc), hh).
Proof.
  intros Hc. unfold sector_median, valid_mask.
  assert (nrows (filter_rows (map valid calc) d) = length (List.filter valid calc)) as ->.
  { simpl. apply indices_from_length. }
  destruct (0 <? length (List.filter valid calc))%nat; [|done].
  rewrite (num_col_filter_rows _ _ _ _ Hc), gather_mask. done.
Qed.

Ltac run_read := erewrite bind_run; [|apply read_top].

Section MetricsRun.
Variables (h : store) (l : loc) (d : DataFrame) (t30 t24 mc : list f64).
Hypothesis Hl : h !! l = Some d.
Hypothesis Hwf : wf d.
Hypothesis H30 : num_col d "total30d" = Ok t30.
Hypothesis H24 : num_col d "total24h" = Ok t24.
Hypothesis Hmc : num_col d "mcap" = Ok mc.

Lemma calculate_financial_metrics_run :
  calculate_financial_metrics l h = (Ok (length h), h ++ [metrics_table d t30 t24 mc]).
Proof.
  pose proof (num_col_len _ _ _ Hwf H30) as L30.
  pose proof (num_col_len _ _ _ Hwf H24) as L24.
  pose proof (num_col_len _ _ _ Hwf Hmc) as Lmc.
  unfold calculate_financial_metrics.
  rewrite (bind_run _ _ _ _ _ (copy_run h l d Hl)).
  run_getnum. run_getnum. run_setcol.
  run_getnum. run_getnum. run_setcol.
  run_getnum. run_setcol.
  run_getnum. run_read.
  erewrite bind_run; [|apply sector_median_run; col].
  erewrite bind_run; [|apply setcol_scalar_top].
  run_getnum. run_setcol.
  run_getnum. run_getnum. run_setcol.
  reflexivity.
Qed.
End MetricsRun.

Section ScoreRun.
Variables (h : store) (l : loc) (d : DataFrame) (up t7 t24 mc tv : list f64).
Hypothesis Hl : h !! l = Some d.
Hypothesis Hwf : wf d.
Hypothesis Hup : num_col d "upside_potential" = Ok up.
Hypothesis H7 : num_col d "total7d" = Ok t7.
Hypothesis H24 : num_col d "total24h" = Ok t24.
Hypothesis Hmc : num_col d "mcap" = Ok mc.
Hypothesis Htv : num_col d "tvl" = Ok tv.

Lemma calculate_venture_score_run :
  calculate_venture_score l h = (Ok (length h), h ++ [score_table d up t7 t24 mc tv]).
Proof.
  pose proof (num_col_len _ _ _ Hwf Hup) as Lup.
  pose proof (num_col_len _ _ _ Hwf H7) as L7.
  pose proof (num_col_len _ _ _ Hwf H24) as L24.
  pose proof (num_col_len _ _ _ Hwf Hmc) as Lmc.
  pose proof (num_col_len _ _ _ Hwf Htv) as Ltv.
  unfold calculate_venture_score.
  rewrite (bind_run _ _ _ _ _ (copy_run h l d Hl)).
  run_getnum. run_setcol.
  run_getnum. run_setcol.
  run_getnum. run_getnum. run_setcol.
  run_getnum. run_setcol.
  run_getnum. run_setcol.
  run_getnum. run_getnum. run_setcol.
  run_getnum. run_setcol.
  run_getnum. run_getnum. run_getnum. run_setcol.
  run_getnum. run_setcol.
  reflexivity.
Qed.
End ScoreRun.

Lemma wf_df_set d c v : wf d -> col_len v = nrows d -> wf (df_set c v d).
Proof.
  unfold wf, df_set. simpl. intros Hwf Hv.
  induction Hwf as [|[n w] cs Hn Hcs IH]; simpl.
  - by repeat constructor.
  - destruct (String.eqb n c); constructor; done.
Qed.

Lemma wf_metrics_table d t30 t24 mc :
  wf d -> length t30 = nrows d -> length t24 = nrows d -> length mc = nrows d ->
  wf (metrics_table d t30 t24 mc).
Proof.
  intros Hwf L30 L24 Lmc. unfold metrics_table.
  repeat (apply wf_df_set; [|len]). done.
Qed.

(* ================================================================= *)
(** ** Rows of the computed columns *)

Lemma annualized_revenue_row (t30 t24 : list f64) (i : nat) x y :
  t30 !! i = Some x -> t24 !! i = Some y ->
  annualized_revenue t30 t24 !! i
  = Some (if gtb x (Fin 0) then mul x (Fin 12) else mul y (Fin 365)).
Proof.
  intros Hx Hy. unfold annualized_revenue.
  apply np_where_lookup; [by apply gt0_lookup|by apply mul_s_lookup..].
Qed.

Lemma ps_ratio_row (mc ar : list f64) (i : nat) m r :
  mc !! i = Some m -> ar !! i = Some r ->
  ps_ratio mc ar !! i = Some (if gtb r (Fin 0) then div m r else PInf).
Proof.
  intros Hm Hr. unfold ps_ratio.
  apply np_where_lookup; [by apply gt0_lookup|by apply zip_with_lookup|].
  apply replicate_lookup. by apply lookup_lt_Some in Hr.
Qed.


Lemma fair_value_row (ar : list f64) s (i : nat) r :
  ar !! i = Some r -> fair_value ar s !! i = Some (mul r s).
Proof. intros H. unfold fair_value. by rewrite list_lookup_fmap, H. Qed.

Lemma upside_potential_row (mc fv : list f64) (i : nat) m f :
  mc !! i = Some m -> fv !! i = Some f ->
  upside_potential mc fv !! i
  = Some (if gtb m (Fin 0) then mul (div (sub f m) m) (Fin 100) else Fin 0).
Proof.
  intros Hm Hf. unfold upside_potential.
  apply np_where_lookup; [by apply gt0_lookup| |].
  - apply mul_s_lookup. apply zip_with_lookup; [|done]. by apply zip_with_lookup.
  - apply replicate_lookup. by apply lookup_lt_Some in Hm.
Qed.

Lemma annualized_Fin (t30 t24 : list f64) (i : nat) a b :
  t30 !! i = Some (Fin a) -> t24 !! i = Some (Fin b) ->
  exists r, annualized_revenue t30 t24 !! i = Some (Fin r).
Proof.
  intros Ha Hb. rewrite (annualized_revenue_row _ _ _ _ _ Ha Hb).
  destruct (gtb (Fin a) (Fin 0)); simpl; eauto.
Qed.

Lemma div_Fin_pos a b : 0 < b -> div (Fin a) (Fin b) = Fin (a / b).
Proof.
  intros Hb. simpl. destruct (Qeqb0 b) eqn:E; [|done].
  apply Qeqb0_eq in E. lra.
Qed.

Ltac cmp q :=
  let E := fresh "E" in
  destruct (Qltb 0 q) eqn:E; [apply Qltb_lt in E | apply Qltb_ge in E].

(* ================================================================= *)
(** ** The median of finite values *)

Lemma insert_sorted_Fin q (s : list Q) :
  StronglySorted Qle s ->
  exists s', insert_sorted (Fin q) (map Fin s) = map Fin s' /\
             Permutation s' (q :: s) /\ StronglySorted Qle s'.
Proof.
  induction 1 as [|y s Hs IH Hy]; simpl.
  - exists [q]. repeat split; [done|]. repeat constructor.
  - unfold leb. simpl. destruct (Qltb y q) eqn:E; simpl.
    + apply Qltb_lt in E. destruct IH as (s' & Heq & Hp & Hs').
      exists (y :: s'). rewrite Heq. split; [done|]. split.
      * rewrite Hp. apply perm_swap.
      * constructor; [done|]. rewrite Hp. constructor; [lra|done].
    + apply Qltb_ge in E. exists (q :: y :: s). split; [done|]. split; [done|].
      constructor; [by constructor|].
      constructor; [done|]. eapply Forall_impl; [exact Hy|]. simpl. intros; lra.
Qed.

Lemma sort_Fin (V : list Q) :
  exists s, sort (map Fin V) = map Fin s /\ Permutation s V /\ StronglySorted Qle s.
Proof.
  induction V as [|q V (s & Heq & Hp & Hs)]; simpl.
  - exists []. repeat split; [done|constructor].
  - rewrite Heq. destruct (insert_sorted_Fin q s Hs) as (s' & Heq' & Hp' & Hs').
    exists s'. split; [done|]. split; [|done]. by rewrite Hp', Hp.
Qed.

Lemma filter_notna_Fin (V : list Q) : List.filter notna (map Fin V) = map Fin V.
Proof. induction V as [|q V IH]; simpl; [done|]. by rewrite IH. Qed.

Lemma median_Fin (V : list Q) :
  V <> [] -> exists m, median (map Fin V) = Fin m /\ is_median V m.
Proof.
  intros HV. unfold median. rewrite filter_notna_Fin.
  destruct (sort_Fin V) as (s & -> & Hp & Hs).
  rewrite length_map.
  assert (0 < length s)%nat as Hn.
  { rewrite (Permutation_length Hp). destruct V; [done|simpl; lia]. }
  destruct (length s =? 0)%nat eqn:E0; [apply Nat.eqb_eq in E0; lia|].
  assert (length s / 2 < length s)%nat as Hmid by (apply Nat.div_lt; lia).
  destruct (lookup_lt_is_Some_2 s _ Hmid) as [b Hb].
  destruct (Nat.even (length s)) eqn:Ev.
  - assert (length s / 2 - 1 < length s)%nat as Hlo by lia.
    destruct (lookup_lt_is_Some_2 s _ Hlo) as [a Ha].
    rewrite !list_lookup_fmap, Ha, Hb. simpl.
    exists ((a + b) / 2). split; [done|].
    exists s. rewrite Ev. eauto 10.
  - rewrite list_lookup_fmap, Hb. simpl.
    exists b. split; [done|]. exists s. rewrite Ev. eauto.
Qed.

Lemma valid_calc_Fin (ps : list f64) :
  List.filter valid (ps_ratio_calc ps) = map Fin (valid_values ps).
Proof.
  unfold ps_ratio_calc, valid_values.
  induction ps as [|x ps IH]; simpl; [done|].
  destruct x as [q| | |]; try done.
  cbn [map is_inf List.filter omap list_omap finite_in_range].
  change (valid (Fin q)) with (Qltb 0 q && Qltb q 1000).
  destruct (Qltb 0 q && Qltb q 1000); simpl; by rewrite IH.
Qed.

Lemma sector_median_empty (ps : list f64) :
  valid_values ps = [] -> sector_median (ps_ratio_calc ps) = Fin 10.0.
Proof. intros H. unfold sector_median. by rewrite valid_calc_Fin, H. Qed.

Lemma sector_median_nonempty (ps : list f64) :
  valid_values ps <> [] ->
  exists m, sector_median (ps_ratio_calc ps) = Fin m /\ is_median (valid_values ps) m.
Proof.
  intros H. unfold sector_median. rewrite valid_calc_Fin, length_map.
  destruct (valid_values ps) as [|q V] eqn:E; [done|].
  simpl Nat.ltb. cbv iota. rewrite <- E. apply median_Fin. by rewrite E.
Qed.

Lemma sector_median_Fin (ps : list f64) :
  exists m, sector_median (ps_ratio_calc ps) = Fin m.
Proof.
  destruct (valid_values ps) eqn:E.
  - eexists. by apply sector_median_empty.
  - destruct (sector_median_nonempty ps) as (m & -> & _); [by rewrite E|]. eauto.
Qed.

(* ================================================================= *)
(** ** [calculate_financial_metrics]: the derived metrics *)

Section MetricsClaims.
Variables (h : store) (l : loc) (d : DataFrame) (t30 t24 mc : list f64).
Hypothesis Hl : h !! l = Some d.
Hypothesis Hwf : wf d.
Hypothesis H30 : num_col d "total30d" = Ok t30.
Hypothesis H24 : num_col d "total24h" = Ok t24.
Hypothesis Hmc : num_col d "mcap" = Ok mc.

(** C6. For every row, [annualized_revenue] is [total30d * 12] when
    [total30d > 0] and [total24h * 365] otherwise; the new column has one
    cell per input row. *)
Theorem annualized_revenue_spec :
  returns (calculate_financial_metrics l) h (fun out h' =>
    exists d' ar,
      h' !! out = Some d' /\ num_col d' "annualized_revenue" = Ok ar /\
      length ar = nrows d /\
      forall (i : nat) a b,
        t30 !! i = Some (Fin a) -> t24 !! i = Some (Fin b) ->
        (0 < a -> ar !! i = Some (Fin (a * 12))) /\
        (a <= 0 -> ar !! i = Some (Fin (b * 365)))).
Proof.
  pose proof (num_col_len _ _ _ Hwf H30) as L30.
  pose proof (num_col_len _ _ _ Hwf H24) as L24.
  eexists _, _. split; [by apply calculate_financial_metrics_run|].
  eexists _, _. split; [apply top_lookup|].
  split; [unfold metrics_table; col|].
  split; [len|].
  intros i a b Ha Hb.
  rewrite (annualized_revenue_row _ _ _ _ _ Ha Hb), gtb_Fin_0. simpl.
  cmp a; split; intros; first [done | lra].
Qed.


(** C7. On a row whose [total30d], [total24h] and [mcap] are finite (and
    of a magnitude that [float64] multiplies and divides without
    overflow), the function returns normally, with a finite annualised
    revenue [r] and a finite sector median [s]; [fair_value] is [r * s];
    [upside_potential] is [(fair_value - mcap) / mcap * 100] when
    [mcap > 0] and [0] otherwise, in particular when [mcap] is zero. *)
Theorem upside_potential_spec (i : nat) (a b m : Q) :
  t30 !! i = Some (Fin a) -> t24 !! i = Some (Fin b) -> mc !! i = Some (Fin m) ->
  moderate a = true -> moderate b = true -> moderate m = true ->
  returns (calculate_financial_metrics l) h (fun out h' =>
    exists d' ar sm fv up r s,
      h' !! out = Some d' /\
      num_col d' "annualized_revenue" = Ok ar /\
      num_col d' "mcap" = Ok mc /\
      num_col d' "sector_median_ps" = Ok sm /\
      num_col d' "fair_value" = Ok fv /\
      num_col d' "upside_potential" = Ok up /\
      ar !! i = Some (Fin r) /\ sm !! i = Some (Fin s) /\
      fv !! i = Some (Fin (r * s)) /\
      (0 < m -> up !! i = Some (Fin ((r * s - m) / m * 100))) /\
      (m <= 0 -> up !! i = Some (Fin 0))).
Proof.
  intros Ha Hb Hm _ _ _.
  destruct (annualized_Fin t30 t24 i a b Ha Hb) as [r Hr].
  destruct (sector_median_Fin (ps_ratio mc (annualized_revenue t30 t24))) as [s Hs].
  assert (i < nrows d)%nat as Hi.
  { rewrite <- (num_col_len _ _ _ Hwf Hmc). by eapply lookup_lt_Some. }
  eexists _, _. split; [by apply calculate_financial_metrics_run|].
  eexists _, _, _, _, _, r, s. split; [apply top_lookup|].
  unfold metrics_table.
  split; [col|]. split; [col|]. split; [col|]. split; [col|]. split; [col|].
  split; [exact Hr|].
  split; [rewrite Hs; by apply replicate_lookup|].
  pose proof (fair_value_row _ (Fin s) _ _ Hr) as Hfv. simpl in Hfv.
  rewrite Hs.
  rewrite (upside_potential_row _ _ _ _ _ Hm Hfv), gtb_Fin_0.
  split; [exact Hfv|].
  cmp m.
  - split; [|intros; lra]. intros _. unfold sub. simpl add.
    by rewrite (div_Fin_pos _ m E).
  - split; [intros; lra|done].
Qed.

(** C3. Every row of the batch gets the same scalar [sector_median_ps]:
    the median of the [ps_ratio] values that are finite, above 0 and
    below 1000, or [10.0] when no row has such a value. *)
Theorem sector_median_spec :
  returns (calculate_financial_metrics l) h (fun out h' =>
    exists d' ps s,
      h' !! out = Some d' /\ nrows d' = nrows d /\
      num_col d' "ps_ratio" = Ok ps /\
      num_col d' "sector_median_ps" = Ok (replicate (nrows d) s) /\
      (valid_values ps = [] -> s = Fin 10.0) /\
      (valid_values ps <> [] -> exists m, s = Fin m /\ is_median (valid_values ps) m)).
Proof.
  eexists _, _. split; [by apply calculate_financial_metrics_run|].
  eexists _, _, _. split; [apply top_lookup|].
  unfold metrics_table.
  split; [done|]. split; [col|]. split; [col|].
  split; [apply sector_median_empty|apply sector_median_nonempty].
Qed.

End MetricsClaims.

(* ================================================================= *)
(** ** [calculate_venture_score]: rows of the score columns *)

Lemma daily_avg_7d_row (t7 : list f64) (i : nat) c :
  t7 !! i = Some (Fin c) -> daily_avg_7d t7 !! i = Some (Fin (c / 7)).
Proof. intros H. unfold daily_avg_7d. by rewrite list_lookup_fmap, H. Qed.

Lemma revenue_trend_row (t24 avg : list f64) (i : nat) x a :
  t24 !! i = Some x -> avg !! i = Some a ->
  revenue_trend t24 avg !! i
  = Some (if gtb a (Fin 0) then mul (div (sub x a) a) (Fin 100) else Fin 0).
Proof.
  intros Hx Ha. unfold revenue_trend.
  apply np_where_lookup; [by apply gt0_lookup| |].
  - apply mul_s_lookup. apply zip_with_lookup; [|done]. by apply zip_with_lookup.
  - apply replicate_lookup. by apply lookup_lt_Some in Ha.
Qed.


Lemma tvl_mcap_ratio_row (tv mc : list f64) (i : nat) t m :
  tv !! i = Some t -> mc !! i = Some m ->
  tvl_mcap_ratio tv mc !! i = Some (if gtb m (Fin 0) then div t m else Fin 0).
Proof.
  intros Ht Hm. unfold tvl_mcap_ratio.
  apply np_where_lookup; [by apply gt0_lookup|by apply zip_with_lookup|].
  apply replicate_lookup. by apply lookup_lt_Some in Hm.
Qed.

(** The clamp of [Series.clip] on a finite cell. *)
Lemma clip_Fin lo hi q :
  lo <= hi ->
  exists c, clip lo hi (Fin q) = Fin c /\ c == Qmax lo (Qmin hi q) /\ lo <= c <= hi.
Proof.
  intros Hlh. simpl. eexists. split; [done|].
  destruct (Q.max_spec lo (Qmin hi q)) as [[H1 H1']|[H1 H1']];
  destruct (Q.min_spec hi q) as [[H2 H3]|[H2 H3]];
  (destruct (Qltb q lo) eqn:E1; [apply Qltb_lt in E1|apply Qltb_ge in E1];
   [|destruct (Qltb hi q) eqn:E2; [apply Qltb_lt in E2|apply Qltb_ge in E2]]);
  split; lra.
Qed.

Lemma clip_notna lo hi x :
  lo <= hi -> x <> NaN -> exists c, clip lo hi x = Fin c /\ lo <= c <= hi.
Proof.
  intros Hlh Hx. destruct x as [q| | |]; simpl; try done.
  - destruct (clip_Fin lo hi q Hlh) as (c & Hc & _ & Hb). eauto.
  - eexists. split; [done|lra].
  - eexists. split; [done|lra].
Qed.

(** Linear arithmetic over [Q] with divisions by constants. *)
Ltac qlra :=
  unfold Qdiv in *;
  repeat match goal with
  | |- context [Qinv (?n # ?d)] =>
      let v := eval vm_compute in (Qinv (n # d)) in change (Qinv (n # d)) with v
  | H : context [Qinv (?n # ?d)] |- _ =>
      let v := eval vm_compute in (Qinv (n # d)) in change (Qinv (n # d)) with v in H
  end;
  lra.

Lemma valuation_cell x :
  x <> NaN ->
  exists c q,
    clip (-100) 200 x = Fin c /\
    mul (div (add (clip (-100) 200 x) (Fin 100)) (Fin 300))
        (Fin (VALUATION_GAP_WEIGHT * 100)) = Fin q /\
    q == (c + 100) / 300 * 40 /\ 0 <= q <= 40.
Proof.
  intros Hx. destruct (clip_notna (-100) 200 x) as (c & Hc & Hb); [lra|done|].
  rewrite Hc. eexists c, _. split; [done|]. split; [reflexivity|].
  unfold VALUATION_GAP_WEIGHT. split; qlra.
Qed.

Lemma trend_cell x :
  x <> NaN ->
  exists c q,
    clip (-50) 50 x = Fin c /\
    mul (div (add (clip (-50) 50 x) (Fin 50)) (Fin 100))
        (Fin (REVENUE_TREND_WEIGHT * 100)) = Fin q /\
    q == (c + 50) / 100 * 30 /\ 0 <= q <= 30.
Proof.
  intros Hx. destruct (clip_notna (-50) 50 x) as (c & Hc & Hb); [lra|done|].
  rewrite Hc. eexists c, _. split; [done|]. split; [reflexivity|].
  unfold REVENUE_TREND_WEIGHT. split; qlra.
Qed.

Lemma efficiency_cell x :
  x <> NaN ->
  exists c q,
    clip 0 10 x = Fin c /\
    mul (div (clip 0 10 x) (Fin 10)) (Fin (SIZE_EFFICIENCY_WEIGHT * 100)) = Fin q /\
    q == c / 10 * 30 /\ 0 <= q <= 30.
Proof.
  intros Hx. destruct (clip_notna 0 10 x) as (c & Hc & Hb); [lra|done|].
  rewrite Hc. eexists c, _. split; [done|]. split; [reflexivity|].
  unfold SIZE_EFFICIENCY_WEIGHT. split; qlra.
Qed.

Lemma valuation_score_row (up : list f64) (i : nat) x :
  up !! i = Some x ->
  valuation_score up !! i
  = Some (mul (div (add (clip (-100) 200 x) (Fin 100)) (Fin 300))
              (Fin (VALUATION_GAP_WEIGHT * 100))).
Proof. intros H. unfold valuation_score. by rewrite list_lookup_fmap, H. Qed.

Lemma trend_score_row (tr : list f64) (i : nat) x :
  tr !! i = Some x ->
  trend_score tr !! i
  = Some (mul (div (add (clip (-50) 50 x) (Fin 50)) (Fin 100))
              (Fin (REVENUE_TREND_WEIGHT * 100))).
Proof. intros H. unfold trend_score. by rewrite list_lookup_fmap, H. Qed.

Lemma efficiency_score_row (r : list f64) (i : nat) x :
  r !! i = Some x ->
  efficiency_score r !! i
  = Some (mul (div (clip 0 10 x) (Fin 10)) (Fin (SIZE_EFFICIENCY_WEIGHT * 100))).
Proof. intros H. unfold efficiency_score. by rewrite list_lookup_fmap, H. Qed.

Lemma trend_of_finite x c :
  exists t,
    (if gtb (Fin (c / 7)) (Fin 0)
     then mul (div (sub (Fin x) (Fin (c / 7))) (Fin (c / 7))) (Fin 100)
     else Fin 0) = Fin t /\
    (0 < c / 7 -> t = (x - c / 7) / (c / 7) * 100) /\
    (~ 0 < c / 7 -> t = 0).
Proof.
  rewrite gtb_Fin_0. cmp (c / 7).
  - unfold sub. simpl add. rewrite (div_Fin_pos _ _ E). simpl mul.
    eexists. split; [done|]. split; [done|]. intros H. by destruct H.
  - eexists. split; [done|]. split; [intros; lra|done].
Qed.

Section ScoreClaims.
Variables (h : store) (l : loc) (d : DataFrame) (up t7 t24 mc tv : list f64).
Hypothesis Hl : h !! l = Some d.
Hypothesis Hwf : wf d.
Hypothesis Hup : num_col d "upside_potential" = Ok up.
Hypothesis H7 : num_col d "total7d" = Ok t7.
Hypothesis H24 : num_col d "total24h" = Ok t24.
Hypothesis Hmc : num_col d "mcap" = Ok mc.
Hypothesis Htv : num_col d "tvl" = Ok tv.

End ScoreClaims.

(* ================================================================= *)
(** ** The two metric stages in sequence *)

Lemma rint_le q (n : Z) : q <= inject_Z n -> (rint q <= n)%Z.
Proof.
  intros H. unfold rint.
  pose proof (Qfloor_le q) as Hf. pose proof (Qlt_floor q) as Hc.
  assert (Qfloor q <= n)%Z as Hn by (rewrite Zle_Qle; lra).
  destruct (Qcompare (q - inject_Z (Qfloor q)) (1 # 2)) eqn:E.
  - apply Qeq_alt in E. destruct (Z.even (Qfloor q)); [done|].
    assert (inject_Z (Qfloor q) < inject_Z n) as Hlt by lra.
    rewrite <- Zlt_Qlt in Hlt. lia.
  - done.
  - apply Qgt_alt in E.
    assert (inject_Z (Qfloor q) < inject_Z n) as Hlt by lra.
    rewrite <- Zlt_Qlt in Hlt. lia.
Qed.

Lemma upside_cell r s m :
  exists u,
    (if gtb (Fin m) (Fin 0)
     then mul (div (sub (Fin (r * s)) (Fin m)) (Fin m)) (Fin 100)
     else Fin 0) = Fin u /\
    (0 < m -> u = (r * s - m) / m * 100).
Proof.
  rewrite gtb_Fin_0. cmp m.
  - unfold sub. simpl add. rewrite (div_Fin_pos _ _ E). simpl mul.
    eexists. split; [done|]. done.
  - eexists. split; [done|]. intros; lra.
Qed.

Lemma ratio_cell t m :
  exists q, (if gtb (Fin m) (Fin 0) then div (Fin t) (Fin m) else Fin 0) = Fin q.
Proof.
  rewrite gtb_Fin_0. cmp m; [rewrite (div_Fin_pos _ _ E)|]; eauto.
Qed.

Lemma venture_cell qv qt qe :
  exists w k,
    clip 0 100 (round1 (add (add (Fin qv) (Fin qt)) (Fin qe))) = Fin w /\
    0 <= w <= 100 /\ w == inject_Z k / 10 /\
    (qv + qt + qe <= 60 -> w <= 60).
Proof.
  simpl add. simpl round1.
  set (k := rint ((qv + qt + qe) * 10)).
  destruct (clip_Fin 0 100 (inject_Z k / 10)) as (w & Hw & _ & Hb); [lra|].
  rewrite Hw. simpl in Hw. injection Hw as Hw.
  assert (qv + qt + qe <= 60 -> inject_Z k / 10 <= 60) as H60.
  { intros H. assert (k <= 600)%Z as Hk.
    { apply rint_le. change (inject_Z 600) with 600. lra. }
    rewrite Zle_Qle in Hk. change (inject_Z 600) with 600 in Hk. qlra. }
  destruct (Qltb (inject_Z k / 10) 0) eqn:E1;
    [apply Qltb_lt in E1|apply Qltb_ge in E1;
     destruct (Qltb 100 (inject_Z k / 10)) eqn:E2;
       [apply Qltb_lt in E2|apply Qltb_ge in E2]].
  - exists w, 0%Z. subst w. repeat split; first [lra | reflexivity].
  - exists w, 1000%Z. subst w. repeat split; first [lra | reflexivity].
  - exists w, k. subst w. repeat split; first [lra | done].
Qed.

Lemma finite_lookup (xs : list f64) (i : nat) :
  Forall finite xs -> (i < length xs)%nat -> exists q, xs !! i = Some (Fin q).
Proof.
  intros HF Hi. destruct (lookup_lt_is_Some_2 xs i Hi) as [x Hx].
  rewrite Forall_forall in HF.
  destruct (HF x) as [q ->]; [by eapply list_elem_of_lookup_2|]. eauto.
Qed.

Section Pipeline.
Variables (h : store) (l : loc) (d : DataFrame) (t30 t24 t7 mc tv : list f64).
Hypothesis Hl : h !! l = Some d.
Hypothesis Hwf : wf d.
Hypothesis H30 : num_col d "total30d" = Ok t30.
Hypothesis H24 : num_col d "total24h" = Ok t24.
Hypothesis H7 : num_col d "total7d" = Ok t7.
Hypothesis Hmc : num_col d "mcap" = Ok mc.
Hypothesis Htv : num_col d "tvl" = Ok tv.

Let ar := annualized_revenue t30 t24.
Let sm := sector_median (ps_ratio_calc (ps_ratio mc ar)).
Let fv := fair_value ar sm.
Let up := upside_potential mc fv.
Let vs := valuation_score up.
Let ts := trend_score (revenue_trend t24 (daily_avg_7d t7)).
Let es := efficiency_score (tvl_mcap_ratio tv mc).
Let mt := metrics_table d t30 t24 mc.
Let st := score_table mt up t7 t24 mc tv.

Lemma metrics_then_score_run :
  metrics_then_score l h = (Ok (length (h ++ [mt])), (h ++ [mt]) ++ [st]).
Proof.
  pose proof (num_col_len _ _ _ Hwf H30) as L30.
  pose proof (num_col_len _ _ _ Hwf H24) as L24.
  pose proof (num_col_len _ _ _ Hwf Hmc) as Lmc.
  unfold metrics_then_score.
  erewrite bind_run; [|by apply calculate_financial_metrics_run].
  apply calculate_venture_score_run.
  - apply top_lookup.
  - by apply wf_metrics_table.
  - unfold mt, metrics_table. col.
  - unfold mt, metrics_table. col.
  - unfold mt, metrics_table. col.
  - unfold mt, metrics_table. col.
  - unfold mt, metrics_table. col.
Qed.

Lemma pipeline_row (i : nat) a b c m t :
  t30 !! i = Some (Fin a) -> t24 !! i = Some (Fin b) -> t7 !! i = Some (Fin c) ->
  mc !! i = Some (Fin m) -> tv !! i = Some (Fin t) ->
  exists r s u qv qt qe w k,
    ar !! i = Some (Fin r) /\ sm = Fin s /\
    fv !! i = Some (Fin (r * s)) /\
    up !! i = Some (Fin u) /\ (0 < m -> u = (r * s - m) / m * 100) /\
    vs !! i = Some (Fin qv) /\
    qv == (Qmax (-100) (Qmin 200 u) + 100) / 300 * 40 /\ 0 <= qv <= 40 /\
    ts !! i = Some (Fin qt) /\ 0 <= qt <= 30 /\
    es !! i = Some (Fin qe) /\ 0 <= qe <= 30 /\
    map (clip 0 100) (map round1 (score_sum vs ts es)) !! i = Some (Fin w) /\
    0 <= w <= 100 /\ w == inject_Z k / 10 /\
    (qv + qt + qe <= 60 -> w <= 60).
Proof.
  intros Ha Hb Hc Hm Ht.
  (* annualized revenue, fair value, upside *)
  pose proof (annualized_revenue_row _ _ _ _ _ Ha Hb) as Har.
  assert (exists r, ar !! i = Some (Fin r)) as [r Hr].
  { subst ar. rewrite Har. destruct (gtb (Fin a) (Fin 0)); simpl; eauto. }
  destruct (sector_median_Fin (ps_ratio mc ar)) as [s Hs]. fold sm in Hs.
  pose proof (fair_value_row _ sm _ _ Hr) as Hfv. fold fv in Hfv.
  rewrite Hs in Hfv. simpl in Hfv.
  pose proof (upside_potential_row _ _ _ _ _ Hm Hfv) as Hup. fold up in Hup.
  destruct (upside_cell r s m) as (u & Hu & Hu'). rewrite Hu in Hup.
  (* valuation score *)
  pose proof (valuation_score_row _ _ _ Hup) as Hv. fold vs in Hv.
  destruct (valuation_cell (Fin u)) as (cv & qv & Hcv & Hqv & Hqv' & Hbv); [done|].
  rewrite Hqv in Hv.
  destruct (clip_Fin (-100) 200 u) as (cv' & Hcv' & Hmax & _); [lra|].
  rewrite Hcv in Hcv'. injection Hcv' as <-.
  (* trend score *)
  pose proof (daily_avg_7d_row _ _ _ Hc) as Havg.
  pose proof (revenue_trend_row _ _ _ _ _ Hb Havg) as Htr.
  destruct (trend_of_finite b c) as (tr & Htr' & _). rewrite Htr' in Htr.
  pose proof (trend_score_row _ _ _ Htr) as Hts. fold ts in Hts.
  destruct (trend_cell (Fin tr)) as (ct & qt & _ & Hqt & _ & Hbt); [done|].
  rewrite Hqt in Hts.
  (* efficiency score *)
  pose proof (tvl_mcap_ratio_row _ _ _ _ _ Ht Hm) as Hra.
  destruct (ratio_cell t m) as (ra & Hra'). rewrite Hra' in Hra.
  pose proof (efficiency_score_row _ _ _ Hra) as Hes. fold es in Hes.
  destruct (efficiency_cell (Fin ra)) as (ce & qe & _ & Hqe & _ & Hbe); [done|].
  rewrite Hqe in Hes.
  (* composite *)
  destruct (venture_cell qv qt qe) as (w & k & Hw & Hbw & Hk & H60).
  exists r, s, u, qv, qt, qe, w, k.
  repeat (split; [first [done | lra | by rewrite Hqv', Hmax]|]).
  split; [|done].
  rewrite !list_lookup_fmap. unfold score_sum.
  rewrite (zip_with_lookup add _ _ i (add (Fin qv) (Fin qt)) (Fin qe));
    [by rewrite <- Hw| |done].
  by apply zip_with_lookup.
Qed.

Hypothesis F30 : Forall finite t30.
Hypothesis F24 : Forall finite t24.
Hypothesis F7 : Forall finite t7.
Hypothesis Fmc : Forall finite mc.
Hypothesis Ftv : Forall finite tv.

Lemma finite_row (i : nat) :
  (i < nrows d)%nat ->
  exists a b c m t,
    t30 !! i = Some (Fin a) /\ t24 !! i = Some (Fin b) /\ t7 !! i = Some (Fin c) /\
    mc !! i = Some (Fin m) /\ tv !! i = Some (Fin t).
Proof.
  intros Hi.
  destruct (finite_lookup t30 i F30) as [a Ha];
    [by rewrite (num_col_len _ _ _ Hwf H30)|].
  destruct (finite_lookup t24 i F24) as [b Hb];
    [by rewrite (num_col_len _ _ _ Hwf H24)|].
  destruct (finite_lookup t7 i F7) as [c Hc];
    [by rewrite (num_col_len _ _ _ Hwf H7)|].
  destruct (finite_lookup mc i Fmc) as [m Hm];
    [by rewrite (num_col_len _ _ _ Hwf Hmc)|].
  destruct (finite_lookup tv i Ftv) as [t Ht];
    [by rewrite (num_col_len _ _ _ Hwf Htv)|].
  eauto 10.
Qed.

(** C5. On a table whose [tvl], [mcap], [total24h], [total7d] and
    [total30d] cells are finite numbers (non-negative or not), the metrics
    stage followed by [calculate_venture_score] returns, and on every row
    [valuation_score] is a finite number in [0, 40], [trend_score] and
    [efficiency_score] are finite numbers in [0, 30], and [venture_score]
    is a finite number in [0, 100] with one decimal place. *)
Theorem score_bounds :
  returns (metrics_then_score l) h (fun out h' =>
    exists d' v t e w,
      h' !! out = Some d' /\ nrows d' = nrows d /\
      num_col d' "valuation_score" = Ok v /\
      num_col d' "trend_score" = Ok t /\
      num_col d' "efficiency_score" = Ok e /\
      num_col d' "venture_score" = Ok w /\
      forall i : nat, (i < nrows d)%nat ->
        exists qv qt qe qw,
          v !! i = Some (Fin qv) /\ 0 <= qv <= 40 /\
          t !! i = Some (Fin qt) /\ 0 <= qt <= 30 /\
          e !! i = Some (Fin qe) /\ 0 <= qe <= 30 /\
          w !! i = Some (Fin qw) /\ 0 <= qw <= 100 /\
          exists k : Z, qw == inject_Z k / 10).
Proof.
  eexists _, _. split; [apply metrics_then_score_run|].
  eexists _, _, _, _, _. split; [apply top_lookup|].
  split; [done|].
  unfold st, score_table.
  split; [col|]. split; [col|]. split; [col|]. split; [col|].
  intros i Hi.
  destruct (finite_row i Hi) as (a & b & c & m & t & Ha & Hb & Hc & Hm & Ht).
  destruct (pipeline_row i a b c m t Ha Hb Hc Hm Ht)
    as (r & s & u & qv & qt & qe & w & k & _ & _ & _ & _ & _ & Hv & _ & Hbv
        & Hts & Hbt & Hes & Hbe & Hw & Hbw & Hk & _).
  exists qv, qt, qe, w. eauto 12.
Qed.

(** C10. A row with [mcap > 0] that has no 24-hour revenue and no
    positive 30-day revenue (its other cells being finite) has an
    annualised revenue of 0, a [fair_value] of 0, an [upside_potential] of
    -100, a [valuation_score] of 0 and a [venture_score] of at most 60. *)
Theorem zero_revenue_row (i : nat) (a b c m t : Q) :
  t30 !! i = Some (Fin a) -> t24 !! i = Some (Fin b) -> t7 !! i = Some (Fin c) ->
  mc !! i = Some (Fin m) -> tv !! i = Some (Fin t) ->
  a <= 0 -> b == 0 -> 0 < m ->
  returns (metrics_then_score l) h (fun out h' =>
    exists d' ar' fv' up' v w r f u qv qw,
      h' !! out = Some d' /\
      num_col d' "mcap" = Ok mc /\
      num_col d' "annualized_revenue" = Ok ar' /\
      num_col d' "fair_value" = Ok fv' /\
      num_col d' "upside_potential" = Ok up' /\
      num_col d' "valuation_score" = Ok v /\
      num_col d' "venture_score" = Ok w /\
      ar' !! i = Some (Fin r) /\ r == 0 /\
      fv' !! i = Some (Fin f) /\ f == 0 /\
      up' !! i = Some (Fin u) /\ u == -100 /\
      v !! i = Some (Fin qv) /\ qv == 0 /\
      w !! i = Some (Fin qw) /\ qw <= 60).
Proof.
  intros Ha Hb Hc Hm Ht Ha0 Hb0 Hm0.
  destruct (pipeline_row i a b c m t Ha Hb Hc Hm Ht)
    as (r & s & u & qv & qt & qe & w & k & Hr & _ & Hfv & Hup & Hu & Hv & Hqv
        & Hbv & Hts & Hbt & Hes & Hbe & Hw & Hbw & Hk & H60).
  assert (r == 0) as Hr0.
  { pose proof (annualized_revenue_row _ _ _ _ _ Ha Hb) as Har.
    fold ar in Har. rewrite Hr, gtb_Fin_0 in Har.
    destruct (Qltb 0 a) eqn:E; [apply Qltb_lt in E; lra|].
    simpl in Har. injection Har as ->. rewrite Hb0. lra. }
  specialize (Hu Hm0).
  assert (r * s == 0) as Hf by (rewrite Hr0; lra).
  assert (u == -100) as Hu100.
  { subst u. rewrite Hf. field. lra. }
  assert (qv == 0) as Hqv0.
  { rewrite Hqv.
    destruct (Q.max_spec (-100) (Qmin 200 u)) as [[]|[]];
    destruct (Q.min_spec 200 u) as [[]|[]]; qlra. }
  eexists _, _. split; [apply metrics_then_score_run|].
  eexists _, _, _, _, _, _, r, (r * s), u, qv, w. split; [apply top_lookup|].
  unfold st, score_table, mt, metrics_table.
  split; [col|]. split; [col|]. split; [col|]. split; [col|].
  split; [col|]. split; [col|].
  repeat (split; [done|]). apply H60. lra.
Qed.
End Pipeline.

(* ================================================================= *)
(** ** [drop_duplicates] and the left join on a deduplicated table *)

Lemma gather_first_occ {A} (seen ks : list obj) (pre items : list A) :
  length items = length ks ->
  gather (first_occ_from seen (length pre) ks) (pre ++ items) = dedup_by seen ks items.
Proof.
  revert seen pre items. induction ks as [|k ks IH]; intros seen pre items Hlen.
  - by destruct items.
  - destruct items as [|x items]; [done|]. simpl in Hlen.
    assert (forall s, gather (first_occ_from s (S (length pre)) ks) (pre ++ x :: items)
                      = dedup_by s ks items) as IH'.
    { intros s. specialize (IH s (pre ++ [x]) items).
      rewrite length_app, <- app_assoc in IH. simpl in IH.
      replace (length pre + 1)%nat with (S (length pre)) in IH by lia.
      apply IH. lia. }
    simpl. destruct (bool_decide (k ∈ seen)); [apply IH'|].
    unfold gather. simpl. rewrite list_lookup_middle by done. simpl.
    f_equal. apply IH'.
Qed.

Lemma gather_first_occurrences {A} (ks : list obj) (items : list A) :
  length items = length ks ->
  gather (first_occurrences ks) items = dedup_by [] ks items.
Proof. apply (gather_first_occ [] ks []). Qed.

Lemma indices_from_S i mask : indices_from (S i) mask = map S (indices_from i mask).
Proof.
  revert i. induction mask as [|b m IH]; intros i; simpl; [done|].
  destruct b; simpl; by rewrite IH.
Qed.

Lemma positions_cons_eq k ks : positions k (k :: ks) = 0%nat :: map S (positions k ks).
Proof.
  unfold positions, indices_of. simpl.
  rewrite bool_decide_eq_true_2 by done. by rewrite indices_from_S.
Qed.

Lemma positions_cons_ne k x ks : x <> k -> positions k (x :: ks) = map S (positions k ks).
Proof.
  intros H. unfold positions, indices_of. simpl.
  rewrite bool_decide_eq_false_2 by done. by rewrite indices_from_S.
Qed.

Lemma positions_seen k seen ks :
  k ∈ seen -> positions k (dedup_by seen ks ks) = [].
Proof.
  revert seen. induction ks as [|x ks IH]; intros seen Hk; simpl; [done|].
  destruct (bool_decide (x ∈ seen)) eqn:E; [by apply IH|].
  apply bool_decide_eq_false in E.
  rewrite positions_cons_ne by (intros ->; done).
  rewrite IH; [done|]. by right.
Qed.

(** Looking a key up in the deduplicated table finds the row of its first
    occurrence in the original table. *)
Lemma dedup_lookup {A} seen ks (vs : list A) k :
  length vs = length ks -> k ∉ seen ->
  match find_first k ks with
  | Some j => exists p, positions k (dedup_by seen ks ks) = [p] /\
                        dedup_by seen ks vs !! p = vs !! j
  | None => positions k (dedup_by seen ks ks) = []
  end.
Proof.
  revert seen vs. induction ks as [|x ks IH]; intros seen vs Hlen Hk; [done|].
  destruct vs as [|v vs]; [done|]. simpl in Hlen.
  assert (length vs = length ks) as Hlen' by lia.
  simpl. destruct (bool_decide (x ∈ seen)) eqn:E.
  - apply bool_decide_eq_true in E.
    rewrite bool_decide_eq_false_2 by (intros ->; done).
    specialize (IH seen vs Hlen' Hk).
    destruct (find_first k ks) as [j|]; simpl; [|done].
    destruct IH as (p & Hp & Hv). eauto.
  - apply bool_decide_eq_false in E.
    destruct (bool_decide (x = k)) eqn:Ex.
    + apply bool_decide_eq_true in Ex. subst x.
      exists 0%nat. rewrite positions_cons_eq, positions_seen by left. done.
    + apply bool_decide_eq_false in Ex.
      rewrite positions_cons_ne by done.
      assert (k ∉ x :: seen) as Hk'.
      { intros [->|H]%elem_of_cons; done. }
      specialize (IH (x :: seen) vs Hlen' Hk').
      destruct (find_first k ks) as [j|]; simpl.
      * destruct IH as (p & -> & Hv). exists (S p). done.
      * by rewrite IH.
Qed.

Lemma find_first_Some k ks j :
  find_first k ks = Some j <->
  ks !! j = Some k /\ forall j', (j' < j)%nat -> ks !! j' <> Some k.
Proof.
  revert j. induction ks as [|x ks IH]; intros j; simpl.
  - split; [done|]. by intros [? _].
  - destruct (bool_decide (x = k)) eqn:E.
    + apply bool_decide_eq_true in E. subst x. split.
      * intros [= <-]. split; [done|]. intros; lia.
      * intros [Hj Hmin]. destruct j as [|j]; [done|].
        exfalso. apply (Hmin 0%nat); [lia|done].
    + apply bool_decide_eq_false in E. split.
      * destruct (find_first k ks) as [j0|] eqn:E0; [|done]. simpl.
        intros [= <-]. destruct (proj1 (IH j0) eq_refl) as [Hj Hmin].
        split; [done|].
        intros [|j'] Hlt; simpl; [congruence|]. apply Hmin. lia.
      * intros [Hj Hmin]. destruct j as [|j]; simpl in Hj; [congruence|].
        assert (find_first k ks = Some j) as ->; [|done].
        apply IH. split; [done|]. intros j' Hlt. apply (Hmin (S j')). lia.
Qed.

Lemma find_first_None k ks : find_first k ks = None <-> k ∉ ks.
Proof.
  induction ks as [|x ks IH]; simpl.
  - split; [intros _; apply not_elem_of_nil|done].
  - destruct (bool_decide (x = k)) eqn:E.
    + apply bool_decide_eq_true in E. subst. split; [done|].
      intros H. exfalso. apply H. left.
    + apply bool_decide_eq_false in E.
      destruct (find_first k ks); simpl.
      * split; [done|]. intros H. exfalso.
        assert (k ∉ ks) as H' by (intros ?; apply H; by right).
        by apply IH in H'.
      * split; [|done]. intros _ [->|H]%elem_of_cons; [done|].
        by apply (proj1 IH).
Qed.

Lemma join_from_dedup {A} (na : A) i lk rk (vs : list A) :
  length vs = length rk ->
  (join_from i lk (dedup_by [] rk rk)).*1 = seq i (length lk) /\
  gather_opt na (join_from i lk (dedup_by [] rk rk)).*2 (dedup_by [] rk vs)
  = map (fun k => default na (key_lookup rk vs k)) lk.
Proof.
  intros Hlen. revert i. induction lk as [|k lk IH]; intros i; [done|].
  destruct (IH (S i)) as [IH1 IH2].
  pose proof (dedup_lookup [] rk vs k Hlen (not_elem_of_nil k)) as Hk.
  cbn [join_from map length seq]. unfold key_lookup at 1.
  destruct (find_first k rk) as [j|]; cbn [mbind option_bind].
  - destruct Hk as (p & -> & Hv).
    cbn [map app]. rewrite !fmap_cons, IH1. split; [done|].
    unfold gather_opt in *. cbn [map snd]. by rewrite IH2, Hv.
  - rewrite Hk.
    cbn [map app]. rewrite !fmap_cons, IH1. split; [done|].
    unfold gather_opt in *. cbn [map snd]. by rewrite IH2.
Qed.

Lemma gather_seq {A} (pre xs : list A) :
  gather (seq (length pre) (length xs)) (pre ++ xs) = xs.
Proof.
  revert pre. induction xs as [|x xs IH]; intros pre; [done|].
  unfold gather in *. simpl. rewrite list_lookup_middle by done. simpl.
  f_equal. specialize (IH (pre ++ [x])).
  rewrite length_app, <- app_assoc in IH. simpl in IH.
  by replace (length pre + 1)%nat with (S (length pre)) in IH by lia.
Qed.

Lemma gather_col_seq c : gather_col (seq 0 (col_len c)) c = c.
Proof. destruct c as [xs|xs]; simpl; f_equal; apply (gather_seq [] xs). Qed.

Lemma lookup_col_app c cs1 cs2 :
  lookup_col c (cs1 ++ cs2)
  = match lookup_col c cs1 with Some v => Some v | None => lookup_col c cs2 end.
Proof.
  induction cs1 as [|[n w] cs1 IH]; simpl; [done|]. by destruct (String.eqb n c).
Qed.

Lemma lookup_col_None c cs : c ∉ cs.*1 -> lookup_col c cs = None.
Proof.
  induction cs as [|[n w] cs IH]; simpl; [done|].
  intros H. destruct (String.eqb n c) eqn:E.
  - apply String.eqb_eq in E. subst. exfalso. apply H. left.
  - apply IH. intros ?. apply H. by right.
Qed.

Lemma get_col_take_rows idxs d c v :
  get_col d c = Ok v -> get_col (take_rows idxs d) c = Ok (gather_col idxs v).
Proof.
  unfold get_col. rewrite lookup_col_take_rows.
  destruct (lookup_col c (columns d)); [|done]. by intros [= ->].
Qed.

Lemma key_col_get d c ks : key_col d c = Ok ks -> get_col d c = Ok (ObjCol ks).
Proof.
  unfold key_col. destruct (get_col d c) as [[xs|xs]|]; simpl; try done.
  by intros [= ->].
Qed.

Lemma num_col_get d c xs : num_col d c = Ok xs -> get_col d c = Ok (NumCol xs).
Proof.
  unfold num_col. destruct (get_col d c) as [[ys|ys]|]; simpl; try done.
  by intros [= ->].
Qed.

Lemma str_col_get d c xs : str_col d c = Ok xs -> get_col d c = Ok (ObjCol xs).
Proof.
  unfold str_col. destruct (get_col d c) as [[ys|ys]|]; simpl; try done.
  by intros [= ->].
Qed.

(** The right-hand side of the join: the revenue table deduplicated on the
    key, restricted to the key and the three revenue fields. *)
Lemma select_dedup (R1 : DataFrame) rk (v24 v7 v30 : list f64) :
  key_col R1 "name_lower" = Ok rk ->
  num_col R1 "total24h" = Ok v24 -> num_col R1 "total7d" = Ok v7 ->
  num_col R1 "total30d" = Ok v30 ->
  length v24 = length rk -> length v7 = length rk -> length v30 = length rk ->
  select ["name_lower"; "total24h"; "total7d"; "total30d"]
         (take_rows (first_occurrences rk) R1)
  = Ok (mkDF (length (first_occurrences rk))
          [("name_lower", ObjCol (dedup_by [] rk rk));
           ("total24h", NumCol (dedup_by [] rk v24));
           ("total7d", NumCol (dedup_by [] rk v7));
           ("total30d", NumCol (dedup_by [] rk v30))]).
Proof.
  intros Hk H24 H7 H30 L24 L7 L30.
  unfold select, select_cols.
  rewrite (get_col_take_rows _ _ _ _ (key_col_get _ _ _ Hk)).
  rewrite (get_col_take_rows _ _ _ _ (num_col_get _ _ _ H24)).
  rewrite (get_col_take_rows _ _ _ _ (num_col_get _ _ _ H7)).
  rewrite (get_col_take_rows _ _ _ _ (num_col_get _ _ _ H30)).
  simpl. by rewrite !gather_first_occurrences.
Qed.

Lemma overlap_nil (d : DataFrame) :
  no_revenue_cols d ->
  List.filter (fun n => negb (String.eqb n "name_lower")
                        && bool_decide (n ∈ ["total24h"; "total7d"; "total30d"]))
              (columns d).*1 = [].
Proof.
  unfold no_revenue_cols. induction 1 as [|[n w] cs Hn _ IH]; simpl; [done|].
  rewrite (bool_decide_eq_false_2 _ Hn), andb_false_r. exact IH.
Qed.

Lemma suffixed_nil sfx n : suffixed [] sfx n = n.
Proof. unfold suffixed. by rewrite bool_decide_eq_false_2 by apply not_elem_of_nil. Qed.

Lemma left_columns_kept (d : DataFrame) n :
  wf d -> n = nrows d ->
  map (fun nc : string * column =>
         (if String.eqb nc.1 "name_lower" then nc.1 else suffixed [] "_x" nc.1,
          gather_col (seq 0 n) nc.2)) (columns d) = columns d.
Proof.
  intros Hwf ->. unfold wf in Hwf.
  induction Hwf as [|[c v] cs Hv _ IH]; simpl; [done|].
  rewrite IH, suffixed_nil. simpl in Hv. rewrite <- Hv, gather_col_seq.
  by destruct (String.eqb c "name_lower").
Qed.

Lemma merge_left_dedup (P1 : DataFrame) lk rk (v24 v7 v30 : list f64) n' :
  wf P1 -> no_revenue_cols P1 ->
  key_col P1 "name_lower" = Ok lk ->
  length v24 = length rk -> length v7 = length rk -> length v30 = length rk ->
  merge_left P1
    (mkDF n' [("name_lower", ObjCol (dedup_by [] rk rk));
              ("total24h", NumCol (dedup_by [] rk v24));
              ("total7d", NumCol (dedup_by [] rk v7));
              ("total30d", NumCol (dedup_by [] rk v30))]) "name_lower"
  = Ok (mkDF (nrows P1)
          (columns P1 ++
           [("total24h", NumCol (name_joined rk v24 lk));
            ("total7d", NumCol (name_joined rk v7 lk));
            ("total30d", NumCol (name_joined rk v30 lk))])).
Proof.
  intros Hwf Hno Hk L24 L7 L30.
  pose proof (get_col_len _ _ _ Hwf (key_col_get _ _ _ Hk)) as Llk. simpl in Llk.
  unfold merge_left. rewrite Hk. simpl rbind.
  change (key_col _ "name_lower") with (@Ok (list obj) (dedup_by [] rk rk)).
  simpl rbind.
  destruct (join_from_dedup NaN 0 lk rk v24 L24) as [Hfst H24].
  destruct (join_from_dedup NaN 0 lk rk v7 L7) as [_ H7].
  destruct (join_from_dedup NaN 0 lk rk v30 L30) as [_ H30].
  assert (length (join_from 0 lk (dedup_by [] rk rk)) = nrows P1) as ->.
  { rewrite <- Llk, <- (length_fmap fst), Hfst. apply length_seq. }
  cbn [columns List.filter fst snd String.eqb Ascii.eqb Bool.eqb negb map
       gather_opt_col nrows].
  rewrite (overlap_nil _ Hno), Hfst, H24, H7, H30.
  rewrite (left_columns_kept P1 (length lk) Hwf Llk), !suffixed_nil. done.
Qed.

(* ================================================================= *)
(** ** The symbol pass *)

Lemma lift_run {A} (r : result A) (hh : store) a : r = Ok a -> lift r hh = (Ok a, hh).
Proof. by intros ->. Qed.

Lemma getcell_run (hh : store) lm J i c col v :
  hh !! lm = Some J -> get_col J c = Ok col -> cell_at col i = Some v ->
  getcell lm i c hh = (Ok v, hh).
Proof.
  intros Hl Hc Hv. unfold getcell.
  rewrite (bind_run _ _ _ _ _ (read_run hh lm J Hl)).
  rewrite (bind_run _ _ _ _ _ (lift_run _ hh _ Hc)).
  by rewrite Hv.
Qed.

Lemma setcell_run (hh : store) lm J i c xs x :
  hh !! lm = Some J -> num_col J c = Ok xs -> length xs = nrows J ->
  (i < nrows J)%nat ->
  setcell lm i c (CNum x) hh = (Ok tt, <[lm := df_set c (NumCol (<[i := x]> xs)) J]> hh).
Proof.
  intros Hl Hc Hlen Hi. unfold setcell.
  rewrite (bind_run _ _ _ _ _ (read_run hh lm J Hl)).
  rewrite (bind_run _ _ _ _ _ (lift_run _ hh _ (num_col_get _ _ _ Hc))).
  apply Nat.ltb_lt in Hi. rewrite Hi.
  apply setcol_run; [done|]. simpl. by rewrite length_insert.
Qed.

(** What the symbol lookup of one row finds in the deduplicated table. *)
Lemma filter_rows_eq_str keys s (FSD : DataFrame) :
  filter_rows (col_eq_str (ObjCol keys) s) FSD = take_rows (positions (OStr s) keys) FSD.
Proof. reflexivity. Qed.

Lemma iloc0_match (FSD : DataFrame) sk (vs : list f64) c s :
  num_col FSD c = Ok (dedup_by [] sk vs) -> length vs = length sk ->
  let M := take_rows (positions (OStr s) (dedup_by [] sk sk)) FSD in
  match key_lookup sk vs (OStr s) with
  | Some x => nrows M = 1%nat /\ iloc0 M c = Ok (CNum x)
  | None => nrows M = 0%nat
  end.
Proof.
  intros Hc Hlen M.
  pose proof (dedup_lookup [] sk vs (OStr s) Hlen (not_elem_of_nil _)) as Hk.
  unfold key_lookup.
  destruct (find_first (OStr s) sk) as [j|] eqn:Ej; simpl.
  - destruct Hk as (p & Hp & Hv).
    apply find_first_Some in Ej as [Hj _].
    apply lookup_lt_Some in Hj. rewrite <- Hlen in Hj.
    destruct (lookup_lt_is_Some_2 vs j Hj) as [x Hx]. rewrite Hx.
    subst M. rewrite Hp. split; [reflexivity|].
    unfold iloc0. rewrite (get_col_take_rows _ _ _ _ (num_col_get _ _ _ Hc)).
    simpl. unfold gather. simpl. rewrite Hv, Hx. done.
  - subst M. rewrite Hk. reflexivity.
Qed.

Section SymbolPass.
Variables (FSD J0 : DataFrame) (psym sk : list obj) (v24 v7 v30 : list f64).
Hypothesis Hsym : get_col J0 "symbol" = Ok (ObjCol psym).
Hypothesis Hkeys : get_col FSD "symbol_lower" = Ok (ObjCol (dedup_by [] sk sk)).
Hypothesis HF24 : num_col FSD "total24h" = Ok (dedup_by [] sk v24).
Hypothesis HF7 : num_col FSD "total7d" = Ok (dedup_by [] sk v7).
Hypothesis HF30 : num_col FSD "total30d" = Ok (dedup_by [] sk v30).
Hypothesis L24 : length v24 = length sk.
Hypothesis L7 : length v7 = length sk.
Hypothesis L30 : length v30 = length sk.

Lemma symbol_pass_run (hh : store) lm J c24 c7 c30 idx :
  hh !! lm = Some J -> merged_state J0 J c24 c7 c30 ->
  (idx < nrows J0)%nat -> (forall l, psym !! idx <> Some (OList l)) ->
  exists J',
    symbol_pass lm FSD idx hh = (Ok tt, <[lm := J']> hh) /\
    merged_state J0 J' (sym_upd psym sk v24 idx c24) (sym_upd psym sk v7 idx c7)
                 (sym_upd psym sk v30 idx c30).
Proof.
  intros Hl (Hn & Hwf & H24 & H7 & H30 & Hsame) Hidx Hnolist.
  assert (get_col J "symbol" = Ok (ObjCol psym)) as HsymJ.
  { rewrite Hsame by discriminate. done. }
  pose proof (get_col_len _ _ _ Hwf HsymJ) as Lsym. simpl in Lsym.
  destruct (lookup_lt_is_Some_2 psym idx) as [o Ho]; [lia|].
  assert (exists J', (Ok tt, hh) = (Ok tt, <[lm := J']> hh) /\
            merged_state J0 J' c24 c7 c30) as Hskip.
  { exists J. rewrite list_insert_id by done. by repeat split. }
  unfold symbol_pass.
  erewrite bind_run; [|eapply getcell_run; [done|exact HsymJ|simpl; by rewrite Ho]].
  unfold sym_upd, sym_value. rewrite Ho.
  destruct o as [s| |ls]; [| |by destruct (Hnolist ls)].
  2:{ erewrite bind_run; [|by apply lift_run]. exact Hskip. }
  erewrite bind_run; [|by apply lift_run]. cbv beta iota.
  erewrite bind_run; [|by apply lift_run].
  erewrite bind_run; [|apply lift_run; exact Hkeys].
  rewrite filter_rows_eq_str.
  pose proof (iloc0_match FSD sk v24 "total24h" (strip (lower s)) HF24 L24) as M24.
  pose proof (iloc0_match FSD sk v7 "total7d" (strip (lower s)) HF7 L7) as M7.
  pose proof (iloc0_match FSD sk v30 "total30d" (strip (lower s)) HF30 L30) as M30.
  cbv zeta in M24, M7, M30.
  destruct (key_lookup sk v24 (OStr (strip (lower s)))) as [x24|].
  2:{ rewrite M24.
      destruct (key_lookup sk v7 _); [destruct M7; lia|].
      destruct (key_lookup sk v30 _); [destruct M30; lia|].
      exact Hskip. }
  destruct M24 as [Hone M24]. rewrite Hone.
  destruct (key_lookup sk v7 _) as [x7|]; [|lia].
  destruct (key_lookup sk v30 _) as [x30|]; [|lia].
  destruct M7 as [_ M7]. destruct M30 as [_ M30].
  pose proof (num_col_len _ _ _ Hwf H24) as Lc24.
  pose proof (num_col_len _ _ _ Hwf H7) as Lc7.
  pose proof (num_col_len _ _ _ Hwf H30) as Lc30.
  assert (lm < length hh)%nat as Hlm by (by eapply lookup_lt_Some).
  cbn [negb Nat.eqb].
  erewrite bind_run; [|apply lift_run; exact M24].
  erewrite bind_run; [|by apply (setcell_run hh lm J idx "total24h" c24 x24); [..|lia]].
  erewrite bind_run; [|apply lift_run; exact M7].
  erewrite bind_run;
    [|eapply setcell_run; [by apply list_lookup_insert_eq| col | len | simpl; lia]].
  erewrite bind_run; [|apply lift_run; exact M30].
  erewrite setcell_run;
    [|by apply list_lookup_insert_eq; rewrite length_insert| col | len | simpl; lia].
  rewrite !list_insert_insert_eq.
  eexists. split; [reflexivity|].
  split; [done|]. split.
  { repeat (apply wf_df_set; [|simpl; by rewrite length_insert]). done. }
  split; [col|]. split; [col|]. split; [col|].
  intros c N24 N7 N30. rewrite !get_col_set_ne by done. by apply Hsame.
Qed.

Lemma symbol_loop_run (hh : store) lm idxs : forall J c24 c7 c30,
  hh !! lm = Some J -> merged_state J0 J c24 c7 c30 ->
  Forall (fun i => (i < nrows J0)%nat /\ forall l, psym !! i <> Some (OList l)) idxs ->
  exists J',
    for_each idxs (symbol_pass lm FSD) hh = (Ok tt, <[lm := J']> hh) /\
    merged_state J0 J'
      (foldl (fun c i => sym_upd psym sk v24 i c) c24 idxs)
      (foldl (fun c i => sym_upd psym sk v7 i c) c7 idxs)
      (foldl (fun c i => sym_upd psym sk v30 i c) c30 idxs).
Proof.
  revert hh. induction idxs as [|i idxs IH]; intros hh J c24 c7 c30 Hl HJ Hall.
  - exists J. simpl. rewrite list_insert_id by done. done.
  - apply Forall_cons in Hall as [[Hi Hnl] Hall].
    destruct (symbol_pass_run hh lm J c24 c7 c30 i Hl HJ Hi Hnl) as (J1 & Hrun & HJ1).
    assert (lm < length hh)%nat as Hlm by (by eapply lookup_lt_Some).
    destruct (IH (<[lm := J1]> hh) J1 _ _ _ (list_lookup_insert_eq _ _ _ Hlm) HJ1 Hall)
      as (J' & Hrun' & HJ').
    exists J'. split; [|exact HJ'].
    cbn [for_each]. erewrite bind_run; [|exact Hrun].
    rewrite Hrun'. by rewrite list_insert_insert_eq.
Qed.
End SymbolPass.

Lemma foldl_sym_upd_lookup psym sk vs idxs : forall (c : list f64) (i : nat),
  foldl (fun c j => sym_upd psym sk vs j c) c idxs !! i
  = (fun x => if bool_decide (i ∈ idxs) then default x (sym_value psym sk vs i) else x)
    <$> c !! i.
Proof.
  induction idxs as [|j idxs IH]; intros c i.
  - simpl. by destruct (c !! i).
  - cbn [foldl]. rewrite IH. unfold sym_upd.
    destruct (decide (i = j)) as [->|Hne].
    + rewrite (bool_decide_eq_true_2 (j ∈ j :: idxs)) by left.
      destruct (sym_value psym sk vs j) as [x|] eqn:Ex; simpl.
      * destruct (c !! j) as [y|] eqn:Ey.
        -- rewrite list_lookup_insert_eq by (by eapply lookup_lt_Some).
           simpl. by destruct (bool_decide (j ∈ idxs)).
        -- rewrite list_insert_ge by (by apply lookup_ge_None). by rewrite Ey.
      * destruct (c !! j); simpl; [|done]. by destruct (bool_decide (j ∈ idxs)).
    + assert (bool_decide (i ∈ j :: idxs) = bool_decide (i ∈ idxs)) as ->.
      { apply bool_decide_ext. rewrite elem_of_cons.
        split; [by intros [?|?]|by right]. }
      destruct (sym_value psym sk vs j); [|done].
      by rewrite list_lookup_insert_ne.
Qed.

(* ================================================================= *)
(** ** Running [merge_datasets] *)

Lemma sfx_lookup (h tl : list DataFrame) k d :
  tl !! k = Some d -> (h ++ tl) !! (length h + k)%nat = Some d.
Proof. intros H. rewrite lookup_app_r by lia. by replace (length h + k - length h)%nat with k by lia. Qed.

Lemma sfx_insert (h tl : list DataFrame) k d :
  <[(length h + k)%nat := d]> (h ++ tl) = h ++ <[k := d]> tl.
Proof. apply insert_app_r. Qed.

Lemma getstr_sfx (h tl : list DataFrame) l k d c xs :
  l = (length h + k)%nat -> tl !! k = Some d -> str_col d c = Ok xs ->
  getstr l c (h ++ tl) = (Ok xs, h ++ tl).
Proof.
  intros -> Hk Hc. unfold getstr.
  rewrite (bind_run _ _ _ _ _ (read_run _ _ d (sfx_lookup h tl k d Hk))).
  by apply lift_run.
Qed.

Lemma getcol_sfx (h tl : list DataFrame) l k d c v :
  l = (length h + k)%nat -> tl !! k = Some d -> get_col d c = Ok v ->
  getcol l c (h ++ tl) = (Ok v, h ++ tl).
Proof.
  intros -> Hk Hc. unfold getcol.
  rewrite (bind_run _ _ _ _ _ (read_run _ _ d (sfx_lookup h tl k d Hk))).
  by apply lift_run.
Qed.

Lemma read_sfx (h tl : list DataFrame) l k d :
  l = (length h + k)%nat -> tl !! k = Some d -> read l (h ++ tl) = (Ok d, h ++ tl).
Proof. intros -> Hk. apply read_run. by apply sfx_lookup. Qed.

Lemma setcol_sfx (h tl : list DataFrame) l k d c v :
  l = (length h + k)%nat -> tl !! k = Some d -> col_len v = nrows d ->
  setcol l c v (h ++ tl) = (Ok tt, h ++ <[k := df_set c v d]> tl).
Proof.
  intros -> Hk Hlen.
  rewrite (setcol_run _ _ d) by (done || by apply sfx_lookup).
  by rewrite sfx_insert.
Qed.

Lemma alloc_sfx (h tl : list DataFrame) d :
  alloc d (h ++ tl) = (Ok (length h + length tl)%nat, h ++ (tl ++ [d])).
Proof. unfold alloc. by rewrite length_app, <- app_assoc. Qed.

Lemma str_col_set_ne d c c' v : c <> c' -> str_col (df_set c v d) c' = str_col d c'.
Proof. intros H. unfold str_col. by rewrite get_col_set_ne. Qed.

Lemma key_col_set_eq d c xs : key_col (df_set c (ObjCol xs) d) c = Ok xs.
Proof. unfold key_col. by rewrite get_col_set_eq. Qed.

Lemma str_col_len d c xs : wf d -> str_col d c = Ok xs -> length xs = nrows d.
Proof. intros Hwf H. apply (get_col_len _ _ _ Hwf (str_col_get _ _ _ H)). Qed.

Lemma existsb_false_indices mask : existsb id mask = false -> indices_of mask = [].
Proof.
  unfold indices_of. generalize 0%nat.
  induction mask as [|b m IH]; intros n; simpl; [done|].
  destruct b; simpl; [done|]. apply IH.
Qed.

Lemma no_revenue_cols_set d c v :
  no_revenue_cols d -> c ∉ ["total24h"; "total7d"; "total30d"] ->
  no_revenue_cols (df_set c v d).
Proof.
  unfold no_revenue_cols, df_set. simpl. intros Hd Hc.
  induction Hd as [|[n w] cs Hn Hcs IH]; simpl.
  - by repeat constructor.
  - destruct (String.eqb n c); constructor; done.
Qed.

Lemma no_revenue_cols_get d c :
  no_revenue_cols d -> c ∈ ["total24h"; "total7d"; "total30d"] ->
  lookup_col c (columns d) = None.
Proof.
  intros Hd Hc. apply lookup_col_None. intros Hin.
  apply list_elem_of_fmap in Hin as ([n w] & -> & Hin).
  unfold no_revenue_cols in Hd. rewrite Forall_forall in Hd. by apply (Hd _ Hin).
Qed.

Lemma drop_cols_get names d c :
  c ∉ names -> get_col (drop_cols names d) c = get_col d c.
Proof.
  intros Hc. unfold get_col, drop_cols. cbn [columns].
  induction (columns d) as [|[n w] cs IH]; simpl; [done|].
  destruct (bool_decide (n ∈ names)) eqn:E; simpl.
  - apply bool_decide_eq_true in E.
    destruct (String.eqb n c) eqn:En; [|exact IH].
    apply String.eqb_eq in En. by subst.
  - destruct (String.eqb n c); [done|exact IH].
Qed.

Lemma num_col_drop names d c :
  c ∉ names -> num_col (drop_cols names d) c = num_col d c.
Proof. intros H. unfold num_col. by rewrite drop_cols_get. Qed.

Lemma wf_drop_cols names d : wf d -> wf (drop_cols names d).
Proof.
  unfold wf, drop_cols. cbn [columns nrows].
  induction 1 as [|[n w] cs Hn _ IH]; simpl; [constructor|].
  destruct (bool_decide (n ∈ names)); simpl; [done|by constructor].
Qed.

Lemma filter_elem_of {A} (p : A -> bool) (l : list A) x :
  x ∈ List.filter p l -> x ∈ l.
Proof.
  induction l as [|y l IH]; simpl; [done|].
  destruct (p y); [intros [->|H]%elem_of_cons; [left|right; auto]|].
  intros H. right. auto.
Qed.

Lemma fillna_step_run (h tl : list DataFrame) l k d c xs :
  l = (length h + k)%nat -> tl !! k = Some d ->
  num_col d c = Ok xs -> length xs = nrows d ->
  (col ← getcol l c; filled ← lift (fillna0 col); setcol l c filled) (h ++ tl)
  = (Ok tt, h ++ <[k := df_set c (NumCol (map (fun x => if isna x then Fin 0 else x) xs)) d]> tl).
Proof.
  intros Hl Hk Hc Hlen.
  erewrite bind_run; [|eapply (getcol_sfx _ _ _ k); [done|done|by apply num_col_get]].
  erewrite bind_run; [|by apply lift_run].
  eapply (setcol_sfx _ _ _ k); [done|done|]. simpl. by rewrite length_map.
Qed.

Section MergeRun.
Variables (h : store) (lp lf : loc) (P R : DataFrame).
Variables (pn psym rn rs : list obj) (v24 v7 v30 : list f64).
Hypothesis HP : h !! lp = Some P.
Hypothesis HR : h !! lf = Some R.
Hypothesis HwfP : wf P.
Hypothesis HwfR : wf R.
Hypothesis Hno : no_revenue_cols P.
Hypothesis Hpn : str_col P "name" = Ok pn.
Hypothesis Hpsym : str_col P "symbol" = Ok psym.
Hypothesis Hnolist : Forall (fun o => forall l, o <> OList l) psym.
Hypothesis Hrn : str_col R "name" = Ok rn.
Hypothesis Hrs : str_col R "symbol" = Ok rs.
Hypothesis H24 : num_col R "total24h" = Ok v24.
Hypothesis H7 : num_col R "total7d" = Ok v7.
Hypothesis H30 : num_col R "total30d" = Ok v30.

Let lk := map str_lower_strip pn.
Let rk := map str_lower_strip rn.
Let sk := map str_lower_strip rs.
Let P1 := df_set "name_lower" (ObjCol lk) P.
Let R1 := df_set "name_lower" (ObjCol rk) R.
Let J0 := mkDF (nrows P1)
            (columns P1 ++ [("total24h", NumCol (name_joined rk v24 lk));
                            ("total7d", NumCol (name_joined rk v7 lk));
                            ("total30d", NumCol (name_joined rk v30 lk))]).

Lemma name_joined_length vs : length (name_joined rk vs lk) = nrows P.
Proof.
  unfold name_joined, lk. rewrite !length_map.
  apply (str_col_len _ _ _ HwfP Hpn).
Qed.

Lemma wf_P1 : wf P1.
Proof.
  apply wf_df_set; [done|]. simpl. unfold lk. rewrite length_map.
  apply (str_col_len _ _ _ HwfP Hpn).
Qed.

Lemma no_revenue_P1 : no_revenue_cols P1.
Proof.
  apply no_revenue_cols_set; [done|].
  intros H. repeat (apply elem_of_cons in H as [H|H]; [discriminate|]).
  by apply elem_of_nil in H.
Qed.

Lemma J0_get_left c :
  c <> "total24h" -> c <> "total7d" -> c <> "total30d" ->
  get_col J0 c = get_col P1 c.
Proof.
  intros N24 N7 N30. unfold get_col, J0. cbn [columns].
  rewrite lookup_col_app. destruct (lookup_col c (columns P1)); [done|].
  cbn [lookup_col]. apply String.eqb_neq in N24, N7, N30.
  rewrite String.eqb_sym in N24. rewrite String.eqb_sym in N7.
  rewrite String.eqb_sym in N30. by rewrite N24, N7, N30.
Qed.

Lemma J0_state :
  merged_state J0 J0 (name_joined rk v24 lk) (name_joined rk v7 lk)
               (name_joined rk v30 lk).
Proof.
  split; [done|]. split.
  { unfold wf, J0. cbn [columns nrows]. apply Forall_app. split; [apply wf_P1|].
    repeat constructor; simpl; apply name_joined_length. }
  assert (forall c, c ∈ ["total24h"; "total7d"; "total30d"] ->
                    lookup_col c (columns J0)
                    = lookup_col c [("total24h", NumCol (name_joined rk v24 lk));
                                    ("total7d", NumCol (name_joined rk v7 lk));
                                    ("total30d", NumCol (name_joined rk v30 lk))])
    as Hright.
  { intros c Hc. unfold J0. cbn [columns]. rewrite lookup_col_app.
    by rewrite (no_revenue_cols_get _ _ no_revenue_P1 Hc). }
  unfold num_col, get_col.
  split; [rewrite Hright by repeat constructor; done|].
  split; [rewrite Hright by repeat constructor; done|].
  split; [rewrite Hright by repeat constructor; done|].
  done.
Qed.

Lemma J0_symbol : get_col J0 "symbol" = Ok (ObjCol psym).
Proof.
  rewrite J0_get_left by discriminate. unfold P1.
  rewrite get_col_set_ne by discriminate. by apply str_col_get.
Qed.

Lemma symbol_matching_run :
  exists P' R' J',
    symbol_matching (length h) (length h + 1) (length h + 2)
      (map isna (name_joined rk v24 lk)) (h ++ [P1; R1; J0])
    = (Ok tt, h ++ [P'; R'; J']) /\
    merged_state J0 J'
      (foldl (fun c i => sym_upd psym sk v24 i c) (name_joined rk v24 lk)
             (indices_of (map isna (name_joined rk v24 lk))))
      (foldl (fun c i => sym_upd psym sk v7 i c) (name_joined rk v7 lk)
             (indices_of (map isna (name_joined rk v24 lk))))
      (foldl (fun c i => sym_upd psym sk v30 i c) (name_joined rk v30 lk)
             (indices_of (map isna (name_joined rk v24 lk)))).
Proof.
  pose proof (str_col_len _ _ _ HwfP Hpsym) as Lps.
  pose proof (str_col_len _ _ _ HwfR Hrs) as Lrs.
  pose proof (num_col_len _ _ _ HwfR H24) as L24.
  pose proof (num_col_len _ _ _ HwfR H7) as L7.
  pose proof (num_col_len _ _ _ HwfR H30) as L30.
  unfold symbol_matching.
  destruct (existsb id (map isna (name_joined rk v24 lk))) eqn:Eany.
  2:{ rewrite (existsb_false_indices _ Eany). exists P1, R1, J0.
      split; [done|]. apply J0_state. }
  erewrite bind_run; [|by eapply (read_sfx _ _ _ 0); [lia|reflexivity]].
  assert (has_col "symbol" P1 = true) as ->.
  { unfold has_col, P1. pose proof (str_col_get _ _ _ Hpsym) as Hg.
    unfold get_col in Hg. simpl. rewrite lookup_set_col. simpl.
    by destruct (lookup_col "symbol" (columns P)). }
  erewrite bind_run;
    [|eapply (getstr_sfx _ _ _ 0); [lia|reflexivity|
       unfold P1; rewrite str_col_set_ne by discriminate; exact Hpsym]].
  erewrite bind_run; [|eapply (setcol_sfx _ _ _ 0); [lia|reflexivity|
       simpl; by rewrite length_map]].
  cbn [list_insert insert].
  erewrite bind_run;
    [|eapply (getstr_sfx _ _ _ 1); [lia|reflexivity|
       unfold R1; rewrite str_col_set_ne by discriminate; exact Hrs]].
  erewrite bind_run; [|eapply (setcol_sfx _ _ _ 1); [lia|reflexivity|
       simpl; by rewrite length_map]].
  cbn [list_insert insert].
  erewrite bind_run; [|by eapply (read_sfx _ _ _ 1); [lia|reflexivity]].
  fold sk.
  set (R2 := df_set "symbol_lower" (ObjCol sk) R1).
  set (P2 := df_set "symbol_lower" (ObjCol (map str_lower_strip psym)) P1).
  erewrite bind_run;
    [|apply lift_run; unfold drop_duplicates, R2; by rewrite key_col_set_eq].
  assert (length sk = nrows R) as Lsk by (unfold sk; by rewrite length_map).
  edestruct (symbol_loop_run (take_rows (first_occurrences sk) R2) J0 psym sk
               v24 v7 v30 J0_symbol) as (J' & Hrun & HJ').
  - erewrite get_col_take_rows; [|unfold R2; apply get_col_set_eq].
    simpl. by rewrite gather_first_occurrences.
  - unfold num_col. erewrite get_col_take_rows;
      [|unfold R2, R1; rewrite !get_col_set_ne by discriminate;
        by apply num_col_get].
    simpl. by rewrite gather_first_occurrences by lia.
  - unfold num_col. erewrite get_col_take_rows;
      [|unfold R2, R1; rewrite !get_col_set_ne by discriminate;
        by apply num_col_get].
    simpl. by rewrite gather_first_occurrences by lia.
  - unfold num_col. erewrite get_col_take_rows;
      [|unfold R2, R1; rewrite !get_col_set_ne by discriminate;
        by apply num_col_get].
    simpl. by rewrite gather_first_occurrences by lia.
  - lia.
  - lia.
  - lia.
  - apply (sfx_lookup h [P2; R2; J0] 2 J0). reflexivity.
  - apply J0_state.
  - eapply Forall_impl; [apply indices_of_bound|]. simpl.
    intros i Hi.
    rewrite (length_map isna (name_joined rk v24 lk)), name_joined_length in Hi.
    split; [done|]. intros l Hl.
    rewrite Forall_forall in Hnolist.
    by apply (Hnolist (OList l) (list_elem_of_lookup_2 _ _ _ Hl) l).
  - rewrite sfx_insert in Hrun. cbn [list_insert insert] in Hrun.
    exists P2, R2, J'. split; [exact Hrun|exact HJ'].
Qed.

Lemma merge_datasets_run :
  exists h' O,
    merge_datasets lp lf h = (Ok (length h + 3)%nat, h') /\
    h' !! (length h + 3)%nat = Some O /\
    merge_output P O (merged_revenue lk rk psym sk v24 v24)
                 (merged_revenue lk rk psym sk v24 v7)
                 (merged_revenue lk rk psym sk v24 v30).
Proof.
  pose proof (str_col_len _ _ _ HwfP Hpn) as Lpn.
  pose proof (str_col_len _ _ _ HwfR Hrn) as Lrn.
  pose proof (num_col_len _ _ _ HwfR H24) as L24.
  pose proof (num_col_len _ _ _ HwfR H7) as L7.
  pose proof (num_col_len _ _ _ HwfR H30) as L30.
  assert (length rk = nrows R) as Lrk by (unfold rk; by rewrite length_map).
  unfold merge_datasets.
  rewrite (bind_run _ _ _ _ _ (copy_run h lp P HP)).
  erewrite bind_run; [|apply copy_run; by apply lookup_app_l_Some].
  rewrite length_app. cbn [length]. rewrite <- app_assoc. cbn [app].
  erewrite bind_run; [|by eapply (getstr_sfx _ _ _ 0); [lia|reflexivity|]].
  erewrite bind_run; [|by eapply (setcol_sfx _ _ _ 0); [lia|reflexivity|len]].
  cbn [list_insert insert].
  erewrite bind_run; [|by eapply (getstr_sfx _ _ _ 1); [lia|reflexivity|]].
  erewrite bind_run; [|by eapply (setcol_sfx _ _ _ 1); [lia|reflexivity|len]].
  cbn [list_insert insert].
  erewrite bind_run; [|by eapply (read_sfx _ _ _ 1); [lia|reflexivity]].
  fold lk rk P1 R1.
  erewrite bind_run;
    [|apply lift_run; unfold drop_duplicates, R1; by rewrite key_col_set_eq].
  erewrite bind_run;
    [|apply lift_run; apply (select_dedup R1 rk v24 v7 v30);
      [apply key_col_set_eq|unfold R1; by rewrite num_col_set_ne by discriminate..
      |lia|lia|lia]].
  erewrite bind_run; [|by eapply (read_sfx _ _ _ 0); [lia|reflexivity]].
  erewrite bind_run;
    [|apply lift_run; apply (merge_left_dedup P1 lk rk v24 v7 v30);
      [apply wf_P1|apply no_revenue_P1|apply key_col_set_eq|lia|lia|lia]].
  fold J0.
  erewrite bind_run; [|apply alloc_sfx]. cbn [length app].
  destruct J0_state as (_ & _ & HJ24 & _).
  erewrite bind_run;
    [|eapply (getcol_sfx _ _ _ 2); [lia|reflexivity|by apply num_col_get]].
  cbn [isna_col].
  destruct symbol_matching_run
    as (P' & R' & J' & Hsm & HnJ & HwfJ & HJ'24 & HJ'7 & HJ'30 & Hsame).
  erewrite bind_run; [|exact Hsm].
  pose proof (num_col_len _ _ _ HwfJ HJ'24) as Lc24.
  pose proof (num_col_len _ _ _ HwfJ HJ'7) as Lc7.
  pose proof (num_col_len _ _ _ HwfJ HJ'30) as Lc30.
  cbn [for_each].
  erewrite bind_run.
  2:{ erewrite bind_run;
        [|by eapply (fillna_step_run _ _ _ 2); [lia|reflexivity|exact HJ'24|]].
      cbn [list_insert insert].
      erewrite bind_run;
        [|eapply (fillna_step_run _ _ _ 2); [lia|reflexivity|col|len]].
      cbn [list_insert insert].
      erewrite bind_run;
        [|eapply (fillna_step_run _ _ _ 2); [lia|reflexivity|col|len]].
      cbn [list_insert insert]. reflexivity. }
  erewrite bind_run; [|by eapply (read_sfx _ _ _ 2); [lia|reflexivity]].
  rewrite alloc_sfx. cbn [length app].
  eexists _, _. split; [reflexivity|].
  split; [by apply (sfx_lookup h _ 3)|].
  match goal with
  | |- merge_output _ (drop_cols ?E ?T) _ _ _ => set (Jf := T); set (dropped := E)
  end.
  assert (forall c, c ∉ ["name_lower"; "symbol_lower"] -> c ∉ dropped) as Hdrop.
  { intros c Hc Hin. apply Hc. by apply filter_elem_of in Hin. }
  assert (forall c, c ∈ ["total24h"; "total7d"; "total30d"] -> c ∉ dropped) as Hrev.
  { intros c Hc. apply Hdrop. intros Hin.
    repeat (apply elem_of_cons in Hc as [->|Hc];
            [repeat (apply elem_of_cons in Hin as [Hin|Hin]; [discriminate|]);
             by apply elem_of_nil in Hin|]).
    by apply elem_of_nil in Hc. }
  split; [exact HnJ|]. split.
  { apply wf_drop_cols. unfold Jf.
    repeat (apply wf_df_set; [|simpl; by rewrite length_map]). done. }
  unfold merged_revenue.
  split; [rewrite num_col_drop by (apply Hrev; repeat constructor); unfold Jf; col|].
  split; [rewrite num_col_drop by (apply Hrev; repeat constructor); unfold Jf; col|].
  split; [rewrite num_col_drop by (apply Hrev; repeat constructor); unfold Jf; col|].
  intros c Hc.
  assert (c <> "name_lower" /\ c <> "symbol_lower" /\ c <> "total24h" /\
          c <> "total7d" /\ c <> "total30d") as (N1 & N2 & N3 & N4 & N5).
  { repeat split; intros ->; apply Hc; repeat constructor. }
  rewrite drop_cols_get.
  2:{ apply Hdrop. intros Hin.
      repeat (apply elem_of_cons in Hin as [Hin|Hin]; [done|]).
      by apply elem_of_nil in Hin. }
  unfold Jf. rewrite !get_col_set_ne by done.
  rewrite Hsame, J0_get_left by done.
  unfold P1. by rewrite get_col_set_ne.
Qed.
End MergeRun.

(* ================================================================= *)
(** ** Rows of the merged revenue columns *)

Lemma elem_of_indices_from i mask (n : nat) :
  n ∈ indices_from i mask <-> (i <= n)%nat /\ mask !! (n - i)%nat = Some true.
Proof.
  revert i. induction mask as [|b m IH]; intros i; simpl.
  - split; [by intros ?%elem_of_nil|by intros [_ ?]].
  - assert (n ∈ indices_from (S i) m <-> (i < n)%nat /\ m !! (n - S i)%nat = Some true)
      as IH' by (rewrite IH; split; intros [? ?]; split; auto; lia).
    destruct (decide (n = i)) as [->|Hne].
    + rewrite Nat.sub_diag. simpl. destruct b.
      * split; [intros _; split; [lia|done]|intros _; left].
      * rewrite IH'. split; [intros [? _]; lia|intros [_ ?]; done].
    + destruct b.
      * rewrite elem_of_cons, IH'. split.
        -- intros [?|[Hlt Hm]]; [done|]. split; [lia|].
           by replace (n - i)%nat with (S (n - S i)) by lia.
        -- intros [Hle Hm]. right. split; [lia|].
           by replace (n - i)%nat with (S (n - S i)) in Hm by lia.
      * rewrite IH'. split.
        -- intros [Hlt Hm]. split; [lia|].
           by replace (n - i)%nat with (S (n - S i)) by lia.
        -- intros [Hle Hm]. split; [lia|].
           by replace (n - i)%nat with (S (n - S i)) in Hm by lia.
Qed.

Lemma elem_of_indices_of mask (n : nat) :
  n ∈ indices_of mask <-> mask !! n = Some true.
Proof.
  unfold indices_of. rewrite elem_of_indices_from, Nat.sub_0_r.
  split; [by intros [_ ?]|intros ?; split; [lia|done]].
Qed.

Lemma merged_revenue_lookup lk rk psym sk v24 vs (i : nat) k :
  lk !! i = Some k ->
  merged_revenue lk rk psym sk v24 vs !! i
  = Some (let x := default NaN (key_lookup rk vs k) in
          let y := if isna (default NaN (key_lookup rk v24 k))
                   then default x (sym_value psym sk vs i) else x in
          if isna y then Fin 0 else y).
Proof.
  intros Hk.
  assert (forall ws, name_joined rk ws lk !! i = Some (default NaN (key_lookup rk ws k)))
    as Hnj.
  { intros ws. unfold name_joined. by rewrite list_lookup_fmap, Hk. }
  assert (bool_decide (i ∈ indices_of (map isna (name_joined rk v24 lk)))
          = isna (default NaN (key_lookup rk v24 k))) as Hin.
  { destruct (isna (default NaN (key_lookup rk v24 k))) eqn:E.
    - apply bool_decide_eq_true_2, elem_of_indices_of.
      by rewrite list_lookup_fmap, Hnj; simpl; rewrite E.
    - apply bool_decide_eq_false_2. rewrite elem_of_indices_of.
      rewrite list_lookup_fmap, Hnj. simpl. rewrite E. done. }
  unfold merged_revenue.
  rewrite list_lookup_fmap, foldl_sym_upd_lookup, Hnj, Hin. done.
Qed.

Lemma key_lookup_first {A} k ks (vs : list A) j :
  length vs = length ks -> first_match k ks j ->
  exists x, vs !! j = Some x /\ key_lookup ks vs k = Some x.
Proof.
  intros Hlen Hj. pose proof Hj as [Hj1 _].
  apply find_first_Some in Hj. unfold key_lookup. rewrite Hj. simpl.
  apply lookup_lt_Some in Hj1. rewrite <- Hlen in Hj1.
  destruct (lookup_lt_is_Some_2 vs j Hj1) as [x Hx]. eauto.
Qed.

Lemma key_lookup_none {A} k ks (vs : list A) :
  no_match k ks -> key_lookup ks vs k = None.
Proof.
  intros Hno. unfold key_lookup.
  assert (find_first k ks = None) as ->; [|done].
  apply find_first_None. intros [j Hj]%list_elem_of_lookup. by apply (Hno j).
Qed.

Section RevenueCell.
Variables (lk rk psym sk : list obj) (v24 vs : list f64).
Hypothesis L24 : length v24 = length rk.
Hypothesis Lvs : length vs = length rk.
Hypothesis L24s : length v24 = length sk.
Hypothesis Lvss : length vs = length sk.
Hypothesis N24 : Forall (fun x => isna x = false) v24.
Hypothesis Nvs : Forall (fun x => isna x = false) vs.

Lemma notna_lookup (ws : list f64) (j : nat) x :
  Forall (fun x => isna x = false) ws -> ws !! j = Some x -> isna x = false.
Proof.
  intros HF Hx. rewrite Forall_forall in HF.
  apply HF. by eapply list_elem_of_lookup_2.
Qed.

(** A row whose key is found by the join keeps the joined values. *)
Lemma revenue_cell_name (i : nat) k j :
  lk !! i = Some k -> first_match k rk j ->
  merged_revenue lk rk psym sk v24 vs !! i = vs !! j.
Proof.
  intros Hk Hj. rewrite (merged_revenue_lookup _ _ _ _ _ _ _ _ Hk).
  destruct (key_lookup_first k rk v24 j L24 Hj) as (x24 & Hx24 & ->).
  destruct (key_lookup_first k rk vs j Lvs Hj) as (x & Hx & ->).
  simpl. rewrite (notna_lookup _ _ _ N24 Hx24), (notna_lookup _ _ _ Nvs Hx).
  by rewrite Hx.
Qed.

(** A row the join leaves empty takes the values of the first revenue row
    with its symbol. *)
Lemma revenue_cell_symbol (i : nat) k s j :
  lk !! i = Some k -> no_match k rk ->
  psym !! i = Some (OStr s) -> first_match (norm_key s) sk j ->
  merged_revenue lk rk psym sk v24 vs !! i = vs !! j.
Proof.
  intros Hk Hno Hs Hj. rewrite (merged_revenue_lookup _ _ _ _ _ _ _ _ Hk).
  rewrite !(key_lookup_none k rk _ Hno). simpl.
  unfold sym_value. rewrite Hs.
  destruct (key_lookup_first _ sk vs j Lvss Hj) as (x & Hx & Hl).
  unfold norm_key in Hl. rewrite Hl. simpl.
  by rewrite (notna_lookup _ _ _ Nvs Hx), Hx.
Qed.

(** A row matched by neither pass gets 0. *)
Lemma revenue_cell_zero (i : nat) k :
  lk !! i = Some k -> no_match k rk ->
  (forall s, psym !! i = Some (OStr s) -> no_match (norm_key s) sk) ->
  merged_revenue lk rk psym sk v24 vs !! i = Some (Fin 0).
Proof.
  intros Hk Hno Hsym. rewrite (merged_revenue_lookup _ _ _ _ _ _ _ _ Hk).
  rewrite !(key_lookup_none k rk _ Hno). simpl.
  unfold sym_value.
  destruct (psym !! i) as [[s| |l]|] eqn:E; try done.
  pose proof (key_lookup_none _ sk vs (Hsym s eq_refl)) as Hn.
  unfold norm_key in Hn. by rewrite Hn.
Qed.
End RevenueCell.

(* ================================================================= *)
(** ** [merge_datasets]: the reconciled table *)

Section MergeClaims.
Variables (h : store) (lp lf : loc) (P R : DataFrame).
Variables (pn psym rn rs : list obj) (v24 v7 v30 : list f64).
Hypothesis HP : h !! lp = Some P.
Hypothesis HR : h !! lf = Some R.
Hypothesis HwfP : wf P.
Hypothesis HwfR : wf R.
Hypothesis Hno : no_revenue_cols P.
Hypothesis Hpn : str_col P "name" = Ok pn.
Hypothesis Hpsym : str_col P "symbol" = Ok psym.
Hypothesis Hnolist : Forall (fun o => forall l, o <> OList l) psym.
Hypothesis Hrn : str_col R "name" = Ok rn.
Hypothesis Hrs : str_col R "symbol" = Ok rs.
Hypothesis H24 : num_col R "total24h" = Ok v24.
Hypothesis H7 : num_col R "total7d" = Ok v7.
Hypothesis H30 : num_col R "total30d" = Ok v30.

(** C1. On a protocol table and a revenue table with the required fields,
    [merge_datasets] returns normally, and its table has exactly the rows
    of the protocol table: as many rows, every column of the protocol
    table cell for cell in the same order, and the three revenue columns.
    Nothing is assumed about duplicate names or about the number of
    revenue rows. *)
Theorem merge_rows_preserved :
  returns (merge_datasets lp lf) h (fun out h' =>
    exists O t24 t7 t30,
      h' !! out = Some O /\
      nrows O = nrows P /\ wf O /\
      num_col O "total24h" = Ok t24 /\ num_col O "total7d" = Ok t7 /\
      num_col O "total30d" = Ok t30 /\
      forall c,
        c ∉ ["name_lower"; "symbol_lower"; "total24h"; "total7d"; "total30d"] ->
        get_col O c = get_col P c).
Proof.
  destruct (merge_datasets_run h lp lf P R pn psym rn rs v24 v7 v30)
    as (h' & O & Hrun & HO & Hout); try done.
  exists (length h + 3)%nat, h'. split; [done|].
  exists O. eexists _, _, _. split; [done|]. exact Hout.
Qed.

Hypothesis N24 : Forall (fun x => isna x = false) v24.
Hypothesis N7 : Forall (fun x => isna x = false) v7.
Hypothesis N30 : Forall (fun x => isna x = false) v30.

(** C2. In the merged table, a protocol row whose normalised name is the
    normalised name of some revenue row has the three revenue values of
    the first such revenue row; a row without a name match whose
    normalised symbol is the normalised symbol of some revenue row has
    the values of the first such revenue row; a row matched by neither
    has 0 in the three fields. *)
Theorem merge_join_correct :
  returns (merge_datasets lp lf) h (fun out h' =>
    exists O t24 t7 t30,
      h' !! out = Some O /\
      num_col O "total24h" = Ok t24 /\ num_col O "total7d" = Ok t7 /\
      num_col O "total30d" = Ok t30 /\
      forall (i : nat) nm,
        pn !! i = Some (OStr nm) ->
        (forall j, first_match (norm_key nm) (map str_lower_strip rn) j ->
           t24 !! i = v24 !! j /\ t7 !! i = v7 !! j /\ t30 !! i = v30 !! j) /\
        (no_match (norm_key nm) (map str_lower_strip rn) ->
           (forall s j,
              psym !! i = Some (OStr s) ->
              first_match (norm_key s) (map str_lower_strip rs) j ->
              t24 !! i = v24 !! j /\ t7 !! i = v7 !! j /\ t30 !! i = v30 !! j) /\
           ((forall s, psym !! i = Some (OStr s) ->
                       no_match (norm_key s) (map str_lower_strip rs)) ->
            t24 !! i = Some (Fin 0) /\ t7 !! i = Some (Fin 0) /\
            t30 !! i = Some (Fin 0)))).
Proof.
  destruct (merge_datasets_run h lp lf P R pn psym rn rs v24 v7 v30)
    as (h' & O & Hrun & HO & Hout); try done.
  destruct Hout as (_ & _ & Ht24 & Ht7 & Ht30 & _).
  exists (length h + 3)%nat, h'. split; [done|].
  exists O. eexists _, _, _. split; [done|].
  split; [exact Ht24|]. split; [exact Ht7|]. split; [exact Ht30|].
  pose proof (str_col_len _ _ _ HwfR Hrn) as Lrn.
  pose proof (str_col_len _ _ _ HwfR Hrs) as Lrs.
  pose proof (num_col_len _ _ _ HwfR H24) as L24.
  pose proof (num_col_len _ _ _ HwfR H7) as L7.
  pose proof (num_col_len _ _ _ HwfR H30) as L30.
  intros i nm Hnm.
  assert (map str_lower_strip pn !! i = Some (norm_key nm)) as Hk.
  { by rewrite list_lookup_fmap, Hnm. }
  split; [|intros Hnone; split].
  - intros j Hj.
    repeat split; eapply revenue_cell_name; try done; rewrite length_map; lia.
  - intros s j Hs Hj.
    repeat split; eapply revenue_cell_symbol; try done; rewrite length_map; lia.
  - intros Hnosym.
    repeat split; eapply revenue_cell_zero; done.
Qed.
End MergeClaims.

(* ================================================================= *)
(** ** Frame: the stages write to their own copies only *)

Lemma preserves_ret {A} n (a : A) (Q : A -> Prop) : Q a -> preserves n (mret a) Q.
Proof. intros HQ h Hn. simpl. repeat split; [lia|]. by intros ? [= <-]. Qed.

Lemma preserves_bind {A B} n (m : M A) (k : A -> M B) Q Q' :
  preserves n m Q -> (forall a, Q a -> preserves n (k a) Q') ->
  preserves n (m ≫= k) Q'.
Proof.
  intros Hm Hk h Hn. destruct (Hm h Hn) as (Ht & Hl & HQ).
  unfold mbind, M_bind. destruct (m h) as [[a|e] h1]; simpl in *.
  - destruct (Hk a (HQ a eq_refl) h1) as (Ht' & Hl' & HQ'); [lia|].
    split; [congruence|]. split; [lia|done].
  - done.
Qed.

Lemma preserves_weaken {A} n (m : M A) (Q Q' : A -> Prop) :
  preserves n m Q -> (forall a, Q a -> Q' a) -> preserves n m Q'.
Proof.
  intros Hm HQ h Hn. destruct (Hm h Hn) as (Ht & Hl & Ha). eauto.
Qed.

Lemma preserves_lift {A} n (r : result A) : preserves n (lift r) (fun _ => True).
Proof. intros h Hn. simpl. repeat split; lia. Qed.

Lemma preserves_read n l : preserves n (read l) (fun _ => True).
Proof. intros h Hn. unfold read. destruct (h !! l); simpl; repeat split; lia. Qed.

Lemma preserves_alloc n d : preserves n (alloc d) (fun l => (n <= l)%nat).
Proof.
  intros h Hn. simpl. split; [by rewrite take_app_le|].
  split; [rewrite length_app; lia|]. by intros ? [= <-].
Qed.

Lemma preserves_copy n l : preserves n (copy l) (fun l' => (n <= l')%nat).
Proof.
  eapply preserves_bind; [apply preserves_read|].
  intros d _. apply preserves_alloc.
Qed.

Lemma preserves_setcol n l c v : (n <= l)%nat -> preserves n (setcol l c v) (fun _ => True).
Proof.
  intros Hl h Hn. unfold setcol.
  destruct (h !! l); [|simpl; repeat split; lia].
  destruct (col_len v =? nrows d)%nat; simpl; [|repeat split; lia].
  split; [by rewrite take_insert_ge|]. split; [by rewrite length_insert|done].
Qed.

Lemma preserves_true {A} n (m : M A) Q : preserves n m Q -> preserves n m (fun _ => True).
Proof. intros H. by eapply preserves_weaken. Qed.

Lemma preserves_getnum n l c : preserves n (getnum l c) (fun _ => True).
Proof.
  eapply preserves_bind; [apply preserves_read|]. intros. apply preserves_lift.
Qed.

Lemma preserves_getstr n l c : preserves n (getstr l c) (fun _ => True).
Proof.
  eapply preserves_bind; [apply preserves_read|]. intros. apply preserves_lift.
Qed.

Lemma preserves_getcol n l c : preserves n (getcol l c) (fun _ => True).
Proof.
  eapply preserves_bind; [apply preserves_read|]. intros. apply preserves_lift.
Qed.

Lemma preserves_getcell n l i c : preserves n (getcell l i c) (fun _ => True).
Proof.
  eapply preserves_bind; [apply preserves_read|]. intros d _.
  eapply preserves_bind; [apply preserves_lift|]. intros col _.
  destruct (cell_at col i); [by apply preserves_ret|apply preserves_lift].
Qed.

Lemma preserves_setcol_scalar n l c x :
  (n <= l)%nat -> preserves n (setcol_scalar l c x) (fun _ => True).
Proof.
  intros Hl. eapply preserves_bind; [apply preserves_read|].
  intros. by apply preserves_setcol.
Qed.

Lemma preserves_setcell n l i c v :
  (n <= l)%nat -> preserves n (setcell l i c v) (fun _ => True).
Proof.
  intros Hl. eapply preserves_bind; [apply preserves_read|]. intros d _.
  eapply preserves_bind; [apply preserves_lift|]. intros col _.
  destruct (i <? nrows d)%nat; [|apply preserves_lift].
  destruct col, v; first [by apply preserves_setcol | apply preserves_lift].
Qed.

Lemma preserves_for_each {A} n (xs : list A) (body : A -> M unit) :
  (forall x, preserves n (body x) (fun _ => True)) ->
  preserves n (for_each xs body) (fun _ => True).
Proof.
  intros Hb. induction xs as [|x xs IH]; simpl.
  - by apply preserves_ret.
  - eapply preserves_bind; [apply Hb|]. intros _ _. exact IH.
Qed.

Ltac pres_prim :=
  first [ apply preserves_copy | apply preserves_alloc | apply preserves_read
        | apply preserves_lift | apply preserves_getnum | apply preserves_getstr
        | apply preserves_getcol | apply preserves_getcell
        | apply preserves_setcol; assumption
        | apply preserves_setcol_scalar; assumption
        | apply preserves_setcell; assumption
        | apply preserves_ret; first [assumption | exact I] ].

Ltac pres :=
  repeat first
    [ pres_prim
    | eapply preserves_bind; [pres_prim|intros ? ?]
    | match goal with
      | |- preserves _ (if ?b then _ else _) _ => destruct b
      end ].

Lemma preserves_metrics n l :
  preserves n (calculate_financial_metrics l) (fun out => (n <= out)%nat).
Proof.
  unfold calculate_financial_metrics. pres.
  eapply preserves_bind.
  { match goal with
    | |- preserves _ (if ?b then _ else _) _ => destruct b
    end; [eapply preserves_true|eapply preserves_true]; pres. }
  intros ? _. pres.
Qed.

Lemma preserves_score n l :
  preserves n (calculate_venture_score l) (fun out => (n <= out)%nat).
Proof. unfold calculate_venture_score. pres. Qed.

Lemma preserves_symbol_pass n merged fsd idx :
  (n <= merged)%nat -> preserves n (symbol_pass merged fsd idx) (fun _ => True).
Proof. intros Hm. unfold symbol_pass. pres. Qed.

Lemma preserves_symbol_matching n protocols fees merged mask :
  (n <= protocols)%nat -> (n <= fees)%nat -> (n <= merged)%nat ->
  preserves n (symbol_matching protocols fees merged mask) (fun _ => True).
Proof.
  intros Hp Hf Hm. unfold symbol_matching.
  destruct (existsb id mask); [|by apply preserves_ret].
  eapply preserves_bind; [apply preserves_read|]. intros pd _.
  destruct (has_col "symbol" pd); [|by apply preserves_ret].
  pres. apply preserves_for_each. intros idx. by apply preserves_symbol_pass.
Qed.

Lemma preserves_merge n lp lf :
  preserves n (merge_datasets lp lf) (fun out => (n <= out)%nat).
Proof.
  unfold merge_datasets. pres.
  eapply preserves_bind; [by apply preserves_symbol_matching|]. intros _ _.
  eapply preserves_bind.
  { apply preserves_for_each. intros col. pres. }
  intros _ _. pres.
Qed.

Lemma preserves_unchanged {A} (m : M A) Q (h : store) :
  preserves (length h) m Q ->
  (forall l d, h !! l = Some d -> (m h).2 !! l = Some d) /\
  (forall a, (m h).1 = Ok a -> Q a).
Proof.
  intros Hm. destruct (Hm h) as (Ht & _ & HQ); [lia|]. split; [|done].
  intros l d Hl. pose proof (lookup_lt_Some _ _ _ Hl) as Hlt.
  rewrite <- (lookup_take_lt _ (length h)) by done.
  rewrite Ht, firstn_all. done.
Qed.

(** C9. None of the three stages changes a table that exists when it is
    called, its arguments included: whatever the stage does, returning or
    raising, every table of the store is afterwards what it was before; the
    table a stage returns is a new one. *)
Theorem stages_do_not_mutate (h : store) (a b : loc) :
  ((forall l d, h !! l = Some d -> (merge_datasets a b h).2 !! l = Some d) /\
   (forall out, (merge_datasets a b h).1 = Ok out -> (length h <= out)%nat)) /\
  ((forall l d, h !! l = Some d -> (calculate_financial_metrics a h).2 !! l = Some d) /\
   (forall out, (calculate_financial_metrics a h).1 = Ok out -> (length h <= out)%nat)) /\
  ((forall l d, h !! l = Some d -> (calculate_venture_score a h).2 !! l = Some d) /\
   (forall out, (calculate_venture_score a h).1 = Ok out -> (length h <= out)%nat)).
Proof.
  split; [|split].
  - apply (preserves_unchanged _ _ h (preserves_merge (length h) a b)).
  - apply (preserves_unchanged _ _ h (preserves_metrics (length h) a)).
  - apply (preserves_unchanged _ _ h (preserves_score (length h) a)).
Qed.

(* ================================================================= *)
(** ** The scenarios of the specification, by evaluation *)

(** Scenario A: 30-day revenue 100000 annualises to 1200000, and the
    price/sales ratio of a market cap of 1000000 is 1000000/1200000. *)
Example scenario_A :
  annualized_revenue [Fin 100000] [Fin 4000] = [Fin 1200000] /\
  ps_ratio [Fin 1000000] [Fin 1200000] = [Fin (1000000 / 1200000)].
Proof. split; reflexivity. Qed.

(** Scenario B: without 30-day revenue the daily revenue is annualised. *)
Example scenario_B : annualized_revenue [Fin 0] [Fin 1000] = [Fin 365000].
Proof. reflexivity. Qed.

(** Scenario C: a market cap of zero gives an upside of 0. *)
Example scenario_C : upside_potential [Fin 0] [Fin 5000] = [Fin 0].
Proof. reflexivity. Qed.

(** Scenario D: no ratio in the valid range, the median defaults to 10. *)
Example scenario_D : sector_median (ps_ratio_calc [PInf; Fin 0; Fin 2000]) = Fin 10.0.
Proof. reflexivity. Qed.

(** Scenario E: of two revenue rows with the same normalised name the first
    is used (rows 0 and 2 of the sample are both called "Foo"); row 3 is
    matched by its symbol, rows 1 and 4 are not matched. *)
Example scenario_E :
  num_col sample_merged "total24h" = Ok [Fin 4000; Fin 0; Fin 4000; Fin 1000; Fin 0] /\
  get_col sample_merged "name" = get_col sample_protocols "name".
Proof. split; reflexivity. Qed.

(** An empty revenue table: every protocol row is kept, with zero revenue. *)
Example merge_empty_revenue :
  let O := result_table (merge_datasets 0%nat 1%nat [sample_protocols; empty_fees]) in
  nrows O = 5%nat /\
  get_col O "name" = Ok (ObjCol s_name) /\
  num_col O "total24h" = Ok (replicate 5 (Fin 0)) /\
  num_col O "total7d" = Ok (replicate 5 (Fin 0)) /\
  num_col O "total30d" = Ok (replicate 5 (Fin 0)).
Proof. vm_compute. repeat split; reflexivity. Qed.

(** The sample through the three stages: the composite scores. *)
Example pipeline_sample :
  exists w,
    num_col (result_table (pipeline 0%nat 1%nat sample_store)) "venture_score" = Ok w /\
    Forall2 (fun x q => exists q', x = Fin q' /\ q' == q) w
            [16.5; 28.3; 37.3; 45.8; 22.5].
Proof.
  eexists. split; [vm_compute; reflexivity|].
  repeat constructor; eexists; (split; [reflexivity|reflexivity]).
Qed.

(* ================================================================= *)
(** ** The statements on the sample tables *)

Lemma sample_protocols_wf : wf sample_protocols.
Proof. repeat constructor. Qed.

Lemma sample_fees_wf : wf sample_fees.
Proof. repeat constructor. Qed.

Lemma sample_merged_wf : wf sample_merged.
Proof. repeat constructor. Qed.

Lemma sample_metrics_wf : wf sample_metrics.
Proof. repeat constructor. Qed.

Lemma sample_no_revenue_cols : no_revenue_cols sample_protocols.
Proof.
  repeat constructor; simpl; intros H;
    repeat (apply elem_of_cons in H as [H|H]; [discriminate|]);
    by apply elem_of_nil in H.
Qed.

Lemma sample_symbols : Forall (fun o => forall l, o <> OList l) s_symbol.
Proof. repeat constructor; intros l; discriminate. Qed.

Lemma sample_notna (xs : list f64) :
  forallb notna xs = true -> Forall (fun x => isna x = false) xs.
Proof.
  induction xs as [|x xs IH]; simpl; [constructor|].
  intros [Hx Hxs]%andb_prop. constructor; [|auto].
  unfold notna in Hx. by destruct (isna x).
Qed.

Lemma sample_finite (xs : list f64) :
  forallb (fun x => match x with Fin _ => true | _ => false end) xs = true ->
  Forall finite xs.
Proof.
  induction xs as [|x xs IH]; simpl; [constructor|].
  intros [Hx Hxs]%andb_prop. constructor; [|auto].
  destruct x; try discriminate. by eexists.
Qed.

Lemma merge_rows_preserved_witness :
  returns (merge_datasets 0%nat 1%nat) sample_store (fun out h' =>
    exists O t24 t7 t30,
      h' !! out = Some O /\
      nrows O = nrows sample_protocols /\ wf O /\
      num_col O "total24h" = Ok t24 /\ num_col O "total7d" = Ok t7 /\
      num_col O "total30d" = Ok t30 /\
      forall c,
        c ∉ ["name_lower"; "symbol_lower"; "total24h"; "total7d"; "total30d"] ->
        get_col O c = get_col sample_protocols c).
Proof.
  apply (merge_rows_preserved sample_store 0%nat 1%nat sample_protocols sample_fees
           s_name s_symbol f_name f_symbol f_total24h f_total7d f_total30d);
    first [ reflexivity | apply sample_protocols_wf | apply sample_fees_wf
          | apply sample_no_revenue_cols | apply sample_symbols ].
Defined.

Lemma merge_join_correct_witness :
  returns (merge_datasets 0%nat 1%nat) sample_store (fun out h' =>
    exists O t24 t7 t30,
      h' !! out = Some O /\
      num_col O "total24h" = Ok t24 /\ num_col O "total7d" = Ok t7 /\
      num_col O "total30d" = Ok t30 /\
      forall (i : nat) nm,
        s_name !! i = Some (OStr nm) ->
        (forall j, first_match (norm_key nm) (map str_lower_strip f_name) j ->
           t24 !! i = f_total24h !! j /\ t7 !! i = f_total7d !! j /\
           t30 !! i = f_total30d !! j) /\
        (no_match (norm_key nm) (map str_lower_strip f_name) ->
           (forall s j,
              s_symbol !! i = Some (OStr s) ->
              first_match (norm_key s) (map str_lower_strip f_symbol) j ->
              t24 !! i = f_total24h !! j /\ t7 !! i = f_total7d !! j /\
              t30 !! i = f_total30d !! j) /\
           ((forall s, s_symbol !! i = Some (OStr s) ->
                       no_match (norm_key s) (map str_lower_strip f_symbol)) ->
            t24 !! i = Some (Fin 0) /\ t7 !! i = Some (Fin 0) /\
            t30 !! i = Some (Fin 0)))).
Proof.
  apply (merge_join_correct sample_store 0%nat 1%nat sample_protocols sample_fees
           s_name s_symbol f_name f_symbol f_total24h f_total7d f_total30d);
    first [ reflexivity | apply sample_protocols_wf | apply sample_fees_wf
          | apply sample_no_revenue_cols | apply sample_symbols
          | apply sample_notna; reflexivity ].
Defined.

Lemma annualized_revenue_spec_witness :
  returns (calculate_financial_metrics 0%nat) [sample_merged] (fun out h' =>
    exists d' ar,
      h' !! out = Some d' /\ num_col d' "annualized_revenue" = Ok ar /\
      length ar = nrows sample_merged /\
      forall (i : nat) a b,
        s_total30d !! i = Some (Fin a) -> s_total24h !! i = Some (Fin b) ->
        (0 < a -> ar !! i = Some (Fin (a * 12))) /\
        (a <= 0 -> ar !! i = Some (Fin (b * 365)))).
Proof.
  apply (annualized_revenue_spec [sample_merged] 0%nat sample_merged
           s_total30d s_total24h s_mcap);
    first [reflexivity | apply sample_merged_wf].
Defined.


(** Row 0 of the sample has a market cap, row 1 has a market cap of zero
    (the guarded case). *)
Lemma upside_potential_spec_witness :
  returns (calculate_financial_metrics 0%nat) [sample_merged] (fun out h' =>
    exists d' ar sm fv up r s,
      h' !! out = Some d' /\
      num_col d' "annualized_revenue" = Ok ar /\
      num_col d' "mcap" = Ok s_mcap /\
      num_col d' "sector_median_ps" = Ok sm /\
      num_col d' "fair_value" = Ok fv /\
      num_col d' "upside_potential" = Ok up /\
      ar !! 0%nat = Some (Fin r) /\ sm !! 0%nat = Some (Fin s) /\
      fv !! 0%nat = Some (Fin (r * s)) /\
      (0 < 1000000 -> up !! 0%nat = Some (Fin ((r * s - 1000000) / 1000000 * 100))) /\
      (1000000 <= 0 -> up !! 0%nat = Some (Fin 0))) /\
  returns (calculate_financial_metrics 0%nat) [sample_merged] (fun out h' =>
    exists d' ar sm fv up r s,
      h' !! out = Some d' /\
      num_col d' "annualized_revenue" = Ok ar /\
      num_col d' "mcap" = Ok s_mcap /\
      num_col d' "sector_median_ps" = Ok sm /\
      num_col d' "fair_value" = Ok fv /\
      num_col d' "upside_potential" = Ok up /\
      ar !! 1%nat = Some (Fin r) /\ sm !! 1%nat = Some (Fin s) /\
      fv !! 1%nat = Some (Fin (r * s)) /\
      (0 < 0 -> up !! 1%nat = Some (Fin ((r * s - 0) / 0 * 100))) /\
      (0 <= 0 -> up !! 1%nat = Some (Fin 0))).
Proof.
  split.
  - apply (upside_potential_spec [sample_merged] 0%nat sample_merged
             s_total30d s_total24h s_mcap eq_refl sample_merged_wf
             eq_refl eq_refl eq_refl 0%nat 100000 4000 1000000); reflexivity.
  - apply (upside_potential_spec [sample_merged] 0%nat sample_merged
             s_total30d s_total24h s_mcap eq_refl sample_merged_wf
             eq_refl eq_refl eq_refl 1%nat 0 0 0); reflexivity.
Defined.

Lemma sector_median_spec_witness :
  returns (calculate_financial_metrics 0%nat) [sample_merged] (fun out h' =>
    exists d' ps s,
      h' !! out = Some d' /\ nrows d' = nrows sample_merged /\
      num_col d' "ps_ratio" = Ok ps /\
      num_col d' "sector_median_ps" = Ok (replicate (nrows sample_merged) s) /\
      (valid_values ps = [] -> s = Fin 10.0) /\
      (valid_values ps <> [] ->
       exists m, s = Fin m /\ is_median (valid_values ps) m)).
Proof.
  apply (sector_median_spec [sample_merged] 0%nat sample_merged
           s_total30d s_total24h s_mcap);
    first [reflexivity | apply sample_merged_wf].
Defined.


Lemma score_bounds_witness :
  returns (metrics_then_score 0%nat) [sample_merged] (fun out h' =>
    exists d' v t e w,
      h' !! out = Some d' /\ nrows d' = nrows sample_merged /\
      num_col d' "valuation_score" = Ok v /\
      num_col d' "trend_score" = Ok t /\
      num_col d' "efficiency_score" = Ok e /\
      num_col d' "venture_score" = Ok w /\
      forall i : nat, (i < nrows sample_merged)%nat ->
        exists qv qt qe qw,
          v !! i = Some (Fin qv) /\ 0 <= qv <= 40 /\
          t !! i = Some (Fin qt) /\ 0 <= qt <= 30 /\
          e !! i = Some (Fin qe) /\ 0 <= qe <= 30 /\
          w !! i = Some (Fin qw) /\ 0 <= qw <= 100 /\
          exists k : Z, qw == inject_Z k / 10).
Proof.
  apply (score_bounds [sample_merged] 0%nat sample_merged
           s_total30d s_total24h s_total7d s_mcap s_tvl);
    first [reflexivity | apply sample_merged_wf | apply sample_finite; reflexivity].
Defined.

(** Row 4 of the sample: a market cap of 20 and no revenue. *)
Lemma zero_revenue_row_witness :
  returns (metrics_then_score 0%nat) [sample_merged] (fun out h' =>
    exists d' ar' fv' up' v w r f u qv qw,
      h' !! out = Some d' /\
      num_col d' "mcap" = Ok s_mcap /\
      num_col d' "annualized_revenue" = Ok ar' /\
      num_col d' "fair_value" = Ok fv' /\
      num_col d' "upside_potential" = Ok up' /\
      num_col d' "valuation_score" = Ok v /\
      num_col d' "venture_score" = Ok w /\
      ar' !! 4%nat = Some (Fin r) /\ r == 0 /\
      fv' !! 4%nat = Some (Fin f) /\ f == 0 /\
      up' !! 4%nat = Some (Fin u) /\ u == -100 /\
      v !! 4%nat = Some (Fin qv) /\ qv == 0 /\
      w !! 4%nat = Some (Fin qw) /\ qw <= 60).
Proof.
  apply (zero_revenue_row [sample_merged] 0%nat sample_merged
           s_total30d s_total24h s_total7d s_mcap s_tvl eq_refl sample_merged_wf
           eq_refl eq_refl eq_refl eq_refl eq_refl 4%nat 0 0 0 20 50);
    first [reflexivity | lra].
Defined.

(* ================================================================= *)
(* ================================================================= *)
(** * Further properties *)

(* ================================================================= *)
(** ** Boolean indexing *)

Lemma gather_map_S {A} (idxs : list nat) (x : A) xs :
  gather (map S idxs) (x :: xs) = gather idxs xs.
Proof.
  unfold gather. induction idxs as [|i idxs IH]; [done|].
  cbn [map omap list_omap]. simpl ((x :: xs) !! S i).
  destruct (xs !! i); simpl; by rewrite <- IH.
Qed.

Lemma gather_indices_cons {A} (b : bool) m (x : A) xs :
  gather (indices_of (b :: m)) (x :: xs)
  = (if b then [x] else []) ++ gather (indices_of m) xs.
Proof.
  unfold indices_of. simpl indices_from. rewrite indices_from_S.
  destruct b; [|apply gather_map_S].
  unfold gather at 1. cbn [omap list_omap]. simpl. f_equal. apply gather_map_S.
Qed.

Lemma length_indices_cons (b : bool) m :
  length (indices_of (b :: m))
  = ((if b then 1 else 0) + length (indices_of m))%nat.
Proof.
  unfold indices_of. simpl indices_from. rewrite indices_from_S.
  destruct b; simpl; by rewrite length_map.
Qed.

Lemma gather_indices_length {A} m (xs : list A) :
  length xs = length m -> length (gather (indices_of m) xs) = length (indices_of m).
Proof.
  revert xs. induction m as [|b m IH]; intros [|x xs] Hlen; try done.
  rewrite gather_indices_cons, length_app, length_indices_cons, IH by (simpl in Hlen; lia).
  by destruct b.
Qed.

Lemma gather_fmap {A B} (f : A -> B) idxs (xs : list A) :
  gather idxs (map f xs) = map f (gather idxs xs).
Proof.
  unfold gather. induction idxs as [|i idxs IH]; [done|].
  cbn [omap list_omap]. rewrite list_lookup_fmap.
  destruct (xs !! i); simpl; by rewrite IH.
Qed.

(** Filtering twice is filtering by the conjunction. *)
Lemma gather_indices_and {A} m1 m2 (ys : list A) :
  length m2 = length m1 -> length ys = length m1 ->
  gather (indices_of (gather (indices_of m1) m2)) (gather (indices_of m1) ys)
  = gather (indices_of (zip_with andb m1 m2)) ys.
Proof.
  revert m2 ys. induction m1 as [|b m1 IH]; intros [|c m2] [|y ys] H2 Hy; try done.
  simpl in H2, Hy. cbn [zip_with]. rewrite !gather_indices_cons.
  destruct b; simpl.
  - rewrite gather_indices_cons, IH by lia. done.
  - apply IH; lia.
Qed.

Lemma length_indices_and m1 m2 :
  length m2 = length m1 ->
  length (indices_of (gather (indices_of m1) m2))
  = length (indices_of (zip_with andb m1 m2)).
Proof.
  revert m2. induction m1 as [|b m1 IH]; intros [|c m2] H2; try done.
  simpl in H2. cbn [zip_with]. rewrite gather_indices_cons.
  destruct b; simpl.
  - rewrite !length_indices_cons, IH by lia. done.
  - rewrite length_indices_cons, IH by lia. done.
Qed.

Lemma gather_col_len_mask m c :
  col_len c = length m -> col_len (gather_col (indices_of m) c) = length (indices_of m).
Proof. destruct c; simpl; apply gather_indices_length. Qed.

Lemma wf_filter_rows mask d :
  wf d -> length mask = nrows d -> wf (filter_rows mask d).
Proof.
  unfold wf, filter_rows, take_rows. cbn [columns nrows]. intros Hwf Hlen.
  induction Hwf as [|[n w] cs Hn _ IH]; simpl; constructor; [|done].
  simpl. apply gather_col_len_mask. simpl in Hn. lia.
Qed.

Lemma filter_rows_and m1 m2 d :
  wf d -> length m1 = nrows d -> length m2 = nrows d ->
  filter_rows (gather (indices_of m1) m2) (filter_rows m1 d)
  = filter_rows (zip_with andb m1 m2) d.
Proof.
  intros Hwf H1 H2. unfold filter_rows, take_rows. cbn [columns nrows].
  rewrite length_indices_and by lia. f_equal.
  rewrite map_map. apply map_ext_in. intros [n w] Hin. cbn [fst snd]. f_equal.
  unfold wf in Hwf. rewrite List.Forall_forall in Hwf. specialize (Hwf _ Hin).
  simpl in Hwf.
  destruct w; simpl in *; f_equal; apply gather_indices_and; lia.
Qed.

Lemma indices_of_true n : indices_of (replicate n true) = seq 0 n.
Proof.
  unfold indices_of. generalize 0%nat.
  induction n as [|n IH]; intros i; simpl; [done|]. by rewrite IH.
Qed.

Lemma take_rows_seq d : wf d -> take_rows (seq 0 (nrows d)) d = d.
Proof.
  intros Hwf. destruct d as [n cs]. unfold take_rows. cbn [columns nrows].
  rewrite length_seq. f_equal. unfold wf in Hwf. cbn [columns nrows] in Hwf.
  induction Hwf as [|[c v] cs Hv _ IH]; simpl; [done|].
  rewrite IH. simpl in Hv. by rewrite <- Hv, gather_col_seq.
Qed.

Lemma filter_rows_true mask d :
  wf d -> length mask = nrows d -> Forall (fun b => b = true) mask ->
  filter_rows mask d = d.
Proof.
  intros Hwf Hlen Hall. unfold filter_rows.
  assert (mask = replicate (nrows d) true) as ->.
  { rewrite <- Hlen. clear Hlen. induction Hall as [|b m -> _ IH]; simpl; [done|].
    by rewrite <- IH. }
  rewrite indices_of_true. by apply take_rows_seq.
Qed.


(* ================================================================= *)
(** ** [apply_filters] *)

Lemma isin_cells_ok values xs :
  Forall (fun o => forall l, o <> OList l) xs ->
  isin_cells values xs
  = Ok (map (fun o => match o with OStr s => bool_decide (s ∈ values) | _ => false end) xs).
Proof.
  induction 1 as [|o xs Ho _ IH]; [done|].
  cbn [isin_cells map]. destruct o as [s| |l]; simpl; [| |by destruct (Ho l)];
    by rewrite IH.
Qed.

Lemma in_selection_cons v values xs :
  map (fun o => match o with OStr s => bool_decide (s ∈ v :: values) | _ => false end) xs
  = map (in_selection (v :: values)) xs.
Proof. done. Qed.

Lemma in_selection_nil xs : Forall (fun b => b = true) (map (in_selection []) xs).
Proof. induction xs; by constructor. Qed.

Lemma nolist_gather idxs (xs : list obj) :
  Forall (fun o => forall l, o <> OList l) xs ->
  Forall (fun o => forall l, o <> OList l) (gather idxs xs).
Proof.
  intros H. rewrite Forall_forall in *. intros o Ho.
  unfold gather in Ho. apply list_elem_of_omap in Ho as (i & _ & Hi).
  apply H. by eapply list_elem_of_lookup_2.
Qed.

(** One sidebar selection: the table at [lcur] is left alone when the
    selection is empty and replaced by its matching rows otherwise. *)
Lemma filter_isin_run (hh : store) lcur dcur c sel xs :
  hh !! lcur = Some dcur -> wf dcur ->
  get_col dcur c = Ok (ObjCol xs) ->
  Forall (fun o => forall l, o <> OList l) xs ->
  exists l' hh',
    filter_isin lcur c sel hh = (Ok l', hh') /\
    hh' !! l' = Some (filter_rows (map (in_selection sel) xs) dcur).
Proof.
  intros Hl Hwf Hc Hno. destruct sel as [|v sel].
  - exists lcur, hh. split; [done|]. rewrite Hl. f_equal. symmetry.
    apply filter_rows_true; [done| |apply in_selection_nil].
    rewrite length_map. apply (get_col_len _ _ _ Hwf Hc).
  - eexists _, _. unfold filter_isin.
    erewrite bind_run; [|unfold getcol; erewrite bind_run; [|by apply read_run];
                         by apply lift_run].
    erewrite bind_run; [|apply lift_run; simpl; by apply isin_cells_ok].
    erewrite bind_run; [|by apply read_run].
    split; [reflexivity|]. by rewrite top_lookup.
Qed.

(** Lines 209-215 of [ui.py]: the three successive selections amount to one
    selection of the input by the conjunction of the three conditions. *)
Lemma apply_filters_run (h : store) l d categories chains min_tvl cats chs tvl :
  h !! l = Some d -> wf d ->
  get_col d "category" = Ok (ObjCol cats) ->
  get_col d "primary_chain" = Ok (ObjCol chs) ->
  num_col d "tvl" = Ok tvl ->
  Forall (fun o => forall l, o <> OList l) cats ->
  Forall (fun o => forall l, o <> OList l) chs ->
  exists l' h',
    apply_filters l categories chains min_tvl h = (Ok l', h') /\
    h' !! l' = Some (filter_rows (kept_mask categories chains min_tvl cats chs tvl) d) /\
    (length h < l')%nat.
Proof.
  intros Hl Hwf Hcat Hch Htvl Hno1 Hno2.
  pose proof (get_col_len _ _ _ Hwf Hcat) as Lc.
  pose proof (get_col_len _ _ _ Hwf Hch) as Lh.
  pose proof (get_col_len _ _ _ Hwf (num_col_get _ _ _ Htvl)) as Lt.
  simpl in Lc, Lh, Lt.
  unfold apply_filters.
  erewrite bind_run; [|by apply copy_run].
  destruct (filter_isin_run (h ++ [d]) (length h) d "category" categories cats)
    as (l1 & h1 & R1 & T1); [apply top_lookup|done..|].
  erewrite bind_run; [|exact R1].
  set (m1 := map (in_selection categories) cats) in *.
  assert (length m1 = nrows d) as L1 by (unfold m1; by rewrite length_map).
  destruct (filter_isin_run h1 l1 (filter_rows m1 d) "primary_chain" chains
              (gather (indices_of m1) chs))
    as (l2 & h2 & R2 & T2); [done|by apply wf_filter_rows| |by apply nolist_gather|].
  { unfold filter_rows. by rewrite (get_col_take_rows _ _ _ _ Hch). }
  erewrite bind_run; [|exact R2].
  rewrite <- gather_fmap in T2.
  set (m2 := map (in_selection chains) chs) in *.
  assert (length m2 = nrows d) as L2 by (unfold m2; by rewrite length_map).
  rewrite filter_rows_and in T2 by done.
  set (m12 := zip_with andb m1 m2) in *.
  assert (length m12 = nrows d) as L12.
  { unfold m12. rewrite length_zip_with. lia. }
  erewrite bind_run; [|eapply getnum_run; [exact T2|by apply num_col_filter_rows]].
  erewrite bind_run; [|by apply read_run].
  eexists _, _. split; [reflexivity|]. split.
  - rewrite top_lookup. f_equal. rewrite <- gather_fmap.
    rewrite filter_rows_and; [done|done|done|]. rewrite length_map. lia.
  - pose proof (lookup_lt_Some _ _ _ T2) as Hlt2.
    assert (length (h ++ [d]) <= length h2)%nat; [|rewrite length_app in *; simpl in *; lia].
    clear - R1 R2. 
    assert (forall (hh : store) lc c sel,
              (length hh <= length (filter_isin lc c sel hh).2)%nat) as Hmono.
    { intros hh lc c sel. destruct sel; [done|].
      unfold filter_isin, getcol, read, lift, alloc, mbind, M_bind.
      destruct (hh !! lc); [|done].
      destruct (get_col _ _); [|done].
      destruct (isin _ _); [|done].
      simpl. destruct (hh !! lc); simpl; rewrite ?length_app; lia. }
    pose proof (Hmono (h ++ [d]) (length h) "category" categories) as M1.
    pose proof (Hmono h1 l1 "primary_chain" chains) as M2.
    rewrite R1 in M1. rewrite R2 in M2. simpl in M1, M2. lia.
Qed.


Lemma indices_from_sorted i mask :
  StronglySorted lt (indices_from i mask) /\
  Forall (fun j => (i <= j)%nat) (indices_from i mask).
Proof.
  revert i. induction mask as [|b m IH]; intros i; simpl; [by split; constructor|].
  destruct (IH (S i)) as [Hs Hge].
  assert (Forall (fun j => (i < j)%nat) (indices_from (S i) m)) as Hlt.
  { eapply Forall_impl; [exact Hge|]. simpl. lia. }
  destruct b.
  - split; [constructor; [done|]|constructor; [lia|]].
    + exact Hlt.
    + eapply Forall_impl; [exact Hlt|]. simpl. lia.
  - split; [done|]. eapply Forall_impl; [exact Hlt|]. simpl. lia.
Qed.

Lemma kept_mask_lookup categories chains min_tvl cats chs tvl (i : nat) :
  kept_mask categories chains min_tvl cats chs tvl !! i = Some true <->
  exists c ch t,
    cats !! i = Some c /\ chs !! i = Some ch /\ tvl !! i = Some t /\
    in_selection categories c = true /\ in_selection chains ch = true /\
    geb t min_tvl = true.
Proof.
  unfold kept_mask. rewrite !lookup_zip_with, !list_lookup_fmap.
  destruct (cats !! i) as [c|]; simpl.
  2:{ split; [done|]. by intros (? & ? & ? & ? & _). }
  destruct (chs !! i) as [ch|]; simpl.
  2:{ split; [done|]. by intros (? & ? & ? & _ & ? & _). }
  destruct (tvl !! i) as [t|]; simpl.
  2:{ split; [done|]. by intros (? & ? & ? & _ & _ & ? & _). }
  split.
  - intros [= H]. apply andb_prop in H as [H Ht]. apply andb_prop in H as [Hc Hch].
    by exists c, ch, t.
  - intros (c' & ch' & t' & [= <-] & [= <-] & [= <-] & -> & -> & ->). done.
Qed.

(** X1. [apply_filters] returns a new table made of the rows of its input,
    in their original order, that pass all three conditions: the category
    is among the selected ones (no restriction when none is selected), the
    primary chain likewise, and the locked value is at least the threshold
    (a missing locked value never passes). *)
Theorem apply_filters_selects (h : store) (l : loc) (d : DataFrame)
    (categories chains : list string) (min_tvl : f64)
    (cats chs : list obj) (tvl : list f64) :
  h !! l = Some d -> wf d ->
  get_col d "category" = Ok (ObjCol cats) ->
  get_col d "primary_chain" = Ok (ObjCol chs) ->
  num_col d "tvl" = Ok tvl ->
  Forall (fun o => forall l, o <> OList l) cats ->
  Forall (fun o => forall l, o <> OList l) chs ->
  returns (apply_filters l categories chains min_tvl) h (fun out h' =>
    exists idxs : list nat,
      h' !! out = Some (take_rows idxs d) /\
      StronglySorted lt idxs /\
      forall i : nat, i ∈ idxs <->
        exists c ch t,
          cats !! i = Some c /\ chs !! i = Some ch /\ tvl !! i = Some t /\
          in_selection categories c = true /\ in_selection chains ch = true /\
          geb t min_tvl = true).
Proof.
  intros Hl Hwf Hc Hch Ht Hn1 Hn2.
  destruct (apply_filters_run h l d categories chains min_tvl cats chs tvl)
    as (out & h' & Hrun & Hout & _); try done.
  exists out, h'. split; [done|].
  exists (indices_of (kept_mask categories chains min_tvl cats chs tvl)).
  split; [done|]. split; [apply indices_from_sorted|].
  intros i. rewrite elem_of_indices_of. apply kept_mask_lookup.
Qed.

Lemma preserves_filter_isin n l c sel :
  (n <= l)%nat -> preserves n (filter_isin l c sel) (fun out => (n <= out)%nat).
Proof.
  intros Hl. destruct sel; [by apply preserves_ret|]. unfold filter_isin. pres.
Qed.

Lemma preserves_apply_filters n l categories chains min_tvl :
  preserves n (apply_filters l categories chains min_tvl) (fun out => (n <= out)%nat).
Proof.
  unfold apply_filters.
  eapply preserves_bind; [apply preserves_copy|]. intros l0 H0.
  eapply preserves_bind; [by apply preserves_filter_isin|]. intros l1 H1.
  eapply preserves_bind; [by apply preserves_filter_isin|]. intros l2 H2.
  pres.
Qed.

(** X2. [apply_filters] changes no table that exists when it is called, its
    argument included, whether it returns or raises; the table it returns
    is a new one. *)
Theorem apply_filters_does_not_mutate (h : store) (df : loc)
    (categories chains : list string) (min_tvl : f64) :
  (forall l d, h !! l = Some d ->
     (apply_filters df categories chains min_tvl h).2 !! l = Some d) /\
  (forall out, (apply_filters df categories chains min_tvl h).1 = Ok out ->
     (length h <= out)%nat).
Proof.
  apply (preserves_unchanged _ _ h
           (preserves_apply_filters (length h) df categories chains min_tvl)).
Qed.

Lemma gather_zip_with {A B C} (f : A -> B -> C) idxs (xs : list A) (ys : list B) :
  length xs = length ys ->
  gather idxs (zip_with f xs ys) = zip_with f (gather idxs xs) (gather idxs ys).
Proof.
  intros Hlen. unfold gather. induction idxs as [|i idxs IH]; [done|].
  cbn [omap list_omap]. rewrite lookup_zip_with.
  destruct (xs !! i) as [x|] eqn:Ex; simpl.
  - destruct (lookup_lt_is_Some_2 ys i) as [y Ey].
    { rewrite <- Hlen. by eapply lookup_lt_Some. }
    rewrite Ey. simpl. f_equal. exact IH.
  - assert (ys !! i = None) as ->; [|exact IH].
    apply lookup_ge_None. rewrite <- Hlen. by apply lookup_ge_None.
Qed.

Lemma gather_self_true m : Forall (fun b => b = true) (gather (indices_of m) m).
Proof.
  induction m as [|b m IH]; [constructor|].
  rewrite gather_indices_cons. destruct b; simpl; [by constructor|done].
Qed.

Lemma kept_mask_length categories chains min_tvl cats chs tvl n :
  length cats = n -> length chs = n -> length tvl = n ->
  length (kept_mask categories chains min_tvl cats chs tvl) = n.
Proof.
  intros H1 H2 H3. unfold kept_mask.
  rewrite !length_zip_with, !length_map. lia.
Qed.

Lemma kept_mask_gather categories chains min_tvl cats chs tvl idxs :
  length cats = length tvl -> length chs = length tvl ->
  kept_mask categories chains min_tvl (gather idxs cats) (gather idxs chs) (gather idxs tvl)
  = gather idxs (kept_mask categories chains min_tvl cats chs tvl).
Proof.
  intros H1 H2. unfold kept_mask.
  rewrite !gather_zip_with, !gather_fmap; [done| |].
  - rewrite !length_map. lia.
  - rewrite length_zip_with, !length_map. lia.
Qed.

(** Filtering a filtered table: the rows of the input that pass both. *)
Lemma apply_filters_twice_run (h : store) l d c1 ch1 t1 c2 ch2 t2 cats chs tvl :
  h !! l = Some d -> wf d ->
  get_col d "category" = Ok (ObjCol cats) ->
  get_col d "primary_chain" = Ok (ObjCol chs) ->
  num_col d "tvl" = Ok tvl ->
  Forall (fun o => forall l, o <> OList l) cats ->
  Forall (fun o => forall l, o <> OList l) chs ->
  exists l1 h1 l2 h2,
    apply_filters l c1 ch1 t1 h = (Ok l1, h1) /\
    apply_filters l1 c2 ch2 t2 h1 = (Ok l2, h2) /\
    h1 !! l1 = Some (filter_rows (kept_mask c1 ch1 t1 cats chs tvl) d) /\
    h2 !! l2 = Some (filter_rows (zip_with andb (kept_mask c1 ch1 t1 cats chs tvl)
                                               (kept_mask c2 ch2 t2 cats chs tvl)) d).
Proof.
  intros Hl Hwf Hc Hch Ht Hn1 Hn2.
  pose proof (get_col_len _ _ _ Hwf Hc) as Lc.
  pose proof (get_col_len _ _ _ Hwf Hch) as Lh.
  pose proof (get_col_len _ _ _ Hwf (num_col_get _ _ _ Ht)) as Lt.
  simpl in Lc, Lh, Lt.
  destruct (apply_filters_run h l d c1 ch1 t1 cats chs tvl)
    as (l1 & h1 & R1 & T1 & _); try done.
  set (m1 := kept_mask c1 ch1 t1 cats chs tvl) in *.
  assert (length m1 = nrows d) as L1 by (by apply kept_mask_length).
  destruct (apply_filters_run h1 l1 (filter_rows m1 d) c2 ch2 t2
              (gather (indices_of m1) cats) (gather (indices_of m1) chs)
              (gather (indices_of m1) tvl))
    as (l2 & h2 & R2 & T2 & _); try done.
  - by apply wf_filter_rows.
  - unfold filter_rows. by rewrite (get_col_take_rows _ _ _ _ Hc).
  - unfold filter_rows. by rewrite (get_col_take_rows _ _ _ _ Hch).
  - by apply num_col_filter_rows.
  - by apply nolist_gather.
  - by apply nolist_gather.
  - exists l1, h1, l2, h2. repeat split; try done.
    rewrite T2. f_equal. rewrite kept_mask_gather by lia.
    apply filter_rows_and; [done|done|]. by apply kept_mask_length.
Qed.

Lemma zip_with_andb_comm m1 m2 : zip_with andb m1 m2 = zip_with andb m2 m1.
Proof.
  revert m2. induction m1 as [|a m1 IH]; intros [|b m2]; simpl; try done.
  by rewrite IH, andb_comm.
Qed.

Lemma zip_with_andb_diag m : zip_with andb m m = m.
Proof. induction m as [|a m IH]; simpl; [done|]. by rewrite IH, andb_diag. Qed.

(** X3. Filtering in two rounds does not depend on the order of the rounds:
    applying the filters [c1 ch1 t1] and then the filters [c2 ch2 t2] to the
    result yields the same table as applying them the other way round. *)
Theorem apply_filters_commute (h : store) (l : loc) (d : DataFrame)
    (c1 ch1 : list string) (t1 : f64) (c2 ch2 : list string) (t2 : f64)
    (cats chs : list obj) (tvl : list f64) :
  h !! l = Some d -> wf d ->
  get_col d "category" = Ok (ObjCol cats) ->
  get_col d "primary_chain" = Ok (ObjCol chs) ->
  num_col d "tvl" = Ok tvl ->
  Forall (fun o => forall l, o <> OList l) cats ->
  Forall (fun o => forall l, o <> OList l) chs ->
  exists O : DataFrame,
    returns (l1 ← apply_filters l c1 ch1 t1; apply_filters l1 c2 ch2 t2) h
            (fun out h' => h' !! out = Some O) /\
    returns (l1 ← apply_filters l c2 ch2 t2; apply_filters l1 c1 ch1 t1) h
            (fun out h' => h' !! out = Some O).
Proof.
  intros Hl Hwf Hc Hch Ht Hn1 Hn2.
  destruct (apply_filters_twice_run h l d c1 ch1 t1 c2 ch2 t2 cats chs tvl)
    as (l1 & h1 & l2 & h2 & R1 & R2 & _ & T2); try done.
  destruct (apply_filters_twice_run h l d c2 ch2 t2 c1 ch1 t1 cats chs tvl)
    as (l1' & h1' & l2' & h2' & R1' & R2' & _ & T2'); try done.
  eexists. split.
  - exists l2, h2. split; [by erewrite bind_run|exact T2].
  - exists l2', h2'. split; [by erewrite bind_run|].
    by rewrite zip_with_andb_comm.
Qed.

(** X4. [apply_filters] is idempotent: applying the same filters to its
    result returns a table equal to that result. *)
Theorem apply_filters_idempotent (h : store) (l : loc) (d : DataFrame)
    (categories chains : list string) (min_tvl : f64)
    (cats chs : list obj) (tvl : list f64) :
  h !! l = Some d -> wf d ->
  get_col d "category" = Ok (ObjCol cats) ->
  get_col d "primary_chain" = Ok (ObjCol chs) ->
  num_col d "tvl" = Ok tvl ->
  Forall (fun o => forall l, o <> OList l) cats ->
  Forall (fun o => forall l, o <> OList l) chs ->
  returns (l1 ← apply_filters l categories chains min_tvl;
           l2 ← apply_filters l1 categories chains min_tvl;
           mret (l1, l2)) h
    (fun out h' => exists O, h' !! out.1 = Some O /\ h' !! out.2 = Some O).
Proof.
  intros Hl Hwf Hc Hch Ht Hn1 Hn2.
  destruct (apply_filters_twice_run h l d categories chains min_tvl
              categories chains min_tvl cats chs tvl)
    as (l1 & h1 & l2 & h2 & R1 & R2 & T1 & T2); try done.
  exists (l1, l2), h2. split.
  - erewrite bind_run; [|exact R1]. by erewrite bind_run.
  - eexists. split; [|exact T2]. simpl.
    rewrite zip_with_andb_diag.
    pose proof (preserves_unchanged _ _ h1
      (preserves_apply_filters (length h1) l1 categories chains min_tvl)) as [Hp _].
    specialize (Hp _ _ T1). by rewrite R2 in Hp.
Qed.

(** X5. Without a selection and with a threshold that every locked value
    reaches, [apply_filters] returns an equal copy of its input; the
    [category] and [primary_chain] columns need not exist. *)
Theorem apply_filters_no_restriction (h : store) (l : loc) (d : DataFrame)
    (min_tvl : f64) (tvl : list f64) :
  h !! l = Some d -> wf d ->
  num_col d "tvl" = Ok tvl ->
  Forall (fun t => geb t min_tvl = true) tvl ->
  returns (apply_filters l [] [] min_tvl) h (fun out h' =>
    h' !! out = Some d /\ out <> l).
Proof.
  intros Hl Hwf Ht Hall.
  pose proof (get_col_len _ _ _ Hwf (num_col_get _ _ _ Ht)) as Lt. simpl in Lt.
  eexists _, _. unfold apply_filters.
  erewrite bind_run; [|by apply copy_run].
  unfold filter_isin.
  erewrite bind_run; [|reflexivity].
  erewrite bind_run; [|reflexivity].
  erewrite bind_run; [|by apply getnum_top].
  erewrite bind_run; [|by apply read_top].
  split; [reflexivity|]. split.
  - rewrite top_lookup. f_equal. apply filter_rows_true; [done| |].
    + by rewrite length_map.
    + clear -Hall. induction Hall; by constructor.
  - pose proof (lookup_lt_Some _ _ _ Hl). rewrite length_app. simpl. lia.
Qed.

Lemma sample_listing_wf : wf sample_listing.
Proof. repeat constructor. Qed.

Lemma sample_listing_nolist (xs : list obj) :
  forallb (fun o => match o with OList _ => false | _ => true end) xs = true ->
  Forall (fun o => forall l, o <> OList l) xs.
Proof.
  induction xs as [|x xs IH]; simpl; [constructor|].
  intros [Hx Hxs]%andb_prop. constructor; [|auto].
  intros l ->. discriminate.
Qed.

Lemma apply_filters_selects_witness :
  returns (apply_filters 0%nat ["Lending"] ["Ethereum"] (Fin 1000000)) [sample_listing]
    (fun out h' =>
      exists idxs : list nat,
        h' !! out = Some (take_rows idxs sample_listing) /\
        StronglySorted lt idxs /\
        forall i : nat, i ∈ idxs <->
          exists c ch t,
            l_category !! i = Some c /\ l_chain !! i = Some ch /\ l_tvl !! i = Some t /\
            in_selection ["Lending"] c = true /\ in_selection ["Ethereum"] ch = true /\
            geb t (Fin 1000000) = true).
Proof.
  apply (apply_filters_selects [sample_listing] 0%nat sample_listing
           ["Lending"] ["Ethereum"] (Fin 1000000) l_category l_chain l_tvl);
    first [reflexivity | apply sample_listing_wf
          | apply sample_listing_nolist; reflexivity].
Defined.

Lemma apply_filters_commute_witness :
  exists O : DataFrame,
    returns (l1 ← apply_filters 0%nat ["Lending"] [] (Fin 100);
             apply_filters l1 [] ["Ethereum"] (Fin 1000000)) [sample_listing]
            (fun out h' => h' !! out = Some O) /\
    returns (l1 ← apply_filters 0%nat [] ["Ethereum"] (Fin 1000000);
             apply_filters l1 ["Lending"] [] (Fin 100)) [sample_listing]
            (fun out h' => h' !! out = Some O).
Proof.
  apply (apply_filters_commute [sample_listing] 0%nat sample_listing
           ["Lending"] [] (Fin 100) [] ["Ethereum"] (Fin 1000000)
           l_category l_chain l_tvl);
    first [reflexivity | apply sample_listing_wf
          | apply sample_listing_nolist; reflexivity].
Defined.

Lemma apply_filters_idempotent_witness :
  returns (l1 ← apply_filters 0%nat ["Lending"] ["Ethereum"] (Fin 1000000);
           l2 ← apply_filters l1 ["Lending"] ["Ethereum"] (Fin 1000000);
           mret (l1, l2)) [sample_listing]
    (fun out h' => exists O, h' !! out.1 = Some O /\ h' !! out.2 = Some O).
Proof.
  apply (apply_filters_idempotent [sample_listing] 0%nat sample_listing
           ["Lending"] ["Ethereum"] (Fin 1000000) l_category l_chain l_tvl);
    first [reflexivity | apply sample_listing_wf
          | apply sample_listing_nolist; reflexivity].
Defined.

Lemma apply_filters_no_restriction_witness :
  returns (apply_filters 0%nat [] [] (Fin 0)) [sample_protocols] (fun out h' =>
    h' !! out = Some sample_protocols /\ out <> 0%nat).
Proof.
  apply (apply_filters_no_restriction [sample_protocols] 0%nat sample_protocols
           (Fin 0) s_tvl);
    first [reflexivity | apply sample_protocols_wf | repeat constructor].
Defined.

(* ================================================================= *)
(** ** The sector median lies inside its filter *)

Lemma valid_values_range (ps : list f64) q :
  q ∈ valid_values ps -> 0 < q < 1000.
Proof.
  unfold valid_values. intros (x & _ & Hx)%list_elem_of_omap.
  destruct x as [q'| | |]; try done. simpl in Hx.
  destruct (Qltb 0 q') eqn:E1; [|done]. destruct (Qltb q' 1000) eqn:E2; [|done].
  injection Hx as <-. apply Qltb_lt in E1, E2. done.
Qed.

Lemma sector_median_range (ps : list f64) :
  exists m, sector_median (ps_ratio_calc ps) = Fin m /\ 0 < m < 1000.
Proof.
  destruct (valid_values ps) eqn:E.
  - exists 10.0. split; [by apply sector_median_empty|]. split; reflexivity.
  - destruct (sector_median_nonempty ps) as (m & Hm & s & Hp & _ & Hmid);
      [by rewrite E|].
    exists m. split; [done|].
    assert (forall (i : nat) x, s !! i = Some x -> 0 < x < 1000) as Hin.
    { intros i x Hq. apply (valid_values_range ps). rewrite <- Hp.
      by eapply list_elem_of_lookup_2. }
    destruct (Nat.even (length s)).
    + destruct Hmid as (a & b & Ha & Hb & ->).
      apply Hin in Ha, Hb. split; qlra.
    + by apply Hin in Hmid.
Qed.

(** X6. Whatever the input values, the sector median that
    [calculate_financial_metrics] stores in every row is a finite number
    strictly between 0 and 1000. *)
Theorem sector_median_in_range (h : store) (l : loc) (d : DataFrame)
    (t30 t24 mc : list f64) :
  h !! l = Some d -> wf d ->
  num_col d "total30d" = Ok t30 -> num_col d "total24h" = Ok t24 ->
  num_col d "mcap" = Ok mc ->
  returns (calculate_financial_metrics l) h (fun out h' =>
    exists O m,
      h' !! out = Some O /\ nrows O = nrows d /\
      num_col O "sector_median_ps" = Ok (replicate (nrows d) (Fin m)) /\
      0 < m < 1000).
Proof.
  intros Hl Hwf H30 H24 Hmc.
  exists (length h), (h ++ [metrics_table d t30 t24 mc]).
  split; [by apply calculate_financial_metrics_run|].
  destruct (sector_median_range (ps_ratio mc (annualized_revenue t30 t24)))
    as (m & Hm & Hr).
  exists (metrics_table d t30 t24 mc), m.
  split; [apply top_lookup|]. split; [done|]. split; [|done].
  unfold metrics_table. cbv zeta. rewrite Hm. col.
Qed.

(* ================================================================= *)
(** ** Running a stage on its own result *)

Lemma set_col_id c v cs : lookup_col c cs = Some v -> set_col c v cs = cs.
Proof.
  induction cs as [|[n w] cs IH]; simpl; [done|].
  destruct (String.eqb n c); [by intros [= ->]|]. intros H. by rewrite IH.
Qed.

Lemma df_set_id d c v : get_col d c = Ok v -> df_set c v d = d.
Proof.
  unfold get_col, df_set. destruct (lookup_col c (columns d)) eqn:E; [|done].
  intros [= ->]. rewrite set_col_id by done. by destruct d.
Qed.

Lemma set_col_set c v1 v2 cs : set_col c v2 (set_col c v1 cs) = set_col c v2 cs.
Proof.
  induction cs as [|[n w] cs IH]; simpl.
  - by rewrite String.eqb_refl.
  - destruct (String.eqb n c) eqn:E; simpl; rewrite E; [done|]. by rewrite IH.
Qed.

Lemma df_set_set d c v1 v2 : df_set c v2 (df_set c v1 d) = df_set c v2 d.
Proof. unfold df_set. simpl. by rewrite set_col_set. Qed.

Ltac getc :=
  unfold metrics_table, score_table; cbn [nrows df_set];
  repeat first [rewrite get_col_set_eq | rewrite get_col_set_ne by discriminate];
  reflexivity.

Lemma metrics_table_again d t30 t24 mc :
  metrics_table (metrics_table d t30 t24 mc) t30 t24 mc = metrics_table d t30 t24 mc.
Proof.
  set (mt := metrics_table d t30 t24 mc).
  unfold metrics_table at 1. cbv zeta.
  rewrite (df_set_id mt "annualized_revenue") by (unfold mt; getc).
  rewrite (df_set_id mt "ps_ratio") by (unfold mt; getc).
  rewrite (df_set_id mt "ps_ratio_calc") by (unfold mt; getc).
  rewrite (df_set_id mt "sector_median_ps") by (unfold mt; getc).
  rewrite (df_set_id mt "fair_value") by (unfold mt; getc).
  by rewrite (df_set_id mt "upside_potential") by (unfold mt; getc).
Qed.

Lemma score_table_again d up t7 t24 mc tv :
  score_table (score_table d up t7 t24 mc tv) up t7 t24 mc tv
  = score_table d up t7 t24 mc tv.
Proof.
  set (st := score_table d up t7 t24 mc tv).
  unfold score_table at 1. cbv zeta.
  rewrite (df_set_id st "valuation_score") by (unfold st; getc).
  rewrite (df_set_id st "daily_avg_7d") by (unfold st; getc).
  rewrite (df_set_id st "revenue_trend") by (unfold st; getc).
  rewrite (df_set_id st "revenue_trend_status") by (unfold st; getc).
  rewrite (df_set_id st "trend_score") by (unfold st; getc).
  rewrite (df_set_id st "tvl_mcap_ratio") by (unfold st; getc).
  rewrite (df_set_id st "efficiency_score") by (unfold st; getc).
  rewrite df_set_set.
  by rewrite (df_set_id st "venture_score") by (unfold st; getc).
Qed.

(** X7. [calculate_financial_metrics] is idempotent: run on its own result
    it returns a new table equal to that result. *)
Theorem metrics_idempotent (h : store) (l : loc) (d : DataFrame)
    (t30 t24 mc : list f64) :
  h !! l = Some d -> wf d ->
  num_col d "total30d" = Ok t30 -> num_col d "total24h" = Ok t24 ->
  num_col d "mcap" = Ok mc ->
  returns (twice calculate_financial_metrics l) h (fun out h' =>
    out.1 <> out.2 /\
    exists O, h' !! out.1 = Some O /\ h' !! out.2 = Some O).
Proof.
  intros Hl Hwf H30 H24 Hmc.
  pose proof (num_col_len _ _ _ Hwf H30) as L30.
  pose proof (num_col_len _ _ _ Hwf H24) as L24.
  pose proof (num_col_len _ _ _ Hwf Hmc) as Lmc.
  set (mt := metrics_table d t30 t24 mc).
  exists (length h, length (h ++ [mt])), ((h ++ [mt]) ++ [mt]). split.
  - unfold twice.
    erewrite bind_run; [|by apply calculate_financial_metrics_run].
    erewrite bind_run;
      [|apply (calculate_financial_metrics_run _ _ mt t30 t24 mc);
        [apply top_lookup|by apply wf_metrics_table
        |unfold mt, metrics_table; col..]].
    subst mt. by rewrite metrics_table_again.
  - cbn [fst snd]. split; [rewrite length_app; simpl; lia|].
    exists mt. split; [|apply top_lookup].
    rewrite lookup_app_l by (rewrite length_app; simpl; lia). apply top_lookup.
Qed.

Lemma wf_score_table d up t7 t24 mc tv :
  wf d -> length up = nrows d -> length t7 = nrows d -> length t24 = nrows d ->
  length mc = nrows d -> length tv = nrows d ->
  wf (score_table d up t7 t24 mc tv).
Proof.
  intros Hwf Lup L7 L24 Lmc Ltv. unfold score_table.
  repeat (apply wf_df_set; [|len]). done.
Qed.

(** X8. [calculate_venture_score] is idempotent: run on its own result it
    returns a new table equal to that result. *)
Theorem score_idempotent (h : store) (l : loc) (d : DataFrame)
    (up t7 t24 mc tv : list f64) :
  h !! l = Some d -> wf d ->
  num_col d "upside_potential" = Ok up -> num_col d "total7d" = Ok t7 ->
  num_col d "total24h" = Ok t24 -> num_col d "mcap" = Ok mc ->
  num_col d "tvl" = Ok tv ->
  returns (twice calculate_venture_score l) h (fun out h' =>
    out.1 <> out.2 /\
    exists O, h' !! out.1 = Some O /\ h' !! out.2 = Some O).
Proof.
  intros Hl Hwf Hup H7 H24 Hmc Htv.
  pose proof (num_col_len _ _ _ Hwf Hup) as Lup.
  pose proof (num_col_len _ _ _ Hwf H7) as L7.
  pose proof (num_col_len _ _ _ Hwf H24) as L24.
  pose proof (num_col_len _ _ _ Hwf Hmc) as Lmc.
  pose proof (num_col_len _ _ _ Hwf Htv) as Ltv.
  set (st := score_table d up t7 t24 mc tv).
  exists (length h, length (h ++ [st])), ((h ++ [st]) ++ [st]). split.
  - unfold twice.
    erewrite bind_run; [|by apply calculate_venture_score_run].
    erewrite bind_run;
      [|apply (calculate_venture_score_run _ _ st up t7 t24 mc tv);
        [apply top_lookup|by apply wf_score_table
        |unfold st, score_table; col..]].
    subst st. by rewrite score_table_again.
  - cbn [fst snd]. split; [rewrite length_app; simpl; lia|].
    exists st. split; [|apply top_lookup].
    rewrite lookup_app_l by (rewrite length_app; simpl; lia). apply top_lookup.
Qed.

(* ================================================================= *)
(** ** Signs of the derived metrics *)

Lemma at_least_lookup b (xs : list f64) (i : nat) :
  Forall (at_least b) xs -> (i < length xs)%nat ->
  exists q, xs !! i = Some (Fin q) /\ b <= q.
Proof.
  intros HF Hi. destruct (lookup_lt_is_Some_2 xs i Hi) as [x Hx].
  rewrite Forall_forall in HF.
  destruct (HF x) as (q & -> & Hq); [by eapply list_elem_of_lookup_2|]. eauto.
Qed.

Lemma Forall_rows {A} (P : A -> Prop) (xs : list A) :
  (forall i : nat, (i < length xs)%nat -> exists x, xs !! i = Some x /\ P x) ->
  Forall P xs.
Proof.
  intros H. apply Forall_lookup_2. intros i x Hx.
  destruct (H i) as (y & Hy & HP); [by eapply lookup_lt_Some|]. congruence.
Qed.

Lemma moderate_at_least (xs : list f64) :
  Forall moderate_amount xs -> Forall (at_least 0) xs.
Proof.
  intros H. eapply Forall_impl; [exact H|].
  intros x (q & -> & Hq & _). by exists q.
Qed.

Lemma upside_floor f m : 0 <= f -> 0 < m -> -100 <= (f - m) / m * 100.
Proof.
  intros Hf Hm.
  assert (-1 <= (f - m) / m) as H; [|lra].
  apply Qle_shift_div_l; [done|]. lra.
Qed.

Lemma metrics_signs_row (t30 t24 mc : list f64) (i : nat) a b m :
  t30 !! i = Some (Fin a) -> t24 !! i = Some (Fin b) -> mc !! i = Some (Fin m) ->
  0 <= a -> 0 <= b -> 0 <= m ->
  let ar := annualized_revenue t30 t24 in
  let fv := fair_value ar (sector_median (ps_ratio_calc (ps_ratio mc ar))) in
  exists r f u,
    ar !! i = Some (Fin r) /\ 0 <= r /\
    fv !! i = Some (Fin f) /\ 0 <= f /\
    upside_potential mc fv !! i = Some (Fin u) /\ -100 <= u.
Proof.
  intros Ha Hb Hm Pa Pb Pm ar fv.
  pose proof (annualized_revenue_row _ _ _ _ _ Ha Hb) as Har. fold ar in Har.
  assert (exists r, ar !! i = Some (Fin r) /\ 0 <= r) as (r & Hr & Pr).
  { rewrite Har, gtb_Fin_0. cmp a; simpl; eexists; (split; [done|lra]). }
  destruct (sector_median_range (ps_ratio mc ar)) as (s & Hs & Ps).
  pose proof (fair_value_row _ (sector_median (ps_ratio_calc (ps_ratio mc ar))) _ _ Hr)
    as Hfv. fold fv in Hfv. rewrite Hs in Hfv. simpl in Hfv.
  assert (0 <= r * s) as Pf by (apply Qmult_le_0_compat; lra).
  pose proof (upside_potential_row _ _ _ _ _ Hm Hfv) as Hup.
  destruct (upside_cell r s m) as (u & Hu & Hu'). rewrite Hu in Hup.
  exists r, (r * s), u. repeat (split; [done|]).
  destruct (Qlt_le_dec 0 m) as [Hpos|Hle].
  - rewrite (Hu' Hpos). by apply upside_floor.
  - assert (m == 0) as Hm0 by lra.
    rewrite gtb_Fin_0 in Hu.
    destruct (Qltb 0 m) eqn:E; [apply Qltb_lt in E; lra|].
    injection Hu as <-. lra.
Qed.

(** X9. When the revenue fields and the market cap are finite, not
    negative and of a moderate magnitude (zero, or between [1e-100] and
    [1e100], so that no product or quotient overflows in [float64]),
    [calculate_financial_metrics] yields an annualised revenue and a fair
    value that are finite and not negative, and an upside that is finite
    and never below -100 percent. *)
Theorem metrics_signs (h : store) (l : loc) (d : DataFrame) (t30 t24 mc : list f64) :
  h !! l = Some d -> wf d ->
  num_col d "total30d" = Ok t30 -> num_col d "total24h" = Ok t24 ->
  num_col d "mcap" = Ok mc ->
  Forall moderate_amount t30 -> Forall moderate_amount t24 ->
  Forall moderate_amount mc ->
  returns (calculate_financial_metrics l) h (fun out h' =>
    exists O ar fv up,
      h' !! out = Some O /\
      num_col O "annualized_revenue" = Ok ar /\
      num_col O "fair_value" = Ok fv /\
      num_col O "upside_potential" = Ok up /\
      length ar = nrows d /\ length fv = nrows d /\ length up = nrows d /\
      Forall (at_least 0) ar /\ Forall (at_least 0) fv /\
      Forall (at_least (-100)) up).
Proof.
  intros Hl Hwf H30 H24 Hmc P30%moderate_at_least P24%moderate_at_least
         Pmc%moderate_at_least.
  pose proof (num_col_len _ _ _ Hwf H30) as L30.
  pose proof (num_col_len _ _ _ Hwf H24) as L24.
  pose proof (num_col_len _ _ _ Hwf Hmc) as Lmc.
  exists (length h), (h ++ [metrics_table d t30 t24 mc]).
  split; [by apply calculate_financial_metrics_run|].
  set (ar := annualized_revenue t30 t24).
  set (fv := fair_value ar (sector_median (ps_ratio_calc (ps_ratio mc ar)))).
  exists (metrics_table d t30 t24 mc), ar, fv, (upside_potential mc fv).
  split; [apply top_lookup|].
  split; [unfold metrics_table; col|].
  split; [unfold metrics_table; col|].
  split; [unfold metrics_table; col|].
  assert (length ar = nrows d) as Lar by (unfold ar; len).
  assert (length fv = nrows d) as Lfv by (unfold fv, ar; len).
  assert (length (upside_potential mc fv) = nrows d) as Lup by (unfold fv, ar; len).
  repeat (split; [done|]).
  assert (forall i : nat, (i < nrows d)%nat ->
            exists r f u,
              ar !! i = Some (Fin r) /\ 0 <= r /\
              fv !! i = Some (Fin f) /\ 0 <= f /\
              upside_potential mc fv !! i = Some (Fin u) /\ -100 <= u) as Hrow.
  { intros i Hi.
    destruct (at_least_lookup 0 t30 i P30) as (a & Ha & Pa); [lia|].
    destruct (at_least_lookup 0 t24 i P24) as (b & Hb & Pb); [lia|].
    destruct (at_least_lookup 0 mc i Pmc) as (m & Hm & Pm); [lia|].
    apply (metrics_signs_row t30 t24 mc i a b m); done. }
  split; [|split]; apply Forall_rows; intros i Hi;
    (destruct (Hrow i) as (r & f & u & Hr & Pr & Hf & Pf & Hu & Pu); [lia|]).
  - exists (Fin r). split; [done|]. by exists r.
  - exists (Fin f). split; [done|]. by exists f.
  - exists (Fin u). split; [done|]. by exists u.
Qed.

(* ================================================================= *)
(** ** [merge_datasets]: the columns of the result *)

Lemma bind_inv {A B} (m : M A) (k : A -> M B) (h : store) b h' :
  (m ≫= k) h = (Ok b, h') -> exists a h1, m h = (Ok a, h1) /\ k a h1 = (Ok b, h').
Proof.
  unfold mbind, M_bind. destruct (m h) as [[a|e] h1]; [eauto|done].
Qed.

Lemma has_col_get c d : has_col c d = true <-> exists v, get_col d c = Ok v.
Proof.
  unfold has_col, get_col. destruct (lookup_col c (columns d)); split; eauto; try done.
  by intros [? ?].
Qed.

Lemma has_col_dropped names d c : c ∈ names -> has_col c (drop_cols names d) = false.
Proof.
  intros Hc. unfold has_col, drop_cols. cbn [columns].
  rewrite lookup_col_None; [done|].
  intros ([n w] & -> & Hin)%list_elem_of_fmap.
  apply list_elem_of_In, filter_In in Hin as [_ Hin]. simpl in Hin.
  by rewrite bool_decide_eq_true_2 in Hin.
Qed.

Lemma has_col_drop_existing names d c :
  c ∈ names ->
  has_col c (drop_cols (List.filter (fun c => has_col c d) names) d) = false.
Proof.
  intros Hc. destruct (has_col c d) eqn:E.
  - apply has_col_dropped. apply list_elem_of_In, filter_In.
    split; [by apply list_elem_of_In|done].
  - assert (c ∉ List.filter (fun c => has_col c d) names) as Hnot.
    { intros Hin%list_elem_of_In%filter_In. destruct Hin as [_ Hin]. congruence. }
    pose proof (drop_cols_get _ d c Hnot) as Hg.
    destruct (has_col c (drop_cols _ d)) eqn:E2; [|done].
    apply has_col_get in E2 as [v Hv]. rewrite Hg in Hv.
    assert (has_col c d = true) by (apply has_col_get; eauto). congruence.
Qed.

(** Whenever [merge_datasets] returns, its table has neither helper
    column. *)
Lemma merge_drops_helpers (h : store) lp lf out h' :
  merge_datasets lp lf h = (Ok out, h') ->
  exists O, h' !! out = Some O /\
            has_col "name_lower" O = false /\ has_col "symbol_lower" O = false.
Proof.
  intros H. unfold merge_datasets in H.
  repeat (apply bind_inv in H as (? & ? & _ & H)).
  match type of H with
  | alloc (drop_cols ?E _) _ = _ => remember E as existing_drop eqn:Hex
  end.
  unfold alloc in H. injection H as <- <-.
  eexists. split; [apply top_lookup|]. subst existing_drop.
  split; apply has_col_drop_existing; repeat constructor.
Qed.

(** X10. The table [merge_datasets] returns has exactly these columns: the
    three revenue fields, and the columns of the protocol table other than
    the two helper names [name_lower] and [symbol_lower], which never
    appear in the result. *)
Theorem merge_schema (h : store) (lp lf : loc) (P R : DataFrame)
    (pn psym rn rs : list obj) (v24 v7 v30 : list f64) :
  h !! lp = Some P -> h !! lf = Some R -> wf P -> wf R ->
  no_revenue_cols P ->
  str_col P "name" = Ok pn -> str_col P "symbol" = Ok psym ->
  Forall (fun o => forall l, o <> OList l) psym ->
  str_col R "name" = Ok rn -> str_col R "symbol" = Ok rs ->
  num_col R "total24h" = Ok v24 -> num_col R "total7d" = Ok v7 ->
  num_col R "total30d" = Ok v30 ->
  returns (merge_datasets lp lf) h (fun out h' =>
    exists O, h' !! out = Some O /\
      forall c, has_col c O = true <->
        c ∈ ["total24h"; "total7d"; "total30d"] \/
        (has_col c P = true /\ c ∉ ["name_lower"; "symbol_lower"])).
Proof.
  intros HP HR HwfP HwfR Hno Hpn Hpsym Hnolist Hrn Hrs H24 H7 H30.
  destruct (merge_datasets_run h lp lf P R pn psym rn rs v24 v7 v30)
    as (h' & O & Hrun & HO & Hout); try done.
  destruct (merge_drops_helpers _ _ _ _ _ Hrun) as (O' & HO' & Hn & Hs).
  rewrite HO in HO'. injection HO' as <-.
  destruct Hout as (_ & _ & Ht24 & Ht7 & Ht30 & Hsame).
  exists (length h + 3)%nat, h'. split; [done|]. exists O. split; [done|].
  intros c.
  destruct (decide (c ∈ ["total24h"; "total7d"; "total30d"])) as [Hrev|Hrev].
  { split; [by left|]. intros _. apply has_col_get.
    repeat (apply elem_of_cons in Hrev as [->|Hrev];
            [eexists; by apply num_col_get|]).
    by apply elem_of_nil in Hrev. }
  destruct (decide (c ∈ ["name_lower"; "symbol_lower"])) as [Hhelp|Hhelp].
  { split.
    - intros Hc. exfalso.
      repeat (apply elem_of_cons in Hhelp as [->|Hhelp]; [congruence|]).
      by apply elem_of_nil in Hhelp.
    - intros [?|[_ ?]]; done. }
  assert (get_col O c = get_col P c) as Hc.
  { apply Hsame. intros Hin.
    repeat (apply elem_of_cons in Hin as [->|Hin];
            [first [by apply Hhelp; repeat constructor
                   |by apply Hrev; repeat constructor]|]).
    by apply elem_of_nil in Hin. }
  rewrite !has_col_get, Hc. split; [by right|]. by intros [?|[? _]].
Qed.

(* ================================================================= *)
(** ** [merge_datasets] on a table that already has a revenue column *)

Lemma bind_raise {A B} (m : M A) (k : A -> M B) (h : store) e h' :
  m h = (Raise e, h') -> (m ≫= k) h = (Raise e, h').
Proof. intros H. unfold mbind, M_bind. by rewrite H. Qed.

Lemma append_x_total24h n : n +:+ "_x" <> "total24h".
Proof.
  do 8 (destruct n as [|? n]; [discriminate|]; simpl; intros H;
        injection H as _ H; revert H).
  by destruct n.
Qed.

Lemma has_col_names c d : has_col c d = true -> c ∈ (columns d).*1.
Proof.
  unfold has_col. destruct (lookup_col c (columns d)) eqn:E; [|done]. intros _.
  apply lookup_col_Some in E. apply list_elem_of_fmap. by exists (c, c0).
Qed.

(** The join of a left table that has a [total24h] column with the revenue
    columns: both sides are renamed, and no column is called [total24h]. *)
Lemma merge_left_overlap (L : DataFrame) lk n' (k24 k7 k30 : list f64) rk :
  key_col L "name_lower" = Ok lk ->
  has_col "total24h" L = true ->
  exists J,
    merge_left L (mkDF n' [("name_lower", ObjCol rk); ("total24h", NumCol k24);
                           ("total7d", NumCol k7); ("total30d", NumCol k30)])
               "name_lower" = Ok J /\
    get_col J "total24h" = Raise (KeyError "total24h").
Proof.
  intros Hk Hhas. unfold merge_left. rewrite Hk. cbn [rbind key_col get_col columns lookup_col].
  simpl String.eqb. cbn [rbind]. eexists. split; [reflexivity|].
  unfold get_col. cbn [columns]. rewrite lookup_col_app.
  cbn [List.filter fst snd negb String.eqb Ascii.eqb Bool.eqb].
  set (overlap := List.filter _ (columns L).*1).
  assert ("total24h" ∈ overlap) as Hin.
  { apply list_elem_of_In, filter_In. split.
    - by apply list_elem_of_In, has_col_names.
    - apply andb_true_intro. split; [reflexivity|].
      apply bool_decide_eq_true_2. simpl. repeat constructor. }
  rewrite lookup_col_None.
  - cbn [map fst snd lookup_col]. unfold suffixed at 1.
    rewrite (bool_decide_eq_true_2 _ Hin).
    unfold suffixed. destruct (bool_decide ("total7d" ∈ overlap));
      destruct (bool_decide ("total30d" ∈ overlap)); reflexivity.
  - intros ([n w] & Hn & Hm)%list_elem_of_fmap.
    apply list_elem_of_fmap in Hm as ([n0 w0] & [= -> ->] & Hm). simpl in Hn.
    destruct (String.eqb n0 "name_lower") eqn:E.
    + apply String.eqb_eq in E. by subst.
    + unfold suffixed in Hn. destruct (bool_decide (n0 ∈ overlap)) eqn:Eo.
      * by apply (append_x_total24h n0).
      * apply bool_decide_eq_false in Eo. by subst.
Qed.

Lemma getcol_raise (h : store) l d c e :
  h !! l = Some d -> get_col d c = Raise e -> getcol l c h = (Raise e, h).
Proof.
  intros Hl Hc. unfold getcol. erewrite bind_run; [|by apply read_run].
  unfold lift. by rewrite Hc.
Qed.

Lemma has_col_set_ne d c c' v : c <> c' -> has_col c' (df_set c v d) = has_col c' d.
Proof.
  intros H. unfold has_col. pose proof (get_col_set_ne d c c' v H) as Hg.
  unfold get_col in Hg.
  destruct (lookup_col c' (columns (df_set c v d)));
    destruct (lookup_col c' (columns d)); done.
Qed.

(** X11. A protocol table that already has a [total24h] column is rejected:
    the join renames the column on both sides, and [merge_datasets] raises
    the key error for [total24h].  (The protocol table is taken to have no
    column with one of the names the renaming produces; pandas refuses such
    a join earlier.) *)
Theorem merge_rejects_revenue_column (h : store) (lp lf : loc) (P R : DataFrame)
    (pn rn : list obj) (v24 v7 v30 : list f64) :
  h !! lp = Some P -> h !! lf = Some R -> wf P -> wf R ->
  str_col P "name" = Ok pn -> str_col R "name" = Ok rn ->
  num_col R "total24h" = Ok v24 -> num_col R "total7d" = Ok v7 ->
  num_col R "total30d" = Ok v30 ->
  has_col "total24h" P = true ->
  (forall c, c ∈ ["total24h_x"; "total7d_x"; "total30d_x"] -> has_col c P = false) ->
  (merge_datasets lp lf h).1 = Raise (KeyError "total24h").
Proof.
  intros HP HR HwfP HwfR Hpn Hrn H24 H7 H30 Hhas _.
  pose proof (str_col_len _ _ _ HwfP Hpn) as Lpn.
  pose proof (str_col_len _ _ _ HwfR Hrn) as Lrn.
  pose proof (num_col_len _ _ _ HwfR H24) as L24.
  pose proof (num_col_len _ _ _ HwfR H7) as L7.
  pose proof (num_col_len _ _ _ HwfR H30) as L30.
  set (lk := map str_lower_strip pn).
  set (rk := map str_lower_strip rn).
  assert (length rk = nrows R) as Lrk by (unfold rk; by rewrite length_map).
  set (P1 := df_set "name_lower" (ObjCol lk) P).
  set (R1 := df_set "name_lower" (ObjCol rk) R).
  destruct (merge_left_overlap P1 lk (length (first_occurrences rk))
              (dedup_by [] rk v24) (dedup_by [] rk v7) (dedup_by [] rk v30)
              (dedup_by [] rk rk)) as (J & HJ & Hmiss).
  { apply key_col_set_eq. }
  { unfold P1. by rewrite has_col_set_ne. }
  unfold merge_datasets.
  rewrite (bind_run _ _ _ _ _ (copy_run h lp P HP)).
  erewrite bind_run; [|apply copy_run; by apply lookup_app_l_Some].
  rewrite length_app. cbn [length]. rewrite <- app_assoc. cbn [app].
  erewrite bind_run; [|by eapply (getstr_sfx _ _ _ 0); [lia|reflexivity|]].
  erewrite bind_run; [|by eapply (setcol_sfx _ _ _ 0); [lia|reflexivity|len]].
  cbn [list_insert insert].
  erewrite bind_run; [|by eapply (getstr_sfx _ _ _ 1); [lia|reflexivity|]].
  erewrite bind_run; [|by eapply (setcol_sfx _ _ _ 1); [lia|reflexivity|len]].
  cbn [list_insert insert].
  erewrite bind_run; [|by eapply (read_sfx _ _ _ 1); [lia|reflexivity]].
  fold lk rk P1 R1.
  erewrite bind_run;
    [|apply lift_run; unfold drop_duplicates, R1; by rewrite key_col_set_eq].
  erewrite bind_run;
    [|apply lift_run; apply (select_dedup R1 rk v24 v7 v30);
      [apply key_col_set_eq|unfold R1; by rewrite num_col_set_ne by discriminate..
      |lia|lia|lia]].
  erewrite bind_run; [|by eapply (read_sfx _ _ _ 0); [lia|reflexivity]].
  erewrite bind_run; [|apply lift_run; exact HJ].
  erewrite bind_run; [|apply alloc_sfx]. cbn [length app].
  erewrite bind_raise; [reflexivity|].
  eapply getcol_raise; [|exact Hmiss].
  by apply (sfx_lookup h _ 2).
Qed.

(* ================================================================= *)
(** ** [merge_datasets] without a symbol column *)

Lemma name_joined_fill_first rk (vs : list f64) lk (i : nat) k j :
  length vs = length rk -> Forall (fun x => isna x = false) vs ->
  lk !! i = Some k -> first_match k rk j ->
  map (fun x => if isna x then Fin 0 else x) (name_joined rk vs lk) !! i = vs !! j.
Proof.
  intros Hlen Hna Hk Hj. unfold name_joined.
  rewrite !list_lookup_fmap, Hk. simpl.
  destruct (key_lookup_first k rk vs j Hlen Hj) as (x & Hx & ->). simpl.
  by rewrite (notna_lookup _ _ _ Hna Hx), Hx.
Qed.

Lemma name_joined_fill_none rk (vs : list f64) lk (i : nat) k :
  lk !! i = Some k -> no_match k rk ->
  map (fun x => if isna x then Fin 0 else x) (name_joined rk vs lk) !! i
  = Some (Fin 0).
Proof.
  intros Hk Hno. unfold name_joined.
  rewrite !list_lookup_fmap, Hk. simpl. by rewrite (key_lookup_none k rk vs Hno).
Qed.

(** The run of [merge_datasets] when the protocol table has no [symbol]
    column: the symbol pass is skipped. *)
Lemma merge_datasets_run_nosym (h : store) lp lf P R pn rn v24 v7 v30 :
  h !! lp = Some P -> h !! lf = Some R -> wf P -> wf R ->
  no_revenue_cols P ->
  str_col P "name" = Ok pn -> str_col R "name" = Ok rn ->
  num_col R "total24h" = Ok v24 -> num_col R "total7d" = Ok v7 ->
  num_col R "total30d" = Ok v30 ->
  has_col "symbol" P = false ->
  let lk := map str_lower_strip pn in
  let rk := map str_lower_strip rn in
  let fill := map (fun x => if isna x then Fin 0 else x) in
  exists h' O,
    merge_datasets lp lf h = (Ok (length h + 3)%nat, h') /\
    h' !! (length h + 3)%nat = Some O /\
    merge_output P O (fill (name_joined rk v24 lk)) (fill (name_joined rk v7 lk))
                 (fill (name_joined rk v30 lk)).
Proof.
  intros HP HR HwfP HwfR Hno Hpn Hrn H24 H7 H30 Hnosym lk rk fill.
  pose proof (str_col_len _ _ _ HwfP Hpn) as Lpn.
  pose proof (str_col_len _ _ _ HwfR Hrn) as Lrn.
  pose proof (num_col_len _ _ _ HwfR H24) as L24.
  pose proof (num_col_len _ _ _ HwfR H7) as L7.
  pose proof (num_col_len _ _ _ HwfR H30) as L30.
  assert (length rk = nrows R) as Lrk by (unfold rk; by rewrite length_map).
  set (P1 := df_set "name_lower" (ObjCol lk) P).
  set (R1 := df_set "name_lower" (ObjCol rk) R).
  set (J0 := mkDF (nrows P1)
               (columns P1 ++ [("total24h", NumCol (name_joined rk v24 lk));
                               ("total7d", NumCol (name_joined rk v7 lk));
                               ("total30d", NumCol (name_joined rk v30 lk))])).
  pose proof (J0_state P pn rn v24 v7 v30 HwfP Hno Hpn)
    as (_ & HwfJ & HJ24 & HJ7 & HJ30 & _).
  fold lk rk P1 J0 in HwfJ, HJ24, HJ7, HJ30.
  unfold merge_datasets.
  rewrite (bind_run _ _ _ _ _ (copy_run h lp P HP)).
  erewrite bind_run; [|apply copy_run; by apply lookup_app_l_Some].
  rewrite length_app. cbn [length]. rewrite <- app_assoc. cbn [app].
  erewrite bind_run; [|by eapply (getstr_sfx _ _ _ 0); [lia|reflexivity|]].
  erewrite bind_run; [|by eapply (setcol_sfx _ _ _ 0); [lia|reflexivity|len]].
  cbn [list_insert insert].
  erewrite bind_run; [|by eapply (getstr_sfx _ _ _ 1); [lia|reflexivity|]].
  erewrite bind_run; [|by eapply (setcol_sfx _ _ _ 1); [lia|reflexivity|len]].
  cbn [list_insert insert].
  erewrite bind_run; [|by eapply (read_sfx _ _ _ 1); [lia|reflexivity]].
  fold lk rk P1 R1.
  erewrite bind_run;
    [|apply lift_run; unfold drop_duplicates, R1; by rewrite key_col_set_eq].
  erewrite bind_run;
    [|apply lift_run; apply (select_dedup R1 rk v24 v7 v30);
      [apply key_col_set_eq|unfold R1; by rewrite num_col_set_ne by discriminate..
      |lia|lia|lia]].
  erewrite bind_run; [|by eapply (read_sfx _ _ _ 0); [lia|reflexivity]].
  erewrite bind_run;
    [|apply lift_run; apply (merge_left_dedup P1 lk rk v24 v7 v30);
      [by apply wf_P1|by apply no_revenue_P1|apply key_col_set_eq|lia|lia|lia]].
  fold J0.
  erewrite bind_run; [|apply alloc_sfx]. cbn [length app].
  erewrite bind_run;
    [|eapply (getcol_sfx _ _ _ 2); [lia|reflexivity|by apply num_col_get]].
  cbn [isna_col].
  assert (symbol_matching (length h) (length h + 1) (length h + 2)
            (map isna (name_joined rk v24 lk)) (h ++ [P1; R1; J0])
          = (Ok tt, h ++ [P1; R1; J0])) as Hsm.
  { unfold symbol_matching.
    destruct (existsb id (map isna (name_joined rk v24 lk))); [|done].
    erewrite bind_run; [|by eapply (read_sfx _ _ _ 0); [lia|reflexivity]].
    assert (has_col "symbol" P1 = false) as ->; [|done].
    unfold P1. by rewrite has_col_set_ne. }
  erewrite bind_run; [|exact Hsm].
  pose proof (num_col_len _ _ _ HwfJ HJ24) as Lc24.
  pose proof (num_col_len _ _ _ HwfJ HJ7) as Lc7.
  pose proof (num_col_len _ _ _ HwfJ HJ30) as Lc30.
  cbn [for_each].
  erewrite bind_run.
  2:{ erewrite bind_run;
        [|by eapply (fillna_step_run _ _ _ 2); [lia|reflexivity|exact HJ24|]].
      cbn [list_insert insert].
      erewrite bind_run;
        [|eapply (fillna_step_run _ _ _ 2); [lia|reflexivity|col|len]].
      cbn [list_insert insert].
      erewrite bind_run;
        [|eapply (fillna_step_run _ _ _ 2); [lia|reflexivity|col|len]].
      cbn [list_insert insert]. reflexivity. }
  erewrite bind_run; [|by eapply (read_sfx _ _ _ 2); [lia|reflexivity]].
  rewrite alloc_sfx. cbn [length app].
  eexists _, _. split; [reflexivity|].
  split; [by apply (sfx_lookup h _ 3)|].
  match goal with
  | |- merge_output _ (drop_cols ?E ?T) _ _ _ => set (Jf := T); set (dropped := E)
  end.
  assert (forall c, c ∉ ["name_lower"; "symbol_lower"] -> c ∉ dropped) as Hdrop.
  { intros c Hc Hin. apply Hc. by apply filter_elem_of in Hin. }
  assert (forall c, c ∈ ["total24h"; "total7d"; "total30d"] -> c ∉ dropped) as Hrev.
  { intros c Hc. apply Hdrop. intros Hin.
    repeat (apply elem_of_cons in Hc as [->|Hc];
            [repeat (apply elem_of_cons in Hin as [Hin|Hin]; [discriminate|]);
             by apply elem_of_nil in Hin|]).
    by apply elem_of_nil in Hc. }
  split; [done|]. split.
  { apply wf_drop_cols. unfold Jf.
    repeat (apply wf_df_set; [|simpl; by rewrite length_map]). done. }
  split; [rewrite num_col_drop by (apply Hrev; repeat constructor); unfold Jf; col|].
  split; [rewrite num_col_drop by (apply Hrev; repeat constructor); unfold Jf; col|].
  split; [rewrite num_col_drop by (apply Hrev; repeat constructor); unfold Jf; col|].
  intros c Hc.
  assert (c <> "name_lower" /\ c <> "symbol_lower" /\ c <> "total24h" /\
          c <> "total7d" /\ c <> "total30d") as (N1 & N2 & N3 & N4 & N5).
  { repeat split; intros ->; apply Hc; repeat constructor. }
  rewrite drop_cols_get.
  2:{ apply Hdrop. intros Hin.
      repeat (apply elem_of_cons in Hin as [Hin|Hin]; [done|]).
      by apply elem_of_nil in Hin. }
  unfold Jf. rewrite !get_col_set_ne by done.
  unfold J0. rewrite (J0_get_left P pn rn v24 v7 v30) by done.
  by rewrite get_col_set_ne.
Qed.

(** X12. A protocol table without a [symbol] column is accepted, and the
    revenue table then needs no [symbol] column either: [merge_datasets]
    returns the rows of the protocol table, a row whose normalised name is
    that of some revenue row has the values of the first such row, and
    every other row has 0 in the three revenue fields. *)
Theorem merge_without_symbol (h : store) (lp lf : loc) (P R : DataFrame)
    (pn rn : list obj) (v24 v7 v30 : list f64) :
  h !! lp = Some P -> h !! lf = Some R -> wf P -> wf R ->
  no_revenue_cols P ->
  str_col P "name" = Ok pn -> str_col R "name" = Ok rn ->
  num_col R "total24h" = Ok v24 -> num_col R "total7d" = Ok v7 ->
  num_col R "total30d" = Ok v30 ->
  Forall (fun x => isna x = false) v24 -> Forall (fun x => isna x = false) v7 ->
  Forall (fun x => isna x = false) v30 ->
  has_col "symbol" P = false ->
  returns (merge_datasets lp lf) h (fun out h' =>
    exists O t24 t7 t30,
      h' !! out = Some O /\ merge_output P O t24 t7 t30 /\
      forall (i : nat) nm,
        pn !! i = Some (OStr nm) ->
        (forall j, first_match (norm_key nm) (map str_lower_strip rn) j ->
           t24 !! i = v24 !! j /\ t7 !! i = v7 !! j /\ t30 !! i = v30 !! j) /\
        (no_match (norm_key nm) (map str_lower_strip rn) ->
           t24 !! i = Some (Fin 0) /\ t7 !! i = Some (Fin 0) /\
           t30 !! i = Some (Fin 0))).
Proof.
  intros HP HR HwfP HwfR Hno Hpn Hrn H24 H7 H30 N24 N7 N30 Hnosym.
  destruct (merge_datasets_run_nosym h lp lf P R pn rn v24 v7 v30)
    as (h' & O & Hrun & HO & Hout); try done.
  exists (length h + 3)%nat, h'. split; [done|].
  exists O. eexists _, _, _. split; [done|]. split; [exact Hout|].
  pose proof (str_col_len _ _ _ HwfR Hrn) as Lrn.
  pose proof (num_col_len _ _ _ HwfR H24) as L24.
  pose proof (num_col_len _ _ _ HwfR H7) as L7.
  pose proof (num_col_len _ _ _ HwfR H30) as L30.
  intros i nm Hnm.
  assert (map str_lower_strip pn !! i = Some (norm_key nm)) as Hk.
  { by rewrite list_lookup_fmap, Hnm. }
  split.
  - intros j Hj.
    repeat split; eapply name_joined_fill_first; try done; rewrite length_map; lia.
  - intros Hnone. repeat split; eapply name_joined_fill_none; done.
Qed.

(* ================================================================= *)
(** ** The whole pipeline of [app.py] *)

Lemma key_lookup_elem {A} ks (vs : list A) k v : key_lookup ks vs k = Some v -> v ∈ vs.
Proof.
  unfold key_lookup. destruct (find_first k ks) as [j|]; simpl; [|done].
  apply list_elem_of_lookup_2.
Qed.

Lemma merged_revenue_finite lk rk psym sk v24 vs :
  Forall finite vs -> Forall finite (merged_revenue lk rk psym sk v24 vs).
Proof.
  intros HF. rewrite Forall_forall in HF.
  apply Forall_lookup_2. intros i x Hx.
  destruct (lk !! i) as [k|] eqn:Hk.
  2:{ unfold merged_revenue, name_joined in Hx.
      rewrite list_lookup_fmap, foldl_sym_upd_lookup, list_lookup_fmap, Hk in Hx.
      done. }
  rewrite (merged_revenue_lookup _ _ _ _ _ _ _ _ Hk) in Hx. injection Hx as <-.
  assert (forall ks k', default NaN (key_lookup ks vs k') = NaN \/
                        finite (default NaN (key_lookup ks vs k'))) as Hkl.
  { intros ks k'. destruct (key_lookup ks vs k') eqn:E; [|by left].
    right. apply HF. by eapply key_lookup_elem. }
  assert (forall y, y = NaN \/ finite y -> finite (if isna y then Fin 0 else y)) as Hfill.
  { intros y [->|[q ->]]; simpl; by eexists. }
  apply Hfill. cbv zeta.
  destruct (isna (default NaN (key_lookup rk v24 k))); [|apply Hkl].
  unfold sym_value.
  destruct (psym !! i) as [[s| |l]|]; simpl; try apply Hkl.
  destruct (key_lookup sk vs (OStr (strip (lower s)))) eqn:E; simpl; [|apply Hkl].
  right. apply HF. by eapply key_lookup_elem.
Qed.

(** The three stages in sequence: the merged table [O], then the metric
    and score columns computed from its revenue columns and from the
    [mcap] and [tvl] columns of the protocol table. *)
Lemma pipeline_run (h : store) (lp lf : loc) (P R : DataFrame)
    (pn psym rn rs : list obj) (v24 v7 v30 mc tv : list f64) :
  h !! lp = Some P -> h !! lf = Some R -> wf P -> wf R ->
  no_revenue_cols P ->
  str_col P "name" = Ok pn -> str_col P "symbol" = Ok psym ->
  Forall (fun o => forall l, o <> OList l) psym ->
  str_col R "name" = Ok rn -> str_col R "symbol" = Ok rs ->
  num_col R "total24h" = Ok v24 -> num_col R "total7d" = Ok v7 ->
  num_col R "total30d" = Ok v30 ->
  num_col P "mcap" = Ok mc -> num_col P "tvl" = Ok tv ->
  let lk := map str_lower_strip pn in
  let rk := map str_lower_strip rn in
  let sk := map str_lower_strip rs in
  let t24 := merged_revenue lk rk psym sk v24 v24 in
  let t7 := merged_revenue lk rk psym sk v24 v7 in
  let t30 := merged_revenue lk rk psym sk v24 v30 in
  let up := upside_potential mc
              (fair_value (annualized_revenue t30 t24)
                 (sector_median (ps_ratio_calc (ps_ratio mc (annualized_revenue t30 t24))))) in
  exists out h' O,
    pipeline lp lf h = (Ok out, h') /\
    h' !! out = Some (score_table (metrics_table O t30 t24 mc) up t7 t24 mc tv) /\
    merge_output P O t24 t7 t30 /\
    num_col O "mcap" = Ok mc /\ num_col O "tvl" = Ok tv /\
    get_col O "name" = Ok (ObjCol pn).
Proof.
  intros HP HR HwfP HwfR Hno Hpn Hpsym Hnolist Hrn Hrs H24 H7 H30 Hmc Htv
         lk rk sk t24 t7 t30 up.
  destruct (merge_datasets_run h lp lf P R pn psym rn rs v24 v7 v30)
    as (h' & O & Hrun & HO & Hout); try done.
  fold lk rk sk t24 t7 t30 in Hout.
  pose proof Hout as (HnO & HwfO & Ht24 & Ht7 & Ht30 & Hsame).
  assert (forall c, c ∈ ["name"; "mcap"; "tvl"] -> get_col O c = get_col P c) as Hkeep.
  { intros c Hc. apply Hsame. intros Hin.
    repeat (apply elem_of_cons in Hc as [->|Hc];
            [repeat (apply elem_of_cons in Hin as [Hin|Hin]; [discriminate|]);
             by apply elem_of_nil in Hin|]).
    by apply elem_of_nil in Hc. }
  assert (num_col O "mcap" = Ok mc) as HmcO.
  { unfold num_col. rewrite Hkeep by repeat constructor. exact Hmc. }
  assert (num_col O "tvl" = Ok tv) as HtvO.
  { unfold num_col. rewrite Hkeep by repeat constructor. exact Htv. }
  eexists _, _, O. split.
  { unfold pipeline. erewrite bind_run; [|exact Hrun].
    apply (metrics_then_score_run h' _ O t30 t24 t7 mc tv); done. }
  split; [apply top_lookup|]. split; [done|]. split; [done|]. split; [done|].
  rewrite Hkeep by repeat constructor. by apply str_col_get.
Qed.

(** X13. End to end: on a protocol table and a revenue table with the
    required fields and finite numbers, the three stages run in sequence
    return a table with one row per protocol, the protocol names as they
    were, and on every row a venture score that is a finite number in
    [0, 100] with one decimal place. *)
Theorem pipeline_scores (h : store) (lp lf : loc) (P R : DataFrame)
    (pn psym rn rs : list obj) (v24 v7 v30 mc tv : list f64) :
  h !! lp = Some P -> h !! lf = Some R -> wf P -> wf R ->
  no_revenue_cols P ->
  str_col P "name" = Ok pn -> str_col P "symbol" = Ok psym ->
  Forall (fun o => forall l, o <> OList l) psym ->
  str_col R "name" = Ok rn -> str_col R "symbol" = Ok rs ->
  num_col R "total24h" = Ok v24 -> num_col R "total7d" = Ok v7 ->
  num_col R "total30d" = Ok v30 ->
  num_col P "mcap" = Ok mc -> num_col P "tvl" = Ok tv ->
  Forall finite v24 -> Forall finite v7 -> Forall finite v30 ->
  Forall finite mc -> Forall finite tv ->
  returns (pipeline lp lf) h (fun out h' =>
    exists S w,
      h' !! out = Some S /\ nrows S = nrows P /\
      get_col S "name" = Ok (ObjCol pn) /\
      num_col S "venture_score" = Ok w /\
      forall i : nat, (i < nrows P)%nat ->
        exists q, w !! i = Some (Fin q) /\ 0 <= q <= 100 /\
                  exists k : Z, q == inject_Z k / 10).
Proof.
  intros HP HR HwfP HwfR Hno Hpn Hpsym Hnolist Hrn Hrs H24 H7 H30 Hmc Htv
         F24 F7 F30 Fmc Ftv.
  destruct (pipeline_run h lp lf P R pn psym rn rs v24 v7 v30 mc tv)
    as (out & h' & O & Hrun & HS & Hout & HmcO & HtvO & Hname); try done.
  destruct Hout as (HnO & HwfO & Ht24 & Ht7 & Ht30 & _).
  exists out, h'. split; [done|].
  eexists _, _. split; [exact HS|].
  split; [done|]. split.
  { unfold score_table, metrics_table. cbv zeta.
    by rewrite !get_col_set_ne by discriminate. }
  split; [unfold score_table; col|].
  intros i Hi.
  match type of Ht30 with
  | (num_col _ _ = Ok ?x) => set (t30 := x) in *
  end.
  match type of Ht24 with
  | (num_col _ _ = Ok ?x) => set (t24 := x) in *
  end.
  match type of Ht7 with
  | (num_col _ _ = Ok ?x) => set (t7 := x) in *
  end.
  destruct (finite_row O t30 t24 t7 mc tv HwfO Ht30 Ht24 Ht7 HmcO HtvO) with (i := i)
    as (a & b & c & m & t & Ha & Hb & Hc & Hm & Ht);
    [by apply merged_revenue_finite..|done|done|lia|].
  destruct (pipeline_row t30 t24 t7 mc tv i a b c m t Ha Hb Hc Hm Ht)
    as (r & s & u & qv & qt & qe & w & k & _ & _ & _ & _ & _ & _ & _ & _
        & _ & _ & _ & _ & Hw & Hbw & Hk & _).
  exists w. split; [exact Hw|]. split; [done|]. by exists k.
Qed.

(* ================================================================= *)
(** ** The sector figure of a filtered table *)

Lemma gather_replicate {A} (idxs : list nat) n (x : A) :
  Forall (fun i => (i < n)%nat) idxs ->
  gather idxs (replicate n x) = replicate (length idxs) x.
Proof.
  unfold gather. induction 1 as [|i idxs Hi _ IH]; [done|].
  cbn [omap list_omap length replicate].
  rewrite (lookup_replicate_2 n x i Hi). simpl. f_equal. exact IH.
Qed.

Lemma indices_of_nil_existsb mask :
  length (indices_of mask) = 0%nat -> existsb id mask = false.
Proof.
  induction mask as [|b m IH]; [done|].
  rewrite length_indices_cons. destruct b; simpl; [lia|]. exact IH.
Qed.

Lemma indices_of_cons_existsb mask :
  length (indices_of mask) <> 0%nat -> existsb id mask = true.
Proof.
  induction mask as [|b m IH]; [done|].
  rewrite length_indices_cons. destruct b; simpl; [done|]. exact IH.
Qed.

(** X14. The sector figure does not depend on the filters: on a table whose
    [sector_median_ps] column holds one number [m] on every row, as
    [calculate_financial_metrics] leaves it, filtering and then computing
    the figure yields [m] itself whenever some row passes the filters, and
    no figure is computed when none does. *)
Theorem kpi_median_ignores_filters (h : store) (l : loc) (d : DataFrame)
    (categories chains : list string) (min_tvl : f64)
    (cats chs : list obj) (tvl : list f64) (m : Q) :
  h !! l = Some d -> wf d ->
  get_col d "category" = Ok (ObjCol cats) ->
  get_col d "primary_chain" = Ok (ObjCol chs) ->
  num_col d "tvl" = Ok tvl ->
  Forall (fun o => forall l, o <> OList l) cats ->
  Forall (fun o => forall l, o <> OList l) chs ->
  num_col d "sector_median_ps" = Ok (replicate (nrows d) (Fin m)) ->
  returns (filtered_kpi l categories chains min_tvl) h (fun r _ =>
    r = if existsb id (kept_mask categories chains min_tvl cats chs tvl)
        then Some (CNum (Fin m)) else None).
Proof.
  intros Hl Hwf Hc Hch Ht Hn1 Hn2 Hsm.
  pose proof (get_col_len _ _ _ Hwf Hc) as Lc.
  pose proof (get_col_len _ _ _ Hwf Hch) as Lh.
  pose proof (get_col_len _ _ _ Hwf (num_col_get _ _ _ Ht)) as Lt.
  simpl in Lc, Lh, Lt.
  destruct (apply_filters_run h l d categories chains min_tvl cats chs tvl)
    as (l' & h' & Hrun & HT & _); try done.
  set (mask := kept_mask categories chains min_tvl cats chs tvl) in *.
  assert (length mask = nrows d) as Lm by (by apply kept_mask_length).
  set (T := filter_rows mask d) in *.
  assert (nrows T = length (indices_of mask)) as HnT by done.
  assert (num_col T "sector_median_ps"
          = Ok (replicate (length (indices_of mask)) (Fin m))) as HsT.
  { unfold T. rewrite (num_col_filter_rows _ _ _ _ Hsm). f_equal.
    apply gather_replicate. rewrite <- Lm. apply indices_of_bound. }
  destruct (length (indices_of mask)) as [|k] eqn:Ek.
  - exists None, h'. split.
    + unfold filtered_kpi.
      erewrite bind_run; [|exact Hrun].
      erewrite bind_run; [|by apply read_run].
      by rewrite HnT.
    + by rewrite indices_of_nil_existsb.
  - exists (Some (CNum (Fin m))), h'. split.
    + unfold filtered_kpi.
      erewrite bind_run; [|exact Hrun].
      erewrite bind_run; [|by apply read_run].
      rewrite HnT. cbn [Nat.eqb]. unfold kpi_avg_ps.
      erewrite bind_run; [reflexivity|].
      erewrite bind_run; [|by apply read_run].
      assert (has_col "sector_median_ps" T = true) as ->.
      { apply has_col_get. eexists. by apply num_col_get. }
      rewrite HnT. cbn [andb Nat.ltb Nat.leb].
      erewrite bind_run;
        [|apply lift_run; unfold iloc0; rewrite (num_col_get _ _ _ HsT); reflexivity].
      erewrite bind_run; [|by apply lift_run]. reflexivity.
    + rewrite indices_of_cons_existsb by lia. reflexivity.
Qed.

(* ================================================================= *)
(** ** The further statements on the sample tables *)

Lemma sample_moderate (xs : list f64) :
  forallb (fun x => match x with
                    | Fin q => Qle_bool 0 q && moderate q
                    | _ => false
                    end) xs = true ->
  Forall moderate_amount xs.
Proof.
  induction xs as [|x xs IH]; simpl; [constructor|].
  intros [Hx Hxs]%andb_prop. constructor; [|auto].
  destruct x as [q| | |]; try discriminate.
  apply andb_prop in Hx as [H0 Hm]. exists q. split; [done|].
  split; [by apply Qle_bool_iff|done].
Qed.

Lemma sample_nosym_wf : wf sample_nosym.
Proof. repeat constructor. Qed.

Lemma sample_nosym_no_revenue_cols : no_revenue_cols sample_nosym.
Proof.
  repeat constructor; simpl; intros H;
    repeat (apply elem_of_cons in H as [H|H]; [discriminate|]);
    by apply elem_of_nil in H.
Qed.

Lemma sector_median_in_range_witness :
  returns (calculate_financial_metrics 0%nat) [sample_merged] (fun out h' =>
    exists O m,
      h' !! out = Some O /\ nrows O = nrows sample_merged /\
      num_col O "sector_median_ps" = Ok (replicate (nrows sample_merged) (Fin m)) /\
      0 < m < 1000).
Proof.
  apply (sector_median_in_range [sample_merged] 0%nat sample_merged
           s_total30d s_total24h s_mcap);
    first [reflexivity | apply sample_merged_wf].
Defined.

Lemma metrics_idempotent_witness :
  returns (twice calculate_financial_metrics 0%nat) [sample_merged] (fun out h' =>
    out.1 <> out.2 /\
    exists O, h' !! out.1 = Some O /\ h' !! out.2 = Some O).
Proof.
  apply (metrics_idempotent [sample_merged] 0%nat sample_merged
           s_total30d s_total24h s_mcap);
    first [reflexivity | apply sample_merged_wf].
Defined.

Lemma score_idempotent_witness :
  returns (twice calculate_venture_score 0%nat) [sample_metrics] (fun out h' =>
    out.1 <> out.2 /\
    exists O, h' !! out.1 = Some O /\ h' !! out.2 = Some O).
Proof.
  apply (score_idempotent [sample_metrics] 0%nat sample_metrics
           s_upside s_total7d s_total24h s_mcap s_tvl);
    first [reflexivity | apply sample_metrics_wf].
Defined.

Lemma metrics_signs_witness :
  returns (calculate_financial_metrics 0%nat) [sample_merged] (fun out h' =>
    exists O ar fv up,
      h' !! out = Some O /\
      num_col O "annualized_revenue" = Ok ar /\
      num_col O "fair_value" = Ok fv /\
      num_col O "upside_potential" = Ok up /\
      length ar = nrows sample_merged /\ length fv = nrows sample_merged /\
      length up = nrows sample_merged /\
      Forall (at_least 0) ar /\ Forall (at_least 0) fv /\
      Forall (at_least (-100)) up).
Proof.
  apply (metrics_signs [sample_merged] 0%nat sample_merged
           s_total30d s_total24h s_mcap);
    first [reflexivity | apply sample_merged_wf
          | apply sample_moderate; reflexivity].
Defined.

Lemma merge_schema_witness :
  returns (merge_datasets 0%nat 1%nat) sample_store (fun out h' =>
    exists O, h' !! out = Some O /\
      forall c, has_col c O = true <->
        c ∈ ["total24h"; "total7d"; "total30d"] \/
        (has_col c sample_protocols = true /\ c ∉ ["name_lower"; "symbol_lower"])).
Proof.
  apply (merge_schema sample_store 0%nat 1%nat sample_protocols sample_fees
           s_name s_symbol f_name f_symbol f_total24h f_total7d f_total30d);
    first [reflexivity | apply sample_protocols_wf | apply sample_fees_wf
          | apply sample_no_revenue_cols | apply sample_symbols].
Defined.

Lemma merge_rejects_revenue_column_witness :
  (merge_datasets 0%nat 1%nat [sample_merged; sample_fees]).1
  = Raise (KeyError "total24h").
Proof.
  apply (merge_rejects_revenue_column [sample_merged; sample_fees] 0%nat 1%nat
           sample_merged sample_fees s_name f_name f_total24h f_total7d f_total30d);
    first [reflexivity | apply sample_merged_wf | apply sample_fees_wf | idtac].
  intros c Hc.
  repeat (apply elem_of_cons in Hc as [->|Hc]; [reflexivity|]).
  by apply elem_of_nil in Hc.
Defined.

Lemma merge_without_symbol_witness :
  returns (merge_datasets 0%nat 1%nat) [sample_nosym; sample_fees] (fun out h' =>
    exists O t24 t7 t30,
      h' !! out = Some O /\ merge_output sample_nosym O t24 t7 t30 /\
      forall (i : nat) nm,
        s_name !! i = Some (OStr nm) ->
        (forall j, first_match (norm_key nm) (map str_lower_strip f_name) j ->
           t24 !! i = f_total24h !! j /\ t7 !! i = f_total7d !! j /\
           t30 !! i = f_total30d !! j) /\
        (no_match (norm_key nm) (map str_lower_strip f_name) ->
           t24 !! i = Some (Fin 0) /\ t7 !! i = Some (Fin 0) /\
           t30 !! i = Some (Fin 0))).
Proof.
  apply (merge_without_symbol [sample_nosym; sample_fees] 0%nat 1%nat
           sample_nosym sample_fees s_name f_name f_total24h f_total7d f_total30d);
    first [reflexivity | apply sample_nosym_wf | apply sample_fees_wf
          | apply sample_nosym_no_revenue_cols
          | apply sample_notna; reflexivity].
Defined.

Lemma pipeline_scores_witness :
  returns (pipeline 0%nat 1%nat) sample_store (fun out h' =>
    exists S w,
      h' !! out = Some S /\ nrows S = nrows sample_protocols /\
      get_col S "name" = Ok (ObjCol s_name) /\
      num_col S "venture_score" = Ok w /\
      forall i : nat, (i < nrows sample_protocols)%nat ->
        exists q, w !! i = Some (Fin q) /\ 0 <= q <= 100 /\
                  exists k : Z, q == inject_Z k / 10).
Proof.
  apply (pipeline_scores sample_store 0%nat 1%nat sample_protocols sample_fees
           s_name s_symbol f_name f_symbol f_total24h f_total7d f_total30d
           s_mcap s_tvl);
    first [reflexivity | apply sample_protocols_wf | apply sample_fees_wf
          | apply sample_no_revenue_cols | apply sample_symbols
          | apply sample_finite; reflexivity].
Defined.

Lemma kpi_median_ignores_filters_witness :
  returns (filtered_kpi 0%nat ["Lending"] [] (Fin 1000000)) [sample_listing]
    (fun r _ =>
      r = if existsb id (kept_mask ["Lending"] [] (Fin 1000000)
                                   l_category l_chain l_tvl)
          then Some (CNum (Fin 12)) else None).
Proof.
  apply (kpi_median_ignores_filters [sample_listing] 0%nat sample_listing
           ["Lending"] [] (Fin 1000000) l_category l_chain l_tvl 12);
    first [reflexivity | apply sample_listing_wf
          | apply sample_listing_nolist; reflexivity].
Defined.

(* ================================================================= *)
(** ** Missing input columns *)

Lemma getnum_raise (h : store) l d c e :
  h !! l = Some d -> num_col d c = Raise e -> getnum l c h = (Raise e, h).
Proof.
  intros Hl Hc. unfold getnum. erewrite bind_run; [|by apply read_run].
  unfold lift. by rewrite Hc.
Qed.

Lemma num_col_missing d c : has_col c d = false -> num_col d c = Raise (KeyError c).
Proof.
  unfold has_col, num_col, get_col. by destruct (lookup_col c (columns d)).
Qed.

Ltac absurd_elem H :=
  repeat (apply elem_of_cons in H as [H|H]; [discriminate|]);
  by apply elem_of_nil in H.

Ltac run_missing :=
  erewrite bind_raise; [reflexivity|];
  eapply getnum_raise; [apply top_lookup|];
  rewrite ?num_col_set_ne by discriminate; by apply num_col_missing.

(** X15. A table that lacks one of the columns [total30d], [total24h] and
    [mcap], the others being numeric, makes [calculate_financial_metrics]
    raise the key error that names the missing column. *)
Theorem metrics_missing_column (h : store) (l : loc) (d : DataFrame) (c : string) :
  h !! l = Some d -> wf d ->
  c ∈ ["total30d"; "total24h"; "mcap"] ->
  has_col c d = false ->
  (forall c', c' ∈ ["total30d"; "total24h"; "mcap"] -> c' <> c ->
              exists xs, num_col d c' = Ok xs) ->
  (calculate_financial_metrics l h).1 = Raise (KeyError c).
Proof.
  intros Hl Hwf Hc Hmiss Hothers.
  unfold calculate_financial_metrics.
  rewrite (bind_run _ _ _ _ _ (copy_run h l d Hl)).
  apply elem_of_cons in Hc as [->|Hc]; [run_missing|].
  destruct (Hothers "total30d") as [t30 H30];
    [repeat constructor|intros <-; absurd_elem Hc|].
  pose proof (num_col_len _ _ _ Hwf H30) as L30.
  apply elem_of_cons in Hc as [->|Hc].
  { run_getnum. run_missing. }
  apply elem_of_cons in Hc as [->|Hc]; [|by apply elem_of_nil in Hc].
  destruct (Hothers "total24h") as [t24 H24]; [repeat constructor|discriminate|].
  pose proof (num_col_len _ _ _ Hwf H24) as L24.
  run_getnum. run_getnum. run_setcol. run_getnum. run_missing.
Qed.

(** X16. A table that lacks one of the columns [upside_potential],
    [total7d], [total24h], [mcap] and [tvl], the others being numeric,
    makes [calculate_venture_score] raise the key error that names the
    missing column. *)
Theorem score_missing_column (h : store) (l : loc) (d : DataFrame) (c : string) :
  h !! l = Some d -> wf d ->
  c ∈ ["upside_potential"; "total7d"; "total24h"; "mcap"; "tvl"] ->
  has_col c d = false ->
  (forall c', c' ∈ ["upside_potential"; "total7d"; "total24h"; "mcap"; "tvl"] ->
              c' <> c -> exists xs, num_col d c' = Ok xs) ->
  (calculate_venture_score l h).1 = Raise (KeyError c).
Proof.
  intros Hl Hwf Hc Hmiss Hothers.
  unfold calculate_venture_score.
  rewrite (bind_run _ _ _ _ _ (copy_run h l d Hl)).
  apply elem_of_cons in Hc as [->|Hc]; [run_missing|].
  destruct (Hothers "upside_potential") as [up Hup];
    [repeat constructor|intros <-; absurd_elem Hc|].
  pose proof (num_col_len _ _ _ Hwf Hup) as Lup.
  apply elem_of_cons in Hc as [->|Hc].
  { run_getnum. run_setcol. run_missing. }
  destruct (Hothers "total7d") as [t7 H7];
    [repeat constructor|intros <-; absurd_elem Hc|].
  pose proof (num_col_len _ _ _ Hwf H7) as L7.
  apply elem_of_cons in Hc as [->|Hc].
  { run_getnum. run_setcol. run_getnum. run_setcol. run_getnum. run_missing. }
  destruct (Hothers "total24h") as [t24 H24];
    [repeat constructor|intros <-; absurd_elem Hc|].
  pose proof (num_col_len _ _ _ Hwf H24) as L24.
  apply elem_of_cons in Hc as [->|Hc].
  { run_getnum. run_setcol. run_getnum. run_setcol. run_getnum. run_getnum.
    run_setcol. run_getnum. run_setcol. run_getnum. run_setcol. run_missing. }
  destruct (Hothers "mcap") as [mc Hmc];
    [repeat constructor|intros <-; absurd_elem Hc|].
  apply elem_of_cons in Hc as [->|Hc]; [|by apply elem_of_nil in Hc].
  run_getnum. run_setcol. run_getnum. run_setcol. run_getnum. run_getnum.
  run_setcol. run_getnum. run_setcol. run_getnum. run_setcol. run_getnum.
  run_missing.
Qed.

Lemma metrics_missing_column_witness :
  (calculate_financial_metrics 0%nat [sample_fees]).1 = Raise (KeyError "mcap").
Proof.
  apply (metrics_missing_column [sample_fees] 0%nat sample_fees "mcap");
    first [reflexivity | apply sample_fees_wf | by repeat constructor | idtac].
  intros c' Hc' Hne.
  repeat (apply elem_of_cons in Hc' as [->|Hc']; [first [done | by eexists]|]).
  by apply elem_of_nil in Hc'.
Defined.

Lemma score_missing_column_witness :
  (calculate_venture_score 0%nat [sample_merged]).1
  = Raise (KeyError "upside_potential").
Proof.
  apply (score_missing_column [sample_merged] 0%nat sample_merged "upside_potential");
    first [reflexivity | apply sample_merged_wf | by repeat constructor | idtac].
  intros c' Hc' Hne.
  repeat (apply elem_of_cons in Hc' as [->|Hc']; [first [done | by eexists]|]).
  by apply elem_of_nil in Hc'.
Defined.

(* ================================================================= *)
(** ** The sample data *)

Lemma sample_symbols_split :
  map (fun name => split name !! 1%nat) sample_names
  = map (fun i : nat => Some (pretty i)) (seq 1 50).
Proof. by vm_compute. Qed.

Lemma sample_keys_NoDup : NoDup (map norm_key sample_names).
Proof. apply (bool_decide_unpack (NoDup _)). by vm_compute. Qed.

Section SampleTheory.
Variable rng : Type.
Variable random : rng -> Q * rng.
Variable randbelow : nat -> rng -> nat * rng.
Hypothesis Hrandom : forall g, 0 <= (random g).1 < 1.
Hypothesis Hbelow : forall n g, (0 < n)%nat -> ((randbelow n g).1 < n)%nat.

Lemma gbind_run {A B} (m : G rng A) (k : A -> G rng B) g a g' :
  m g = (Ok a, g') -> gbind m k g = k a g'.
Proof. intros H. unfold gbind. by rewrite H. Qed.

Lemma uniform_run a b g :
  a <= b ->
  exists q g', uniform rng random a b g = (Ok (Fin q), g') /\ a <= q <= b.
Proof.
  intros Hab. unfold uniform. pose proof (Hrandom g) as [H0 H1].
  destruct (random g) as [u g']. simpl in H0, H1.
  eexists _, _. split; [reflexivity|].
  assert (0 <= (b - a) * u) by (apply Qmult_le_0_compat; lra).
  assert (u * (b - a) <= 1 * (b - a)) by (apply Qmult_le_compat_r; lra).
  lra.
Qed.

Lemma choice_run {A} (seq : list A) g :
  seq <> [] -> exists x g', choice rng randbelow seq g = (Ok x, g') /\ x ∈ seq.
Proof.
  intros Hne. unfold choice. destruct seq as [|y seq]; [done|].
  pose proof (Hbelow (length (y :: seq)) g) as Hi.
  destruct (randbelow (length (y :: seq)) g) as [i g']. simpl in Hi.
  destruct (lookup_lt_is_Some_2 (y :: seq) i) as [x Hx]; [simpl; lia|].
  rewrite Hx. exists x, g'. split; [done|]. by eapply list_elem_of_lookup_2.
Qed.

Lemma for_names_run {A} (row : string -> G rng A) (Q : string -> A -> Prop) names :
  (forall name, name ∈ names -> forall g, exists r g', row name g = (Ok r, g') /\ Q name r) ->
  forall g, exists data g',
    for_names row names g = (Ok data, g') /\ Forall2 Q names data.
Proof.
  induction names as [|name names IH]; intros Hrow g.
  - exists [], g. split; [done|constructor].
  - destruct (Hrow name) with (g := g) as (r & g1 & Hr & HQ); [left|].
    destruct IH with (g := g1) as (data & g2 & Hd & HF).
    { intros n Hn. apply Hrow. by right. }
    exists (r :: data), g2. split; [|by constructor].
    cbn [for_names]. erewrite gbind_run; [|exact Hr].
    erewrite gbind_run; [|exact Hd]. done.
Qed.

Lemma scale_bounds t x lo hi : 0 <= t -> lo <= x <= hi -> lo * t <= t * x <= hi * t.
Proof.
  intros Ht [Hlo Hhi].
  assert (lo * t <= x * t) by (apply Qmult_le_compat_r; lra).
  assert (x * t <= hi * t) by (apply Qmult_le_compat_r; lra).
  lra.
Qed.

Lemma sample_protocol_run name s g :
  split name !! 1%nat = Some s ->
  exists r g', sample_protocol rng random randbelow name g = (Ok r, g') /\
               protocol_ok name r.
Proof.
  intros Hs. unfold sample_protocol.
  destruct (choice_run sample_categories g) as (cat & g1 & H1 & Hcat); [done|].
  destruct (choice_run sample_chains g1) as (chain & g2 & H2 & Hchain); [done|].
  destruct (uniform_run 1000000 10000000000 g2) as (t & g3 & H3 & Ht); [done|].
  destruct (uniform_run 0.1 2.0 g3) as (x & g4 & H4 & Hx); [done|].
  eexists _, _. split.
  - erewrite gbind_run; [|exact H1]. erewrite gbind_run; [|exact H2].
    erewrite gbind_run; [|exact H3]. erewrite gbind_run; [|exact H4].
    erewrite gbind_run; [|unfold item; by rewrite Hs]. reflexivity.
  - unfold protocol_ok. cbn [p_name p_symbol p_tvl p_mcap p_category p_chains
                              p_primary_chain].
    rewrite Hs. repeat (split; [done|]). split; [|done].
    exists t, (t * x). repeat (split; [done|]).
    apply scale_bounds; lra.
Qed.

Lemma sample_fee_run name s g :
  split name !! 1%nat = Some s ->
  exists r g', sample_fee rng random name g = (Ok r, g') /\ fees_ok name r.
Proof.
  intros Hs. unfold sample_fee.
  destruct (uniform_run 1000 1000000 g) as (d & g1 & H1 & Hd); [done|].
  destruct (uniform_run 0.8 1.2 g1) as (x7 & g2 & H2 & H7); [done|].
  destruct (uniform_run 0.8 1.2 g2) as (x30 & g3 & H3 & H30); [done|].
  eexists _, _. split.
  - erewrite gbind_run; [|exact H1].
    erewrite gbind_run; [|unfold item; by rewrite Hs].
    erewrite gbind_run; [|exact H2]. erewrite gbind_run; [|exact H3].
    reflexivity.
  - unfold fees_ok. cbn [r_name r_symbol r_total24h r_total7d r_total30d].
    rewrite Hs. repeat (split; [done|]).
    exists d, (d * 7 * x7), (d * 30 * x30).
    do 4 (split; [done|]).
    destruct (scale_bounds (d * 7) x7 0.8 1.2) as [? ?]; [lra|done|].
    destruct (scale_bounds (d * 30) x30 0.8 1.2) as [? ?]; [lra|done|].
    split; split; lra.
Qed.

Lemma sample_names_split name :
  name ∈ sample_names -> exists s, split name !! 1%nat = Some s.
Proof.
  intros (i & Hi)%list_elem_of_lookup_1.
  pose proof (f_equal (fun l => l !! i) sample_symbols_split) as H.
  cbv beta in H. rewrite !list_lookup_fmap, Hi in H.
  destruct (seq 1 50 !! i) as [k|]; [|done]. injection H as H. eauto.
Qed.

Lemma sample_protocols_run g :
  exists data g',
    get_sample_protocols_data rng random randbelow g = (Ok (protocols_frame data), g') /\
    Forall2 protocol_ok sample_names data.
Proof.
  destruct (for_names_run (sample_protocol rng random randbelow) protocol_ok
              sample_names) with (g := g) as (data & g' & Hrun & HF).
  { intros name Hn g0. destruct (sample_names_split name Hn) as [s Hs].
    by apply (sample_protocol_run name s). }
  exists data, g'. split; [|done].
  unfold get_sample_protocols_data. by erewrite gbind_run.
Qed.

Lemma sample_fees_run g :
  exists data g',
    get_sample_fees_data rng random g = (Ok (fees_frame data), g') /\
    Forall2 fees_ok sample_names data.
Proof.
  destruct (for_names_run (sample_fee rng random) fees_ok sample_names)
    with (g := g) as (data & g' & Hrun & HF).
  { intros name Hn g0. destruct (sample_names_split name Hn) as [s Hs].
    by apply (sample_fee_run name s). }
  exists data, g'. split; [|done].
  unfold get_sample_fees_data. by erewrite gbind_run.
Qed.

End SampleTheory.

Lemma Forall2_map_eq {A B C} (f : B -> C) (g : A -> C) (xs : list A) (ys : list B) :
  Forall2 (fun x y => f y = g x) xs ys -> map f ys = map g xs.
Proof. induction 1 as [|x y xs ys H _ IH]; simpl; [done|]. by rewrite H, IH. Qed.

Lemma Forall2_Forall_r {A B} (P : A -> B -> Prop) (Q : B -> Prop) xs ys :
  Forall2 P xs ys -> (forall x y, P x y -> Q y) -> Forall Q ys.
Proof. induction 1; intros HPQ; constructor; eauto. Qed.

Lemma map_Some_inj {A} (xs ys : list A) : map Some xs = map Some ys -> xs = ys.
Proof.
  revert ys. induction xs as [|x xs IH]; intros [|y ys]; simpl; try done.
  intros [= -> H]. f_equal. by apply IH.
Qed.

Lemma sample_symbols_of {A} (sym : A -> string) (data : list A) :
  Forall2 (fun name r =>
             Some (sym r) = (fun s => "PROTO" +:+ s) <$> split name !! 1%nat)
          sample_names data ->
  map sym data = map (fun i : nat => "PROTO" +:+ pretty i) (seq 1 50).
Proof.
  intros HF. apply map_Some_inj.
  rewrite (map_map sym Some).
  rewrite (Forall2_map_eq (fun r => Some (sym r))
             (fun name => (fun s => "PROTO" +:+ s) <$> split name !! 1%nat)
             sample_names data HF).
  rewrite <- (map_map (fun name => split name !! 1%nat)
                      (fmap (fun s => "PROTO" +:+ s))).
  rewrite sample_symbols_split. by rewrite !map_map.
Qed.

Lemma first_match_NoDup (ks : list obj) (i : nat) k :
  NoDup ks -> ks !! i = Some k -> first_match k ks i.
Proof.
  intros Hnd Hi. split; [done|]. intros j Hj Hk.
  pose proof (NoDup_lookup _ _ _ _ Hnd Hi Hk). lia.
Qed.

(** With the same distinct keys on both sides and no missing value, the
    join gives every row the revenue of the row at its own position. *)
Lemma merged_revenue_self lk psym sk (v24 vs : list f64) :
  NoDup lk -> length v24 = length lk -> length vs = length lk ->
  Forall (fun x => isna x = false) v24 -> Forall (fun x => isna x = false) vs ->
  merged_revenue lk lk psym sk v24 vs = vs.
Proof.
  intros Hnd L24 Lvs N24 Nvs. apply list_eq. intros i.
  destruct (lk !! i) as [k|] eqn:Hk.
  - apply (revenue_cell_name lk lk psym sk v24 vs L24 Lvs N24 Nvs i k i Hk).
    by apply first_match_NoDup.
  - unfold merged_revenue, name_joined.
    rewrite list_lookup_fmap, foldl_sym_upd_lookup, list_lookup_fmap, Hk. simpl.
    symmetry. apply lookup_ge_None. rewrite Lvs. by apply lookup_ge_None.
Qed.

Lemma Fin_notna (qs : list f64) : Forall finite qs -> Forall (fun x => isna x = false) qs.
Proof. intros H. eapply Forall_impl; [exact H|]. by intros x [q ->]. Qed.

Section SampleClaims.
Variable rng : Type.
Variable random : rng -> Q * rng.
Variable randbelow : nat -> rng -> nat * rng.
Hypothesis Hrandom : forall g, 0 <= (random g).1 < 1.
Hypothesis Hbelow : forall n g, (0 < n)%nat -> ((randbelow n g).1 < n)%nat.

(** X17. Whatever the generator draws, [get_sample_protocols_data] returns
    a table of 50 protocols named [Protocol 1] to [Protocol 50] with the
    symbols [PROTO1] to [PROTO50]; every locked value lies between 1e6 and
    1e10, every market cap between 0.1 and 2 times the locked value, and
    the category and the chain are taken from the two fixed lists. *)
Theorem sample_protocols_valid (g : rng) :
  exists data g',
    get_sample_protocols_data rng random randbelow g
    = (Ok (protocols_frame data), g') /\
    length data = 50%nat /\
    map p_name data = sample_names /\
    map p_symbol data = map (fun i : nat => "PROTO" +:+ pretty i) (seq 1 50) /\
    Forall (fun r =>
      (exists t m, p_tvl r = Fin t /\ p_mcap r = Fin m /\
                   1000000 <= t <= 10000000000 /\ 0.1 * t <= m <= 2 * t) /\
      p_category r ∈ sample_categories /\
      p_primary_chain r ∈ sample_chains /\
      p_chains r = [p_primary_chain r]) data.
Proof.
  destruct (sample_protocols_run rng random randbelow Hrandom Hbelow g)
    as (data & g' & Hrun & HF).
  exists data, g'. split; [done|].
  split; [by rewrite <- (Forall2_length _ _ _ HF)|].
  split.
  { rewrite <- (map_id sample_names). apply Forall2_map_eq.
    eapply Forall2_impl; [exact HF|]. by intros name r (? & _). }
  split.
  { apply sample_symbols_of. eapply Forall2_impl; [exact HF|].
    by intros name r (_ & ? & _). }
  eapply Forall2_Forall_r; [exact HF|]. by intros name r (_ & _ & ?).
Qed.

(** X18. Whatever the generator draws, [get_sample_fees_data] returns a
    table of 50 revenue rows with the names and symbols of the sample
    protocols; the daily revenue lies between 1000 and 1e6, and the 7-day
    and 30-day revenues within 20 percent of 7 and 30 times the daily
    revenue. *)
Theorem sample_fees_valid (g : rng) :
  exists data g',
    get_sample_fees_data rng random g = (Ok (fees_frame data), g') /\
    length data = 50%nat /\
    map r_name data = sample_names /\
    map r_symbol data = map (fun i : nat => "PROTO" +:+ pretty i) (seq 1 50) /\
    Forall (fun r =>
      exists d w m,
        r_total24h r = Fin d /\ r_total7d r = Fin w /\ r_total30d r = Fin m /\
        1000 <= d <= 1000000 /\
        0.8 * (7 * d) <= w <= 1.2 * (7 * d) /\
        0.8 * (30 * d) <= m <= 1.2 * (30 * d)) data.
Proof.
  destruct (sample_fees_run rng random Hrandom g) as (data & g' & Hrun & HF).
  exists data, g'. split; [done|].
  split; [by rewrite <- (Forall2_length _ _ _ HF)|].
  split.
  { rewrite <- (map_id sample_names). apply Forall2_map_eq.
    eapply Forall2_impl; [exact HF|]. by intros name r (? & _). }
  split.
  { apply sample_symbols_of. eapply Forall2_impl; [exact HF|].
    by intros name r (_ & ? & _). }
  eapply Forall2_Forall_r; [exact HF|]. by intros name r (_ & _ & ?).
Qed.

End SampleClaims.

(* ================================================================= *)
(** ** The pipeline on the sample data *)

Lemma protocols_frame_wf data : wf (protocols_frame data).
Proof. repeat constructor; simpl; apply length_map. Qed.

Lemma fees_frame_wf data : wf (fees_frame data).
Proof. repeat constructor; simpl; apply length_map. Qed.

Lemma protocols_frame_no_revenue data : no_revenue_cols (protocols_frame data).
Proof.
  repeat constructor; simpl; intros H;
    repeat (apply elem_of_cons in H as [H|H]; [discriminate|]);
    by apply elem_of_nil in H.
Qed.

Lemma map_OStr_nolist {A} (f : A -> string) (data : list A) :
  Forall (fun o => forall l, o <> OList l) (map (fun r => OStr (f r)) data).
Proof. induction data; constructor; [by intros l|done]. Qed.

Lemma sample_keys {A} (f : A -> string) (data : list A) :
  map f data = sample_names ->
  map str_lower_strip (map (fun r => OStr (f r)) data) = map norm_key sample_names.
Proof. intros <-. by rewrite !map_map. Qed.

(** The merge of a sample protocol table with a sample revenue table. *)
Lemma sample_merge_run (h : store) lp lf pdata fdata :
  map p_name pdata = sample_names -> map r_name fdata = sample_names ->
  Forall finite (map r_total24h fdata) -> Forall finite (map r_total7d fdata) ->
  Forall finite (map r_total30d fdata) ->
  h !! lp = Some (protocols_frame pdata) -> h !! lf = Some (fees_frame fdata) ->
  exists h' O,
    merge_datasets lp lf h = (Ok (length h + 3)%nat, h') /\
    h' !! (length h + 3)%nat = Some O /\
    merge_output (protocols_frame pdata) O (map r_total24h fdata)
                 (map r_total7d fdata) (map r_total30d fdata).
Proof.
  intros Hpn Hrn F24 F7 F30 HP HR.
  destruct (merge_datasets_run h lp lf (protocols_frame pdata) (fees_frame fdata)
              (map (fun r => OStr (p_name r)) pdata)
              (map (fun r => OStr (p_symbol r)) pdata)
              (map (fun r => OStr (r_name r)) fdata)
              (map (fun r => OStr (r_symbol r)) fdata)
              (map r_total24h fdata) (map r_total7d fdata) (map r_total30d fdata))
    as (h' & O & Hrun & HO & Hout);
    first [done | apply protocols_frame_wf | apply fees_frame_wf
          | apply protocols_frame_no_revenue | apply map_OStr_nolist | idtac].
  exists h', O. split; [done|]. split; [done|].
  rewrite (sample_keys p_name pdata Hpn), (sample_keys r_name fdata Hrn) in Hout.
  assert (length fdata = length sample_names) as Lf.
  { by rewrite <- Hrn, length_map. }
  rewrite !merged_revenue_self in Hout;
    first [done | apply sample_keys_NoDup | by apply Fin_notna
          | by rewrite !length_map].
Qed.

Section SampleMerge.
Variable rng : Type.
Variable random : rng -> Q * rng.
Variable randbelow : nat -> rng -> nat * rng.
Hypothesis Hrandom : forall g, 0 <= (random g).1 < 1.
Hypothesis Hbelow : forall n g, (0 < n)%nat -> ((randbelow n g).1 < n)%nat.

Lemma sample_tables (g1 g2 : rng) :
  exists pdata fdata g1' g2',
    get_sample_protocols_data rng random randbelow g1
    = (Ok (protocols_frame pdata), g1') /\
    get_sample_fees_data rng random g2 = (Ok (fees_frame fdata), g2') /\
    Forall2 protocol_ok sample_names pdata /\ Forall2 fees_ok sample_names fdata.
Proof.
  destruct (sample_protocols_run rng random randbelow Hrandom Hbelow g1)
    as (pdata & g1' & Hp & HFp).
  destruct (sample_fees_run rng random Hrandom g2) as (fdata & g2' & Hf & HFf).
  by exists pdata, fdata, g1', g2'.
Qed.

Lemma fees_ok_finite fdata :
  Forall2 fees_ok sample_names fdata ->
  map r_name fdata = sample_names /\
  Forall finite (map r_total24h fdata) /\ Forall finite (map r_total7d fdata) /\
  Forall finite (map r_total30d fdata).
Proof.
  intros HF. split.
  { rewrite <- (map_id sample_names). apply Forall2_map_eq.
    eapply Forall2_impl; [exact HF|]. by intros name r (? & _). }
  repeat split; apply Forall_fmap;
    (eapply Forall2_Forall_r; [exact HF|]);
    intros name r (_ & _ & d & w & m & E1 & E2 & E3 & _); simpl;
    rewrite ?E1, ?E2, ?E3; by eexists.
Qed.

Lemma protocol_ok_names pdata :
  Forall2 protocol_ok sample_names pdata -> map p_name pdata = sample_names.
Proof.
  intros HF. rewrite <- (map_id sample_names). apply Forall2_map_eq.
  eapply Forall2_impl; [exact HF|]. by intros name r (? & _).
Qed.

(** X19. The two sample tables fit together: merging a sample protocol
    table with a sample revenue table gives every one of the 50 protocols
    the revenue of the sample row with the same name, so that no protocol
    is left at zero: the daily revenue of every row is at least 1000. *)
Theorem sample_merge_complete (g1 g2 : rng) :
  exists pdata fdata g1' g2',
    get_sample_protocols_data rng random randbelow g1
    = (Ok (protocols_frame pdata), g1') /\
    get_sample_fees_data rng random g2 = (Ok (fees_frame fdata), g2') /\
    forall (h : store) (lp lf : loc),
      h !! lp = Some (protocols_frame pdata) ->
      h !! lf = Some (fees_frame fdata) ->
      returns (merge_datasets lp lf) h (fun out h' =>
        exists O,
          h' !! out = Some O /\ nrows O = 50%nat /\
          num_col O "total24h" = Ok (map r_total24h fdata) /\
          num_col O "total7d" = Ok (map r_total7d fdata) /\
          num_col O "total30d" = Ok (map r_total30d fdata) /\
          Forall (at_least 1000) (map r_total24h fdata)).
Proof.
  destruct (sample_tables g1 g2) as (pdata & fdata & g1' & g2' & Hp & Hf & HFp & HFf).
  exists pdata, fdata, g1', g2'. split; [done|]. split; [done|].
  intros h lp lf HP HR.
  destruct (fees_ok_finite fdata HFf) as (Hrn & F24 & F7 & F30).
  destruct (sample_merge_run h lp lf pdata fdata (protocol_ok_names pdata HFp)
              Hrn F24 F7 F30 HP HR) as (h' & O & Hrun & HO & Hout).
  destruct Hout as (HnO & _ & Ht24 & Ht7 & Ht30 & _).
  exists (length h + 3)%nat, h'. split; [done|]. exists O.
  split; [done|]. split.
  { rewrite HnO. simpl. by rewrite <- (Forall2_length _ _ _ HFp). }
  repeat (split; [done|]).
  apply Forall_fmap. eapply Forall2_Forall_r; [exact HFf|].
  intros name r (_ & _ & d & w & m & E1 & _ & _ & [Hd _] & _). simpl.
  rewrite E1. by exists d.
Qed.

End SampleMerge.

Lemma Forall2_lookup_both {A B} (P : A -> B -> Prop) xs ys (i : nat) :
  Forall2 P xs ys -> (i < length xs)%nat ->
  exists x y, xs !! i = Some x /\ ys !! i = Some y /\ P x y.
Proof.
  intros HF Hi. destruct (lookup_lt_is_Some_2 xs i Hi) as [x Hx].
  destruct (Forall2_lookup_l _ _ _ _ _ HF Hx) as (y & Hy & HP). eauto.
Qed.

Section SamplePipeline.
Variable rng : Type.
Variable random : rng -> Q * rng.
Variable randbelow : nat -> rng -> nat * rng.
Hypothesis Hrandom : forall g, 0 <= (random g).1 < 1.
Hypothesis Hbelow : forall n g, (0 < n)%nat -> ((randbelow n g).1 < n)%nat.

(** X20. The application runs on its sample data: whatever the generator
    draws, the three stages applied to a sample protocol table and a sample
    revenue table return 50 rows, and every row has a finite, strictly
    positive price/sales ratio (never the infinite sentinel) and a venture
    score that is a finite number in [0, 100]. *)
Theorem sample_pipeline (g1 g2 : rng) :
  exists pdata fdata g1' g2',
    get_sample_protocols_data rng random randbelow g1
    = (Ok (protocols_frame pdata), g1') /\
    get_sample_fees_data rng random g2 = (Ok (fees_frame fdata), g2') /\
    forall (h : store) (lp lf : loc),
      h !! lp = Some (protocols_frame pdata) ->
      h !! lf = Some (fees_frame fdata) ->
      returns (pipeline lp lf) h (fun out h' =>
        exists S ps w,
          h' !! out = Some S /\ nrows S = 50%nat /\
          num_col S "ps_ratio" = Ok ps /\
          num_col S "venture_score" = Ok w /\
          forall i : nat, (i < 50)%nat ->
            exists p q, ps !! i = Some (Fin p) /\ 0 < p /\
                        w !! i = Some (Fin q) /\ 0 <= q <= 100).
Proof.
  destruct (sample_tables rng random randbelow Hrandom Hbelow g1 g2)
    as (pdata & fdata & g1' & g2' & Hp & Hf & HFp & HFf).
  exists pdata, fdata, g1', g2'. split; [done|]. split; [done|].
  intros h lp lf HP HR.
  destruct (fees_ok_finite fdata HFf) as (Hrn & F24 & F7 & F30).
  pose proof (protocol_ok_names pdata HFp) as Hpn.
  pose proof (Forall2_length _ _ _ HFp) as Lp.
  pose proof (Forall2_length _ _ _ HFf) as Lf.
  assert (length sample_names = 50%nat) as Ln by done.
  destruct (pipeline_run h lp lf (protocols_frame pdata) (fees_frame fdata)
              (map (fun r => OStr (p_name r)) pdata)
              (map (fun r => OStr (p_symbol r)) pdata)
              (map (fun r => OStr (r_name r)) fdata)
              (map (fun r => OStr (r_symbol r)) fdata)
              (map r_total24h fdata) (map r_total7d fdata) (map r_total30d fdata)
              (map p_mcap pdata) (map p_tvl pdata))
    as (out & h' & O & Hrun & HS & Hout & _);
    first [done | apply protocols_frame_wf | apply fees_frame_wf
          | apply protocols_frame_no_revenue | apply map_OStr_nolist | idtac].
  rewrite (sample_keys p_name pdata Hpn), (sample_keys r_name fdata Hrn) in HS, Hout.
  rewrite !merged_revenue_self in HS, Hout;
    try first [done | apply sample_keys_NoDup | by apply Fin_notna
              | rewrite !length_map; lia].
  destruct Hout as (HnO & _).
  set (t24 := map r_total24h fdata) in *.
  set (t7 := map r_total7d fdata) in *.
  set (t30 := map r_total30d fdata) in *.
  set (mc := map p_mcap pdata) in *.
  set (tv := map p_tvl pdata) in *.
  exists out, h'. split; [done|].
  eexists _, _, _. split; [exact HS|].
  split; [simpl in HnO |- *; rewrite HnO; lia|].
  split; [unfold score_table, metrics_table; col|].
  split; [unfold score_table; col|].
  intros i Hi.
  destruct (Forall2_lookup_both _ _ _ i HFp) as (n1 & r & _ & Hr & Hok); [lia|].
  destruct (Forall2_lookup_both _ _ _ i HFf) as (n2 & f & _ & Hfi & Hfok); [lia|].
  destruct Hok as (_ & _ & (t & m & Et & Em & Ht & Hm) & _).
  destruct Hfok as (_ & _ & d & w7 & m30 & Ed & Ew & E30 & Hd & Hw7 & Hm30).
  assert (t24 !! i = Some (Fin d)) as H24 by (unfold t24; by rewrite list_lookup_fmap, Hfi; simpl; rewrite Ed).
  assert (t7 !! i = Some (Fin w7)) as H7 by (unfold t7; by rewrite list_lookup_fmap, Hfi; simpl; rewrite Ew).
  assert (t30 !! i = Some (Fin m30)) as H30 by (unfold t30; by rewrite list_lookup_fmap, Hfi; simpl; rewrite E30).
  assert (mc !! i = Some (Fin m)) as Hmc by (unfold mc; by rewrite list_lookup_fmap, Hr; simpl; rewrite Em).
  assert (tv !! i = Some (Fin t)) as Htv by (unfold tv; by rewrite list_lookup_fmap, Hr; simpl; rewrite Et).
  assert (0 < m30) as P30 by lra.
  assert (0 < m) as Pm by lra.
  pose proof (annualized_revenue_row _ _ _ _ _ H30 H24) as Har.
  rewrite gtb_Fin_0, (proj2 (Qltb_lt 0 m30) P30) in Har. simpl in Har.
  pose proof (ps_ratio_row _ _ _ _ _ Hmc Har) as Hps.
  assert (0 < m30 * 12) as Par by lra.
  rewrite gtb_Fin_0, (proj2 (Qltb_lt 0 _) Par), (div_Fin_pos _ _ Par) in Hps.
  destruct (pipeline_row t30 t24 t7 mc tv i m30 d w7 m t H30 H24 H7 Hmc Htv)
    as (r' & s & u & qv & qt & qe & w & k & _ & _ & _ & _ & _ & _ & _ & _
        & _ & _ & _ & _ & Hw & Hbw & _).
  exists (m / (m30 * 12)), w. split; [exact Hps|]. split; [|done].
  apply Qlt_shift_div_l; lra.
Qed.

End SamplePipeline.

(* ================================================================= *)
(** ** The sample data with a concrete generator *)

Lemma count_random_ok (g : nat) : 0 <= (count_random g).1 < 1.
Proof. simpl. lra. Qed.

Lemma count_randbelow_ok (n g : nat) :
  (0 < n)%nat -> ((count_randbelow n g).1 < n)%nat.
Proof. intros Hn. simpl. apply Nat.mod_upper_bound. lia. Qed.

Lemma sample_protocols_valid_witness :
  exists data g',
    get_sample_protocols_data nat count_random count_randbelow 0%nat
    = (Ok (protocols_frame data), g') /\
    length data = 50%nat /\
    map p_name data = sample_names /\
    map p_symbol data = map (fun i : nat => "PROTO" +:+ pretty i) (seq 1 50) /\
    Forall (fun r =>
      (exists t m, p_tvl r = Fin t /\ p_mcap r = Fin m /\
                   1000000 <= t <= 10000000000 /\ 0.1 * t <= m <= 2 * t) /\
      p_category r ∈ sample_categories /\
      p_primary_chain r ∈ sample_chains /\
      p_chains r = [p_primary_chain r]) data.
Proof.
  apply (sample_protocols_valid nat count_random count_randbelow
           count_random_ok count_randbelow_ok 0%nat).
Defined.

Lemma sample_fees_valid_witness :
  exists data g',
    get_sample_fees_data nat count_random 0%nat = (Ok (fees_frame data), g') /\
    length data = 50%nat /\
    map r_name data = sample_names /\
    map r_symbol data = map (fun i : nat => "PROTO" +:+ pretty i) (seq 1 50) /\
    Forall (fun r =>
      exists d w m,
        r_total24h r = Fin d /\ r_total7d r = Fin w /\ r_total30d r = Fin m /\
        1000 <= d <= 1000000 /\
        0.8 * (7 * d) <= w <= 1.2 * (7 * d) /\
        0.8 * (30 * d) <= m <= 1.2 * (30 * d)) data.
Proof.
  apply (sample_fees_valid nat count_random count_random_ok 0%nat).
Defined.

Lemma sample_merge_complete_witness :
  exists pdata fdata g1' g2',
    get_sample_protocols_data nat count_random count_randbelow 0%nat
    = (Ok (protocols_frame pdata), g1') /\
    get_sample_fees_data nat count_random 7%nat = (Ok (fees_frame fdata), g2') /\
    forall (h : store) (lp lf : loc),
      h !! lp = Some (protocols_frame pdata) ->
      h !! lf = Some (fees_frame fdata) ->
      returns (merge_datasets lp lf) h (fun out h' =>
        exists O,
          h' !! out = Some O /\ nrows O = 50%nat /\
          num_col O "total24h" = Ok (map r_total24h fdata) /\
          num_col O "total7d" = Ok (map r_total7d fdata) /\
          num_col O "total30d" = Ok (map r_total30d fdata) /\
          Forall (at_least 1000) (map r_total24h fdata)).
Proof.
  apply (sample_merge_complete nat count_random count_randbelow
           count_random_ok count_randbelow_ok 0%nat 7%nat).
Defined.

Lemma sample_pipeline_witness :
  exists pdata fdata g1' g2',
    get_sample_protocols_data nat count_random count_randbelow 0%nat
    = (Ok (protocols_frame pdata), g1') /\
    get_sample_fees_data nat count_random 7%nat = (Ok (fees_frame fdata), g2') /\
    forall (h : store) (lp lf : loc),
      h !! lp = Some (protocols_frame pdata) ->
      h !! lf = Some (fees_frame fdata) ->
      returns (pipeline lp lf) h (fun out h' =>
        exists S ps w,
          h' !! out = Some S /\ nrows S = 50%nat /\
          num_col S "ps_ratio" = Ok ps /\
          num_col S "venture_score" = Ok w /\
          forall i : nat, (i < 50)%nat ->
            exists p q, ps !! i = Some (Fin p) /\ 0 < p /\
                        w !! i = Some (Fin q) /\ 0 <= q <= 100).
Proof.
  apply (sample_pipeline nat count_random count_randbelow
           count_random_ok count_randbelow_ok 0%nat 7%nat).
Defined.

(* ================================================================= *)
(** ** [fetch_protocols_data]: the cleaned table *)

Lemma has_col_set c c' v d :
  has_col c' (df_set c v d) = (String.eqb c c' || has_col c' d).
Proof.
  unfold has_col, df_set. cbn [columns]. rewrite lookup_set_col.
  by destruct (String.eqb c c').
Qed.

Lemma add_missing_nrows cols df : nrows (add_missing cols df) = nrows df.
Proof.
  revert df. induction cols as [|c cols IH]; intros df; [done|].
  cbn [add_missing]. rewrite IH. by destruct (has_col c df).
Qed.

Lemma add_missing_lookup cols df c :
  lookup_col c (columns (add_missing cols df))
  = match lookup_col c (columns df) with
    | Some v => Some v
    | None => if bool_decide (c ∈ cols)
              then Some (ObjCol (replicate (nrows df) ONone)) else None
    end.
Proof.
  revert df. induction cols as [|c0 cols IH]; intros df.
  - cbn [add_missing]. by destruct (lookup_col c (columns df)).
  - cbn [add_missing]. rewrite IH. clear IH.
    unfold has_col. destruct (lookup_col c0 (columns df)) as [v0|] eqn:E0.
    + destruct (lookup_col c (columns df)) as [v|] eqn:E; [done|].
      assert (c <> c0) as Hne by (intros ->; congruence).
      destruct (decide (c ∈ cols)) as [Hin|Hin].
      * rewrite !bool_decide_eq_true_2; [done|by right|done].
      * rewrite !bool_decide_eq_false_2; [done| |done].
        by intros [?|?]%elem_of_cons.
    + cbn [df_set columns nrows]. rewrite lookup_set_col.
      destruct (String.eqb c0 c) eqn:Ec.
      * apply String.eqb_eq in Ec. subst c0. rewrite E0.
        by rewrite bool_decide_eq_true_2 by left.
      * apply String.eqb_neq in Ec.
        destruct (lookup_col c (columns df)); [done|].
        destruct (decide (c ∈ cols)) as [Hin|Hin].
        -- rewrite !bool_decide_eq_true_2; [done|by right|done].
        -- rewrite !bool_decide_eq_false_2; [done| |done].
           intros [?|?]%elem_of_cons; [by subst|done].
Qed.

Lemma add_missing_get cols df c :
  c ∈ cols -> get_col (add_missing cols df) c = Ok (col_or_none df c).
Proof.
  intros Hc. unfold get_col, col_or_none. rewrite add_missing_lookup.
  destruct (lookup_col c (columns df)); [done|].
  by rewrite bool_decide_eq_true_2.
Qed.

Lemma col_or_none_len df c : wf df -> col_len (col_or_none df c) = nrows df.
Proof.
  intros Hwf. unfold col_or_none.
  destruct (lookup_col c (columns df)) as [v|] eqn:E.
  - apply (get_col_len df c v Hwf). unfold get_col. by rewrite E.
  - simpl. apply length_replicate.
Qed.

Lemma clean_protocols_run parse_float df :
  clean_protocols parse_float df = Ok (cleaned parse_float df).
Proof.
  unfold clean_protocols, select, protocol_cols. cbn [select_cols].
  rewrite !add_missing_get by (unfold protocol_cols; repeat constructor).
  cbn [rbind]. rewrite add_missing_nrows.
  unfold get_col. cbn [columns lookup_col df_set set_col String.eqb Ascii.eqb Bool.eqb].
  cbn [rbind].
  unfold cleaned, numeric_cells.
  destruct (col_or_none df "tvl"), (col_or_none df "mcap"); reflexivity.
Qed.

Lemma numeric_cells_notna parse_float c :
  Forall (fun x => isna x = false) (numeric_cells parse_float c).
Proof.
  unfold numeric_cells. apply Forall_fmap, Forall_forall. intros x _. simpl.
  by destruct x.
Qed.

Lemma apply_first_chain_text c :
  exists pc, apply_first_chain c = ObjCol pc /\ Forall (fun o => exists s, o = OStr s) pc.
Proof.
  destruct c as [xs|xs]; simpl; eexists; (split; [reflexivity|]);
    apply Forall_fmap, Forall_forall; intros x _; simpl; [by eexists|].
  destruct x as [s| |[|c l]]; by eexists.
Qed.

Lemma col_or_none_missing df c :
  has_col c df = false -> col_or_none df c = ObjCol (replicate (nrows df) ONone).
Proof. unfold has_col, col_or_none. by destruct (lookup_col c (columns df)). Qed.

Lemma col_or_none_get df c v : get_col df c = Ok v -> col_or_none df c = v.
Proof.
  unfold get_col, col_or_none. destruct (lookup_col c (columns df)); [|done].
  by intros [= ->].
Qed.

Lemma map_replicate {A B} (f : A -> B) n x : map f (replicate n x) = replicate n (f x).
Proof. induction n as [|n IH]; simpl; [done|]. by rewrite IH. Qed.

(** X21. The clean-up of a response: [fetch_protocols_data] returns a table
    with the rows of the response and draws nothing from the generator;
    the fields [name], [symbol], [category] and [chains] are kept, or are
    all missing when the response lacks them; [tvl] and [mcap] are numeric
    with 0 for every missing value, hence all 0 when the response lacks
    the field; and [primary_chain] is the first element of [chains] where
    that is a list with an element and ['Unknown'] everywhere else. *)
Theorem fetch_protocols_clean (parse_float : string -> f64) (rng : Type)
    (random : rng -> Q * rng) (randbelow : nat -> rng -> nat * rng)
    (df : DataFrame) (g : rng) :
  exists O tvl mcap pc,
    fetch_protocols_data parse_float rng random randbelow (Ok df) g = (Ok O, g) /\
    nrows O = nrows df /\
    (columns O).*1 = protocol_cols ++ ["primary_chain"] /\
    (forall c, c ∈ ["name"; "symbol"; "category"; "chains"] ->
               get_col O c = Ok (col_or_none df c)) /\
    num_col O "tvl" = Ok tvl /\ num_col O "mcap" = Ok mcap /\
    str_col O "primary_chain" = Ok pc /\
    (forall xs, num_col df "tvl" = Ok xs ->
                tvl = map (fun x => if isna x then Fin 0 else x) xs) /\
    (has_col "tvl" df = false -> tvl = replicate (nrows df) (Fin 0)) /\
    (forall xs, num_col df "mcap" = Ok xs ->
                mcap = map (fun x => if isna x then Fin 0 else x) xs) /\
    (has_col "mcap" df = false -> mcap = replicate (nrows df) (Fin 0)) /\
    (forall xs, get_col df "chains" = Ok (ObjCol xs) -> pc = map first_chain xs) /\
    (has_col "chains" df = false -> pc = replicate (nrows df) (OStr "Unknown")).
Proof.
  destruct (apply_first_chain_text (col_or_none df "chains")) as (pc & Hpc & _).
  exists (cleaned parse_float df),
         (numeric_cells parse_float (col_or_none df "tvl")),
         (numeric_cells parse_float (col_or_none df "mcap")), pc.
  split.
  { unfold fetch_protocols_data. cbn [rbind]. by rewrite clean_protocols_run. }
  split; [done|]. split; [done|]. split.
  { intros c Hc.
    repeat (apply elem_of_cons in Hc as [->|Hc]; [reflexivity|]).
    by apply elem_of_nil in Hc. }
  split; [done|]. split; [done|].
  split; [unfold str_col, get_col, cleaned; simpl; by rewrite Hpc|].
  split.
  { intros xs Hxs. by rewrite (col_or_none_get _ _ _ (num_col_get _ _ _ Hxs)). }
  split.
  { intros Hno. rewrite (col_or_none_missing _ _ Hno). unfold numeric_cells.
    by rewrite !map_replicate. }
  split.
  { intros xs Hxs. by rewrite (col_or_none_get _ _ _ (num_col_get _ _ _ Hxs)). }
  split.
  { intros Hno. rewrite (col_or_none_missing _ _ Hno). unfold numeric_cells.
    by rewrite !map_replicate. }
  split.
  { intros xs Hxs. rewrite (col_or_none_get _ _ _ Hxs) in Hpc. simpl in Hpc.
    by injection Hpc as <-. }
  intros Hno. rewrite (col_or_none_missing _ _ Hno) in Hpc. simpl in Hpc.
  injection Hpc as <-. apply (map_replicate first_chain).
Qed.

Section FetchSchema.
Variable parse_float : string -> f64.
Variable rng : Type.
Variable random : rng -> Q * rng.
Variable randbelow : nat -> rng -> nat * rng.
Hypothesis Hrandom : forall g, 0 <= (random g).1 < 1.
Hypothesis Hbelow : forall n g, (0 < n)%nat -> ((randbelow n g).1 < n)%nat.

(** X22. [fetch_protocols_data] never raises: whatever the outcome of the
    request, it returns a table with the fields [name], [symbol], [tvl],
    [mcap], [category], [chains] and [primary_chain], in this order, in
    which no [tvl] or [mcap] is missing and every primary chain is a
    text. *)
Theorem fetch_protocols_schema (response : result DataFrame) (g : rng) :
  exists O g' tvl mcap pc,
    fetch_protocols_data parse_float rng random randbelow response g = (Ok O, g') /\
    (columns O).*1 = protocol_cols ++ ["primary_chain"] /\
    num_col O "tvl" = Ok tvl /\ num_col O "mcap" = Ok mcap /\
    str_col O "primary_chain" = Ok pc /\
    Forall (fun x => isna x = false) tvl /\
    Forall (fun x => isna x = false) mcap /\
    Forall (fun o => exists s, o = OStr s) pc.
Proof.
  destruct response as [df|e].
  - destruct (apply_first_chain_text (col_or_none df "chains")) as (pc & Hpc & Htext).
    exists (cleaned parse_float df), g,
           (numeric_cells parse_float (col_or_none df "tvl")),
           (numeric_cells parse_float (col_or_none df "mcap")), pc.
    split.
    { unfold fetch_protocols_data. cbn [rbind]. by rewrite clean_protocols_run. }
    split; [done|]. split; [done|]. split; [done|].
    split; [unfold str_col, get_col, cleaned; simpl; by rewrite Hpc|].
    split; [apply numeric_cells_notna|]. split; [apply numeric_cells_notna|done].
  - destruct (sample_protocols_run rng random randbelow Hrandom Hbelow g)
      as (data & g' & Hrun & HF).
    exists (protocols_frame data), g', (map p_tvl data), (map p_mcap data),
           (map (fun r => OStr (p_primary_chain r)) data).
    split; [done|]. split; [done|]. split; [done|]. split; [done|].
    split; [done|].
    split; [|split].
    + apply Forall_fmap. eapply Forall2_Forall_r; [exact HF|].
      intros name r (_ & _ & (t & m & Et & _) & _). simpl. by rewrite Et.
    + apply Forall_fmap. eapply Forall2_Forall_r; [exact HF|].
      intros name r (_ & _ & (t & m & _ & Em & _) & _). simpl. by rewrite Em.
    + apply Forall_fmap, Forall_forall. intros r _. simpl. by eexists.
Qed.

End FetchSchema.

Lemma fetch_protocols_schema_witness :
  exists O g' tvl mcap pc,
    fetch_protocols_data (fun _ => NaN) nat count_random count_randbelow
      (Ok sample_nosym) 0%nat = (Ok O, g') /\
    (columns O).*1 = protocol_cols ++ ["primary_chain"] /\
    num_col O "tvl" = Ok tvl /\ num_col O "mcap" = Ok mcap /\
    str_col O "primary_chain" = Ok pc /\
    Forall (fun x => isna x = false) tvl /\
    Forall (fun x => isna x = false) mcap /\
    Forall (fun o => exists s, o = OStr s) pc.
Proof.
  apply (fetch_protocols_schema (fun _ => NaN) nat count_random count_randbelow
           count_random_ok count_randbelow_ok (Ok sample_nosym) 0%nat).
Defined.

(* ================================================================= *)
(** ** [fetch_fees_data] *)

Lemma revenue_cells_notna parse_float field protocols :
  Forall (fun x => isna x = false) (revenue_cells parse_float field protocols).
Proof.
  apply Forall_fmap, Forall_forall. intros p _. simpl.
  by destruct (numeric_of parse_float (default (JInt 0) (field p))).
Qed.

Section FetchFeesSchema.
Variable parse_float : string -> f64.
Variable rng : Type.
Variable random : rng -> Q * rng.
Hypothesis Hrandom : forall g, 0 <= (random g).1 < 1.

(** X23. [fetch_fees_data] never raises: whatever the outcome of the
    request, it returns a table with the fields [name], [symbol],
    [total24h], [total7d] and [total30d], in this order, whose name and
    symbol are object columns and whose three revenue columns are numeric
    without a missing value.  A response with at least one entry and no
    integer too large for a [float64] in a revenue field gives one row per
    entry and draws nothing from the generator; a failed request, a body
    without [protocols], an empty [protocols] array and a response with
    such an integer all give the 50 rows of the sample data. *)
Theorem fetch_fees_schema (response : result (option (list fee_json))) (g : rng) :
  exists O g' rn rs v24 v7 v30,
    fetch_fees_data parse_float rng random response g = (Ok O, g') /\
    (columns O).*1 = ["name"; "symbol"; "total24h"; "total7d"; "total30d"] /\
    wf O /\
    str_col O "name" = Ok rn /\ str_col O "symbol" = Ok rs /\
    num_col O "total24h" = Ok v24 /\ num_col O "total7d" = Ok v7 /\
    num_col O "total30d" = Ok v30 /\
    Forall (fun x => isna x = false) v24 /\
    Forall (fun x => isna x = false) v7 /\
    Forall (fun x => isna x = false) v30 /\
    match response with
    | Ok (Some (p :: ps)) =>
        if overflows (p :: ps)
        then nrows O = 50%nat /\ rn = map OStr sample_names
        else nrows O = length (p :: ps) /\ g' = g
    | _ => nrows O = 50%nat /\ rn = map OStr sample_names
    end.
Proof.
  assert (exists O g' rn rs v24 v7 v30,
            get_sample_fees_data rng random g = (Ok O, g') /\
            (columns O).*1 = ["name"; "symbol"; "total24h"; "total7d"; "total30d"] /\
            wf O /\
            str_col O "name" = Ok rn /\ str_col O "symbol" = Ok rs /\
            num_col O "total24h" = Ok v24 /\ num_col O "total7d" = Ok v7 /\
            num_col O "total30d" = Ok v30 /\
            Forall (fun x => isna x = false) v24 /\
            Forall (fun x => isna x = false) v7 /\
            Forall (fun x => isna x = false) v30 /\
            nrows O = 50%nat /\ rn = map OStr sample_names) as Hsample.
  { destruct (sample_fees_run rng random Hrandom g) as (data & g' & Hrun & HF).
    destruct (fees_ok_finite data HF) as (Hrn & F24 & F7 & F30).
    exists (fees_frame data), g', (map (fun r => OStr (r_name r)) data),
           (map (fun r => OStr (r_symbol r)) data),
           (map r_total24h data), (map r_total7d data), (map r_total30d data).
    split; [done|]. split; [done|]. split; [apply fees_frame_wf|].
    do 5 (split; [done|]).
    do 3 (split; [by apply Fin_notna|]).
    split.
    - simpl. by rewrite <- (Forall2_length _ _ _ HF).
    - by rewrite <- Hrn, map_map. }
  destruct response as [[[|p ps]|]|e]; try exact Hsample.
  unfold fetch_fees_data, fees_table. cbn [rbind].
  destruct (overflows (p :: ps)); [exact Hsample|].
  eexists _, g, _, _, _, _, _.
  split; [reflexivity|]. split; [done|].
  split; [unfold wf; cbn [columns nrows]; repeat constructor; cbn [snd col_len];
          unfold text_cells, revenue_cells; by rewrite length_map|].
  do 5 (split; [reflexivity|]).
  do 3 (split; [apply revenue_cells_notna|]).
  done.
Qed.

End FetchFeesSchema.

(** A response of two entries gives a table of two rows; a response with
    the integer [10^400] gives the sample data. *)
Lemma fetch_fees_schema_witness :
  (exists O g' rn rs v24 v7 v30,
     fetch_fees_data (fun _ => NaN) nat count_random (Ok (Some sample_entries)) 0%nat
     = (Ok O, g') /\
     (columns O).*1 = ["name"; "symbol"; "total24h"; "total7d"; "total30d"] /\
     wf O /\
     str_col O "name" = Ok rn /\ str_col O "symbol" = Ok rs /\
     num_col O "total24h" = Ok v24 /\ num_col O "total7d" = Ok v7 /\
     num_col O "total30d" = Ok v30 /\
     Forall (fun x => isna x = false) v24 /\
     Forall (fun x => isna x = false) v7 /\
     Forall (fun x => isna x = false) v30 /\
     nrows O = 2%nat /\ g' = 0%nat) /\
  (exists O g' rn rs v24 v7 v30,
     fetch_fees_data (fun _ => NaN) nat count_random (Ok (Some huge_entries)) 0%nat
     = (Ok O, g') /\
     (columns O).*1 = ["name"; "symbol"; "total24h"; "total7d"; "total30d"] /\
     wf O /\
     str_col O "name" = Ok rn /\ str_col O "symbol" = Ok rs /\
     num_col O "total24h" = Ok v24 /\ num_col O "total7d" = Ok v7 /\
     num_col O "total30d" = Ok v30 /\
     Forall (fun x => isna x = false) v24 /\
     Forall (fun x => isna x = false) v7 /\
     Forall (fun x => isna x = false) v30 /\
     nrows O = 50%nat /\ rn = map OStr sample_names).
Proof.
  split.
  - apply (fetch_fees_schema (fun _ => NaN) nat count_random count_random_ok
             (Ok (Some sample_entries)) 0%nat).
  - apply (fetch_fees_schema (fun _ => NaN) nat count_random count_random_ok
             (Ok (Some huge_entries)) 0%nat).
Defined.

(* ================================================================= *)
(** ** The score is monotone in its three signals *)

Lemma rint_range q : (Qfloor q <= rint q <= Qfloor q + 1)%Z.
Proof.
  unfold rint. destruct (Qcompare _ _); [destruct (Z.even _)| |]; lia.
Qed.

Lemma rint_mono q1 q2 : q1 <= q2 -> (rint q1 <= rint q2)%Z.
Proof.
  intros H. pose proof (Qfloor_resp_le _ _ H) as Hf.
  pose proof (rint_range q1) as R1. pose proof (rint_range q2) as R2.
  destruct (decide (Qfloor q1 = Qfloor q2)) as [E|E]; [|lia].
  clear R1 R2 Hf. unfold rint. rewrite <- E.
  set (f := Qfloor q1).
  destruct (Qcompare (q1 - inject_Z f) (1 # 2)) eqn:C1;
    destruct (Qcompare (q2 - inject_Z f) (1 # 2)) eqn:C2;
    first [apply Qeq_alt in C1 | apply Qlt_alt in C1 | apply Qgt_alt in C1];
    first [apply Qeq_alt in C2 | apply Qlt_alt in C2 | apply Qgt_alt in C2];
    try (destruct (Z.even f));
    first [lia | exfalso; lra].
Qed.

Lemma clipq_mono lo hi q1 q2 :
  lo <= hi -> q1 <= q2 ->
  (if Qltb q1 lo then lo else if Qltb hi q1 then hi else q1)
  <= (if Qltb q2 lo then lo else if Qltb hi q2 then hi else q2).
Proof.
  intros Hlh H.
  repeat match goal with
  | |- context [Qltb ?a ?b] =>
      let E := fresh "E" in
      destruct (Qltb a b) eqn:E; [apply Qltb_lt in E | apply Qltb_ge in E]
  end; lra.
Qed.

Lemma row_score_mono u1 t1 r1 u2 t2 r2 :
  u1 <= u2 -> t1 <= t2 -> r1 <= r2 ->
  exists w1 w2,
    row_score (Fin u1) (Fin t1) (Fin r1) = Fin w1 /\
    row_score (Fin u2) (Fin t2) (Fin r2) = Fin w2 /\ w1 <= w2.
Proof.
  intros Hu Ht Hr. unfold row_score. cbv zeta.
  cbn [clip add]. 
  pose proof (clipq_mono (-100) 200 u1 u2) as Cu.
  pose proof (clipq_mono (-50) 50 t1 t2) as Ct.
  pose proof (clipq_mono 0 10 r1 r2) as Cr.
  set (cu1 := if Qltb u1 (-100) then _ else _) in *.
  set (cu2 := if Qltb u2 (-100) then _ else _) in *.
  set (ct1 := if Qltb t1 (-50) then _ else _) in *.
  set (ct2 := if Qltb t2 (-50) then _ else _) in *.
  set (cr1 := if Qltb r1 0 then _ else _) in *.
  set (cr2 := if Qltb r2 0 then _ else _) in *.
  rewrite !div_Fin_pos by lra. cbn [mul add round1 clip].
  eexists _, _. split; [reflexivity|]. split; [reflexivity|].
  apply clipq_mono; [lra|].
  assert (forall a b : Z, (a <= b)%Z -> inject_Z a / 10 <= inject_Z b / 10) as Hz.
  { intros a b Hab. rewrite Zle_Qle in Hab. qlra. }
  apply Hz, rint_mono.
  unfold VALUATION_GAP_WEIGHT, REVENUE_TREND_WEIGHT, SIZE_EFFICIENCY_WEIGHT.
  specialize (Cu ltac:(lra) Hu). specialize (Ct ltac:(lra) Ht).
  specialize (Cr ltac:(lra) Hr). qlra.
Qed.

Lemma score_row (up tr ratio : list f64) (i : nat) u t r :
  up !! i = Some u -> tr !! i = Some t -> ratio !! i = Some r ->
  map (clip 0 100)
      (map round1 (score_sum (valuation_score up) (trend_score tr)
                             (efficiency_score ratio))) !! i
  = Some (row_score u t r).
Proof.
  intros Hu Ht Hr. rewrite !list_lookup_fmap. unfold score_sum.
  rewrite (zip_with_lookup add _ _ i _ _
             (zip_with_lookup add _ _ i _ _ (valuation_score_row _ _ _ Hu)
                                            (trend_score_row _ _ _ Ht))
             (efficiency_score_row _ _ _ Hr)).
  reflexivity.
Qed.

(** X24. The venture score respects the three signals: in the table
    [calculate_venture_score] returns, if a row is not above another row
    in upside, in revenue trend and in the ratio of locked value to market
    cap (all finite), then its venture score is not above the other
    row's. *)
Theorem score_monotone (h : store) (l : loc) (d : DataFrame)
    (up t7 t24 mc tv : list f64) :
  h !! l = Some d -> wf d ->
  num_col d "upside_potential" = Ok up -> num_col d "total7d" = Ok t7 ->
  num_col d "total24h" = Ok t24 -> num_col d "mcap" = Ok mc ->
  num_col d "tvl" = Ok tv ->
  returns (calculate_venture_score l) h (fun out h' =>
    exists S tr ratio w,
      h' !! out = Some S /\
      num_col S "upside_potential" = Ok up /\
      num_col S "revenue_trend" = Ok tr /\
      num_col S "tvl_mcap_ratio" = Ok ratio /\
      num_col S "venture_score" = Ok w /\
      forall (i j : nat) ui uj ti tj ri rj,
        up !! i = Some (Fin ui) -> up !! j = Some (Fin uj) ->
        tr !! i = Some (Fin ti) -> tr !! j = Some (Fin tj) ->
        ratio !! i = Some (Fin ri) -> ratio !! j = Some (Fin rj) ->
        ui <= uj -> ti <= tj -> ri <= rj ->
        exists wi wj, w !! i = Some (Fin wi) /\ w !! j = Some (Fin wj) /\ wi <= wj).
Proof.
  intros Hl Hwf Hup H7 H24 Hmc Htv.
  exists (length h), (h ++ [score_table d up t7 t24 mc tv]).
  split; [by apply calculate_venture_score_run|].
  eexists _, _, _, _. split; [apply top_lookup|].
  unfold score_table.
  split; [col|]. split; [col|]. split; [col|]. split; [col|].
  intros i j ui uj ti tj ri rj Hui Huj Hti Htj Hri Hrj Hu Ht Hr.
  destruct (row_score_mono ui ti ri uj tj rj Hu Ht Hr) as (wi & wj & Hwi & Hwj & Hle).
  exists wi, wj. rewrite <- Hwi, <- Hwj.
  split; [by apply score_row|]. split; [by apply score_row|done].
Qed.

Lemma score_monotone_witness :
  returns (calculate_venture_score 0%nat) [sample_metrics] (fun out h' =>
    exists S tr ratio w,
      h' !! out = Some S /\
      num_col S "upside_potential" = Ok s_upside /\
      num_col S "revenue_trend" = Ok tr /\
      num_col S "tvl_mcap_ratio" = Ok ratio /\
      num_col S "venture_score" = Ok w /\
      forall (i j : nat) ui uj ti tj ri rj,
        s_upside !! i = Some (Fin ui) -> s_upside !! j = Some (Fin uj) ->
        tr !! i = Some (Fin ti) -> tr !! j = Some (Fin tj) ->
        ratio !! i = Some (Fin ri) -> ratio !! j = Some (Fin rj) ->
        ui <= uj -> ti <= tj -> ri <= rj ->
        exists wi wj, w !! i = Some (Fin wi) /\ w !! j = Some (Fin wj) /\ wi <= wj).
Proof.
  apply (score_monotone [sample_metrics] 0%nat sample_metrics
           s_upside s_total7d s_total24h s_mcap s_tvl);
    first [reflexivity | apply sample_metrics_wf].
Defined.

(* ================================================================= *)
(** ** The top pick *)

Lemma gather_lookup {A} (idxs : list nat) (xs : list A) (k : nat) :
  Forall (fun i => (i < length xs)%nat) idxs ->
  gather idxs xs !! k = idxs !! k ≫= (fun i => xs !! i).
Proof.
  unfold gather. intros HF. revert k.
  induction HF as [|i idxs Hi _ IH]; intros k; [done|].
  cbn [omap list_omap]. destruct (lookup_lt_is_Some_2 xs i Hi) as [x Hx].
  rewrite Hx. destruct k as [|k]; simpl; [by rewrite Hx|]. apply IH.
Qed.

Lemma gather_length_all {A} (idxs : list nat) (xs : list A) :
  Forall (fun i => (i < length xs)%nat) idxs -> length (gather idxs xs) = length idxs.
Proof.
  unfold gather. induction 1 as [|i idxs Hi _ IH]; [done|].
  cbn [omap list_omap]. destruct (lookup_lt_is_Some_2 xs i Hi) as [x Hx].
  rewrite Hx. simpl. by rewrite IH.
Qed.

Lemma pick_mask_lookup (up ar vs : list f64) (i : nat) :
  zip_with andb
    (zip_with andb (map (fun x => gtb x (Fin 0)) up)
                   (map (fun x => gtb x (Fin 100000)) ar))
    (map (fun x => gtb x (Fin 50)) vs) !! i = Some true
  <-> valid_pick up ar vs i.
Proof.
  unfold valid_pick. rewrite !lookup_zip_with, !list_lookup_fmap.
  destruct (up !! i) as [u|]; simpl.
  2:{ split; [done|]. by intros (? & ? & ? & ? & _). }
  destruct (ar !! i) as [a|]; simpl.
  2:{ split; [done|]. by intros (? & ? & ? & _ & ? & _). }
  destruct (vs !! i) as [s|]; simpl.
  2:{ split; [done|]. by intros (? & ? & ? & _ & _ & ? & _). }
  split.
  - intros [= H]. apply andb_prop in H as [H Hs]. apply andb_prop in H as [Hu Ha].
    by exists u, a, s.
  - intros (u' & a' & s' & [= <-] & [= <-] & [= <-] & -> & -> & ->). done.
Qed.

Lemma gtb_notna x y : gtb x y = true -> isna x = false.
Proof. by destruct x, y. Qed.

Lemma leb_refl x : isna x = false -> leb x x = true.
Proof.
  destruct x as [q| | |]; try done. intros _. unfold leb. simpl.
  unfold Qltb. by rewrite (proj1 (Qeq_alt q q) (Qeq_refl q)).
Qed.

Section TopPickTheory.
Variable argsort_desc : list f64 -> list nat.
Hypothesis Hsort : sorts_desc argsort_desc.

(** X25. The "Top Undervalued Pick": when no row has a positive upside, an
    annualised revenue above 100000 and a venture score above 50, the
    figure is ["N/A"]; otherwise it is the name of a row that has all
    three and whose venture score is not below that of any other such row
    (which of several rows with the highest score is named depends on the
    sorting routine). *)
Theorem top_pick_is_best (h : store) (l : loc) (d : DataFrame)
    (up ar vs : list f64) (names : list obj) :
  h !! l = Some d -> wf d ->
  num_col d "upside_potential" = Ok up ->
  num_col d "annualized_revenue" = Ok ar ->
  num_col d "venture_score" = Ok vs ->
  get_col d "name" = Ok (ObjCol names) ->
  returns (kpi_top_pick argsort_desc l) h (fun r _ =>
    (r = CObj (OStr "N/A") /\ forall i, ~ valid_pick up ar vs i) \/
    (exists (i : nat) nm x,
       r = CObj nm /\ names !! i = Some nm /\ vs !! i = Some x /\
       valid_pick up ar vs i /\
       forall (j : nat) y, valid_pick up ar vs j -> vs !! j = Some y ->
                           leb y x = true)).
Proof.
  intros Hl Hwf Hup Har Hvs Hnm.
  pose proof (num_col_len _ _ _ Hwf Hup) as Lup.
  pose proof (num_col_len _ _ _ Hwf Har) as Lar.
  pose proof (num_col_len _ _ _ Hwf Hvs) as Lvs.
  pose proof (get_col_len _ _ _ Hwf Hnm) as Lnm. simpl in Lnm.
  set (mask := zip_with andb
                 (zip_with andb (map (fun x => gtb x (Fin 0)) up)
                                (map (fun x => gtb x (Fin 100000)) ar))
                 (map (fun x => gtb x (Fin 50)) vs)).
  assert (length mask = nrows d) as Lm.
  { unfold mask. rewrite !length_zip_with, !length_map. lia. }
  set (idx := indices_of mask).
  assert (Forall (fun i => (i < nrows d)%nat) idx) as Hidx.
  { rewrite <- Lm. apply indices_of_bound. }
  set (keys := gather idx vs).
  assert (length keys = length idx) as Lk.
  { apply gather_length_all. by rewrite Lvs. }
  assert (forall k : nat, keys !! k = idx !! k ≫= (fun i => vs !! i)) as Hkeys.
  { intros k. apply gather_lookup. by rewrite Lvs. }
  assert (Forall (fun x => isna x = false) keys) as Hna.
  { apply Forall_lookup_2. intros k x Hx. rewrite Hkeys in Hx.
    destruct (idx !! k) as [i|] eqn:Ei; [|done]. simpl in Hx.
    assert (valid_pick up ar vs i) as (u & a & s & _ & _ & Hs & _ & _ & Hg).
    { apply pick_mask_lookup, elem_of_indices_of. by eapply list_elem_of_lookup_2. }
    rewrite Hx in Hs. injection Hs as <-. by eapply gtb_notna. }
  destruct (Hsort keys Hna) as [Hperm Hsorted].
  set (p := argsort_desc keys) in *.
  assert (kpi_top_pick argsort_desc l h
          = (if (0 <? length p)%nat
             then lift (iloc0 (take_rows p (filter_rows mask d)) "name")
             else mret (CObj (OStr "N/A"))) h) as Hrun.
  { unfold kpi_top_pick.
    erewrite bind_run; [|by eapply getnum_run].
    erewrite bind_run; [|by eapply getnum_run].
    erewrite bind_run; [|by eapply getnum_run].
    erewrite bind_run; [|by apply read_run].
    fold mask.
    erewrite bind_run;
      [|apply lift_run; unfold sort_values_desc;
        rewrite (num_col_filter_rows _ _ _ _ Hvs); reflexivity].
    reflexivity. }
  destruct p as [|p0 rest] eqn:Ep.
  - (* no valid row *)
    exists (CObj (OStr "N/A")), h. split; [by rewrite Hrun|]. left.
    split; [done|]. intros i Hi.
    apply pick_mask_lookup, elem_of_indices_of in Hi. change (i ∈ idx) in Hi.
    apply Permutation_length in Hperm. rewrite length_seq, Lk in Hperm.
    simpl in Hperm. symmetry in Hperm. apply nil_length_inv in Hperm.
    rewrite Hperm in Hi. by apply elem_of_nil in Hi.
  - (* the first row of the sorted table *)
    assert (p0 ∈ seq 0 (length keys)) as Hp0.
    { rewrite <- Hperm. left. }
    apply elem_of_seq in Hp0. rewrite Lk in Hp0.
    destruct (lookup_lt_is_Some_2 idx p0) as [i0 Hi0]; [lia|].
    assert (i0 < nrows d)%nat as Hi0d.
    { rewrite Forall_forall in Hidx. apply Hidx. by eapply list_elem_of_lookup_2. }
    destruct (lookup_lt_is_Some_2 names i0) as [nm Hnm0]; [lia|].
    destruct (lookup_lt_is_Some_2 vs i0) as [x Hx0]; [lia|].
    assert (valid_pick up ar vs i0) as Hvalid.
    { apply pick_mask_lookup, elem_of_indices_of. by eapply list_elem_of_lookup_2. }
    assert (keys !! p0 = Some x) as Hkp0 by (by rewrite Hkeys, Hi0).
    exists (CObj nm), h. split.
    + rewrite Hrun. cbn [length Nat.ltb Nat.leb]. apply lift_run.
      unfold iloc0, filter_rows.
      rewrite (get_col_take_rows _ _ _ _ (get_col_take_rows _ _ _ _ Hnm)).
      cbn [rbind gather_col cell_at]. fold idx.
      unfold gather at 1. cbn [omap list_omap].
      rewrite (gather_lookup idx names p0) by (by rewrite Lnm).
      rewrite Hi0. simpl. rewrite Hnm0. reflexivity.
    + right. exists i0, nm, x. do 4 (split; [done|]).
      intros j y Hj Hy.
      apply pick_mask_lookup, elem_of_indices_of in Hj. change (j ∈ idx) in Hj.
      apply list_elem_of_lookup_1 in Hj as [k Hk].
      assert (keys !! k = Some y) as Hkk by (by rewrite Hkeys, Hk).
      assert (k ∈ p0 :: rest) as Hin.
      { rewrite Hperm. apply elem_of_seq. apply lookup_lt_Some in Hkk. lia. }
      apply elem_of_cons in Hin as [->|Hin].
      * rewrite Hkp0 in Hkk. injection Hkk as <-.
        apply leb_refl. rewrite Forall_forall in Hna. apply Hna.
        by eapply list_elem_of_lookup_2.
      * apply StronglySorted_inv in Hsorted as [_ Hall].
        rewrite Forall_forall in Hall.
        destruct (Hall k Hin) as (x' & y' & Hx' & Hy' & Hle).
        rewrite Hkp0 in Hx'. rewrite Hkk in Hy'.
        injection Hx' as <-. injection Hy' as <-. done.
Qed.

End TopPickTheory.

(* ================================================================= *)
(** ** A sorting routine that fits *)

Lemma ltb_leb x y : ltb x y = true -> leb x y = true.
Proof.
  unfold leb. destruct x as [a| | |], y as [b| | |]; simpl; try done.
  intros H%Qltb_lt. apply negb_true_iff, Qltb_ge. lra.
Qed.

Lemma leb_trans x y z :
  isna x = false -> isna y = false -> isna z = false ->
  leb z y = true -> leb y x = true -> leb z x = true.
Proof.
  unfold leb.
  destruct x as [a| | |], y as [b| | |], z as [c| | |]; simpl; try done.
  intros _ _ _ H1%negb_true_iff%Qltb_ge H2%negb_true_iff%Qltb_ge.
  apply negb_true_iff, Qltb_ge. lra.
Qed.

Section InsertionSort.
Variable keys : list f64.
Hypothesis Hna : Forall (fun x => isna x = false) keys.

Let R (i j : nat) : Prop :=
  exists x y, keys !! i = Some x /\ keys !! j = Some y /\ leb y x = true.

Lemma insert_desc_perm i p : Permutation (insert_desc keys i p) (i :: p).
Proof.
  induction p as [|j p IH]; simpl; [done|].
  destruct (leb _ _); [done|]. rewrite IH. apply perm_swap.
Qed.

Lemma key_notna (i : nat) x : keys !! i = Some x -> isna x = false.
Proof.
  intros H. rewrite Forall_forall in Hna. apply Hna.
  by eapply list_elem_of_lookup_2.
Qed.

Lemma insert_desc_sorted i p :
  (i < length keys)%nat -> Forall (fun j => (j < length keys)%nat) p ->
  StronglySorted R p -> StronglySorted R (insert_desc keys i p).
Proof.
  intros Hi Hp Hs. destruct (lookup_lt_is_Some_2 keys i Hi) as [x Hx].
  induction Hs as [|j p Hs IH Hall]; simpl.
  - repeat constructor.
  - apply Forall_cons in Hp as [Hj Hp].
    destruct (lookup_lt_is_Some_2 keys j Hj) as [y Hy].
    rewrite Hx, Hy. simpl.
    destruct (leb y x) eqn:E.
    + constructor; [by constructor|].
      constructor; [by exists x, y|].
      eapply Forall_impl; [exact Hall|]. simpl.
      intros k (y' & z & Hy' & Hz & Hle). rewrite Hy in Hy'. injection Hy' as <-.
      exists x, z. split; [done|]. split; [done|].
      eapply (leb_trans x y z); eauto using key_notna.
    + constructor; [by apply IH|].
      rewrite insert_desc_perm. constructor; [|done].
      exists y, x. split; [done|]. split; [done|].
      apply ltb_leb. unfold leb in E. by apply negb_false_iff in E.
Qed.

Lemma foldr_insert_desc (l : list nat) :
  Forall (fun j => (j < length keys)%nat) l ->
  Permutation (foldr (insert_desc keys) [] l) l /\
  StronglySorted R (foldr (insert_desc keys) [] l).
Proof.
  induction 1 as [|i l Hi Hl [IHp IHs]]; simpl; [split; constructor|].
  split.
  - by rewrite insert_desc_perm, IHp.
  - apply insert_desc_sorted; [done| |done]. by rewrite IHp.
Qed.

End InsertionSort.

Lemma insertion_argsort_sorts : sorts_desc insertion_argsort_desc.
Proof.
  intros keys Hna. unfold insertion_argsort_desc.
  apply (foldr_insert_desc keys Hna).
  apply Forall_forall. intros j Hj%elem_of_seq. lia.
Qed.

Lemma sample_scored_wf : wf sample_scored.
Proof. repeat constructor. Qed.

Lemma pick_scored_wf : wf pick_scored.
Proof. repeat constructor. Qed.

(** On the sample no row qualifies and the figure is ["N/A"]; on the table
    with two qualifying rows the pick is Beta, the one with the higher
    score (88.9 against 85.0). *)
Lemma top_pick_is_best_witness :
  returns (kpi_top_pick insertion_argsort_desc 0%nat) [sample_scored] (fun r _ =>
    r = CObj (OStr "N/A") /\ forall i, ~ valid_pick s_upside s_annualized s_score i) /\
  returns (kpi_top_pick insertion_argsort_desc 0%nat) [pick_scored] (fun r _ =>
    r = CObj (OStr "Beta") /\
    exists (i : nat) nm x,
      r = CObj nm /\ p_names !! i = Some nm /\ p_score !! i = Some x /\
      valid_pick p_upside p_annualized p_score i /\
      forall (j : nat) y, valid_pick p_upside p_annualized p_score j ->
                          p_score !! j = Some y -> leb y x = true).
Proof.
  split.
  - destruct (top_pick_is_best insertion_argsort_desc insertion_argsort_sorts
                [sample_scored] 0%nat sample_scored s_upside s_annualized s_score
                s_name eq_refl sample_scored_wf eq_refl eq_refl eq_refl eq_refl)
      as (r & h' & Hrun & [Hna|(i & nm & x & -> & Hnm & _)]).
    + by exists r, h'.
    + exfalso. vm_compute in Hrun. injection Hrun as <- _.
      by destruct i as [|[|[|[|[|i]]]]].
  - destruct (top_pick_is_best insertion_argsort_desc insertion_argsort_sorts
                [pick_scored] 0%nat pick_scored p_upside p_annualized p_score
                p_names eq_refl pick_scored_wf eq_refl eq_refl eq_refl eq_refl)
      as (r & h' & Hrun & [[-> _]|Hpick]).
    + exfalso. vm_compute in Hrun. by injection Hrun.
    + exists r, h'. split; [exact Hrun|]. split; [|exact Hpick].
      vm_compute in Hrun. by injection Hrun as <- _.
Defined.

(* ================================================================= *)
(** ** From the two requests to the scored table *)

Lemma col_or_none_text df c :
  text_or_absent df c ->
  exists xs, col_or_none df c = ObjCol xs /\
             Forall (fun o => forall l, o <> OList l) xs.
Proof.
  intros H. unfold col_or_none. destruct (lookup_col c (columns df)) as [v|] eqn:E.
  - apply H. unfold get_col. by rewrite E.
  - eexists. split; [done|]. apply Forall_forall. intros o Ho l.
    apply elem_of_replicate in Ho as [-> _]. done.
Qed.

Lemma numeric_cells_finite parse_float df c :
  number_or_absent df c ->
  Forall finite (numeric_cells parse_float (col_or_none df c)).
Proof.
  intros H. unfold col_or_none, numeric_cells.
  destruct (lookup_col c (columns df)) as [v|] eqn:E.
  - destruct (H v) as (xs & -> & Hinf); [unfold get_col; by rewrite E|].
    apply Forall_fmap. eapply Forall_impl; [exact Hinf|].
    intros [q| | |]; simpl; try done; intros _; by eexists.
  - apply Forall_fmap, Forall_fmap, Forall_forall. intros o Ho.
    apply elem_of_replicate in Ho as [-> _]. simpl. by eexists.
Qed.

Lemma numeric_cells_length parse_float c :
  length (numeric_cells parse_float c) = col_len c.
Proof. unfold numeric_cells. destruct c; simpl; by rewrite !length_map. Qed.

Lemma apply_first_chain_len c : col_len (apply_first_chain c) = col_len c.
Proof. destruct c; simpl; by rewrite length_map. Qed.

Lemma cleaned_wf parse_float df : wf df -> wf (cleaned parse_float df).
Proof.
  intros Hwf. unfold wf, cleaned. cbn [columns nrows].
  repeat constructor; cbn [snd col_len];
    rewrite ?numeric_cells_length, ?apply_first_chain_len;
    by apply col_or_none_len.
Qed.

Lemma cleaned_no_revenue parse_float df : no_revenue_cols (cleaned parse_float df).
Proof.
  repeat constructor; simpl; intros H;
    repeat (apply elem_of_cons in H as [H|H]; [discriminate|]);
    by apply elem_of_nil in H.
Qed.

Lemma revenue_cells_finite parse_float field protocols :
  Forall (fun p => revenue_value_ok (field p)) protocols ->
  Forall finite (revenue_cells parse_float field protocols).
Proof.
  intros H. apply Forall_fmap. eapply Forall_impl; [exact H|].
  intros p Hp. simpl in *. destruct (field p) as [[n|x|s| |]|]; simpl in *; try done;
    try (by eexists).
  destruct x; simpl in *; try done; by eexists.
Qed.

Lemma revenue_value_fits v :
  revenue_value_ok v -> too_large (default (JInt 0) v) = false.
Proof. by destruct v as [[n|x|s| |]|]. Qed.

Lemma shape_no_overflow protocols :
  Forall fee_entry_shape protocols -> overflows protocols = false.
Proof.
  induction 1 as [|p ps (_ & _ & H24 & H7 & H30) _ IH]; [done|].
  change (overflows (p :: ps))
    with (existsb too_large (revenue_values p) || overflows ps).
  rewrite IH. unfold revenue_values. cbn [existsb].
  by rewrite (revenue_value_fits _ H24), (revenue_value_fits _ H7),
             (revenue_value_fits _ H30).
Qed.

Section MainTheory.
Variable parse_float : string -> f64.
Variable rng : Type.
Variable random : rng -> Q * rng.
Variable randbelow : nat -> rng -> nat * rng.
Hypothesis Hrandom : forall g, 0 <= (random g).1 < 1.
Hypothesis Hbelow : forall n g, (0 < n)%nat -> ((randbelow n g).1 < n)%nat.

Lemma protocols_facts (presponse : result DataFrame) (g : rng) :
  (forall df, presponse = Ok df -> protocols_shape df) ->
  exists P g1 pn psym mc tv,
    fetch_protocols_data parse_float rng random randbelow presponse g = (Ok P, g1) /\
    wf P /\ no_revenue_cols P /\
    str_col P "name" = Ok pn /\ str_col P "symbol" = Ok psym /\
    Forall (fun o => forall l, o <> OList l) psym /\
    num_col P "mcap" = Ok mc /\ num_col P "tvl" = Ok tv /\
    Forall finite mc /\ Forall finite tv /\
    nrows P = match presponse with Ok df => nrows df | Raise _ => 50%nat end.
Proof.
  intros Hshape. destruct presponse as [df|e].
  - destruct (Hshape df eq_refl) as (Hwf & Hname & Hsym & Htvl & Hmcap).
    destruct (col_or_none_text df "name" Hname) as (pn & Epn & _).
    destruct (col_or_none_text df "symbol" Hsym) as (psym & Eps & Hnl).
    exists (cleaned parse_float df), g, pn, psym,
           (numeric_cells parse_float (col_or_none df "mcap")),
           (numeric_cells parse_float (col_or_none df "tvl")).
    split.
    { unfold fetch_protocols_data. cbn [rbind]. by rewrite clean_protocols_run. }
    split; [by apply cleaned_wf|]. split; [apply cleaned_no_revenue|].
    split; [unfold str_col, get_col, cleaned; simpl; by rewrite Epn|].
    split; [unfold str_col, get_col, cleaned; simpl; by rewrite Eps|].
    split; [done|]. split; [done|]. split; [done|].
    split; [by apply numeric_cells_finite|]. split; [by apply numeric_cells_finite|done].
  - destruct (sample_protocols_run rng random randbelow Hrandom Hbelow g)
      as (data & g' & Hrun & HF).
    exists (protocols_frame data), g', (map (fun r => OStr (p_name r)) data),
           (map (fun r => OStr (p_symbol r)) data),
           (map p_mcap data), (map p_tvl data).
    split; [done|]. split; [apply protocols_frame_wf|].
    split; [apply protocols_frame_no_revenue|].
    split; [done|]. split; [done|]. split; [apply map_OStr_nolist|].
    split; [done|]. split; [done|].
    split; [|split].
    + apply Forall_fmap. eapply Forall2_Forall_r; [exact HF|].
      intros name r (_ & _ & (t & m & _ & Em & _) & _). simpl. rewrite Em. by eexists.
    + apply Forall_fmap. eapply Forall2_Forall_r; [exact HF|].
      intros name r (_ & _ & (t & m & Et & _) & _). simpl. rewrite Et. by eexists.
    + simpl. by rewrite <- (Forall2_length _ _ _ HF).
Qed.

Lemma fees_facts (fresponse : result (option (list fee_json))) (g : rng) :
  (forall ps, fresponse = Ok (Some ps) -> Forall fee_entry_shape ps) ->
  exists F g1 rn rs v24 v7 v30,
    fetch_fees_data parse_float rng random fresponse g = (Ok F, g1) /\
    wf F /\
    str_col F "name" = Ok rn /\ str_col F "symbol" = Ok rs /\
    num_col F "total24h" = Ok v24 /\ num_col F "total7d" = Ok v7 /\
    num_col F "total30d" = Ok v30 /\
    Forall finite v24 /\ Forall finite v7 /\ Forall finite v30.
Proof.
  intros Hshape.
  assert (exists F g1 rn rs v24 v7 v30,
            get_sample_fees_data rng random g = (Ok F, g1) /\
            wf F /\
            str_col F "name" = Ok rn /\ str_col F "symbol" = Ok rs /\
            num_col F "total24h" = Ok v24 /\ num_col F "total7d" = Ok v7 /\
            num_col F "total30d" = Ok v30 /\
            Forall finite v24 /\ Forall finite v7 /\ Forall finite v30) as Hsample.
  { destruct (sample_fees_run rng random Hrandom g) as (data & g' & Hrun & HF).
    destruct (fees_ok_finite data HF) as (Hrn & F24 & F7 & F30).
    exists (fees_frame data), g', (map (fun r => OStr (r_name r)) data),
           (map (fun r => OStr (r_symbol r)) data),
           (map r_total24h data), (map r_total7d data), (map r_total30d data).
    split; [done|]. split; [apply fees_frame_wf|]. by do 5 (split; [done|]). }
  destruct fresponse as [[[|p ps]|]|e]; try exact Hsample.
  specialize (Hshape (p :: ps) eq_refl).
  eexists _, g, _, _, _, _, _.
  split.
  { unfold fetch_fees_data, fees_table. cbn [rbind].
    rewrite (shape_no_overflow _ Hshape). reflexivity. }
  split; [unfold wf; cbn [columns nrows]; repeat constructor; cbn [snd col_len];
          unfold text_cells, revenue_cells; by rewrite length_map|].
  do 5 (split; [reflexivity|]).
  split; [|split]; apply revenue_cells_finite;
    (eapply Forall_impl; [exact Hshape|]); by intros q (_ & _ & ? & ? & ?).
Qed.

(** X26. From the requests to the scores: when the protocol response, if
    there is one, has the expected shape (name and symbol as columns of
    text or missing values, locked value and market cap as numbers) and
    the revenue entries, if there are any, hold text or nothing as name
    and symbol and numbers or nothing in the three revenue fields, the
    data path of [main] returns a scored table, whether either request
    succeeded or failed: one row per protocol of the response (50 without
    one), each with a venture score that is a finite number in [0, 100]. *)
Theorem main_scores (presponse : result DataFrame)
    (fresponse : result (option (list fee_json))) (g : rng) :
  (forall df, presponse = Ok df -> protocols_shape df) ->
  (forall ps, fresponse = Ok (Some ps) -> Forall fee_entry_shape ps) ->
  exists scored g' w,
    main_scored parse_float rng random randbelow presponse fresponse g
    = (Ok scored, g') /\
    nrows scored = match presponse with Ok df => nrows df | Raise _ => 50%nat end /\
    num_col scored "venture_score" = Ok w /\
    length w = nrows scored /\
    Forall score_value w.
Proof.
  intros Hp Hf.
  destruct (protocols_facts presponse g Hp)
    as (P & g1 & pn & psym & mc & tv & HrunP & HwfP & Hno & Hpn & Hpsym & Hnl
        & Hmc & Htv & Fmc & Ftv & HnP).
  destruct (fees_facts fresponse g1 Hf)
    as (F & g2 & rn & rs & v24 & v7 & v30 & HrunF & HwfF & Hrn & Hrs & H24 & H7
        & H30 & F24 & F7 & F30).
  destruct (pipeline_run [P; F] 0%nat 1%nat P F pn psym rn rs v24 v7 v30 mc tv)
    as (out & h' & O & Hrun & HS & Hout & HmcO & HtvO & _); try done.
  destruct Hout as (HnO & HwfO & Ht24 & Ht7 & Ht30 & _).
  match type of Ht30 with
  | (num_col _ _ = Ok ?x) => set (t30 := x) in *
  end.
  match type of Ht24 with
  | (num_col _ _ = Ok ?x) => set (t24 := x) in *
  end.
  match type of Ht7 with
  | (num_col _ _ = Ok ?x) => set (t7 := x) in *
  end.
  eexists _, g2, _. split.
  { unfold main_scored. erewrite gbind_run; [|exact HrunP].
    erewrite gbind_run; [|exact HrunF]. by rewrite Hrun, HS. }
  split; [simpl; by rewrite HnO|].
  split; [unfold score_table; col|].
  assert (length (map (clip 0 100)
            (map round1 (score_sum
               (valuation_score (upside_potential mc
                  (fair_value (annualized_revenue t30 t24)
                     (sector_median (ps_ratio_calc
                        (ps_ratio mc (annualized_revenue t30 t24)))))))
               (trend_score (revenue_trend t24 (daily_avg_7d t7)))
               (efficiency_score (tvl_mcap_ratio tv mc)))))
          = nrows O) as Lw.
  { pose proof (num_col_len _ _ _ HwfO Ht30). pose proof (num_col_len _ _ _ HwfO Ht24).
    pose proof (num_col_len _ _ _ HwfO Ht7). pose proof (num_col_len _ _ _ HwfO HmcO).
    pose proof (num_col_len _ _ _ HwfO HtvO). len. }
  split; [exact Lw|].
  apply Forall_rows. intros i Hi. rewrite Lw in Hi.
  destruct (finite_row O t30 t24 t7 mc tv HwfO Ht30 Ht24 Ht7 HmcO HtvO) with (i := i)
    as (a & b & c & m & t & Ha & Hb & Hc & Hm & Ht);
    [by apply merged_revenue_finite..|done|done|lia|].
  destruct (pipeline_row t30 t24 t7 mc tv i a b c m t Ha Hb Hc Hm Ht)
    as (r & s & u & qv & qt & qe & w & k & _ & _ & _ & _ & _ & _ & _ & _
        & _ & _ & _ & _ & Hw & Hbw & _).
  exists (Fin w). split; [exact Hw|]. by exists w.
Qed.

End MainTheory.

Lemma sample_response_shape : protocols_shape sample_response.
Proof.
  split; [repeat constructor|].
  split; [intros v [= <-]; eexists; split; [done|]; by repeat constructor|].
  split; [intros v Hv; discriminate Hv|].
  split; [intros v [= <-]; eexists; split; [done|]; by repeat constructor|].
  intros v Hv; discriminate Hv.
Qed.

Lemma sample_fee_entries_shape : Forall fee_entry_shape sample_fee_entries.
Proof. repeat constructor; by intros l. Qed.

Lemma main_scores_witness :
  exists scored g' w,
    main_scored (fun _ => NaN) nat count_random count_randbelow
      (Ok sample_response) (Ok (Some sample_fee_entries)) 0%nat
    = (Ok scored, g') /\
    nrows scored = nrows sample_response /\
    num_col scored "venture_score" = Ok w /\
    length w = nrows scored /\
    Forall score_value w.
Proof.
  apply (main_scores (fun _ => NaN) nat count_random count_randbelow
           count_random_ok count_randbelow_ok
           (Ok sample_response) (Ok (Some sample_fee_entries)) 0%nat).
  - intros df [= <-]. apply sample_response_shape.
  - intros ps [= <-]. apply sample_fee_entries_shape.
Defined.
